(** * Windowed list engine (virtual scroll): range computation and height cache

    Shallow embedding of [src/examples/Simple.tsx].  The file holds two
    variants of the hook [useFixedSizeList]:

    - the dynamic-height variant (first part of the file, lines 1-267), with
      [validateProps], the measurement cache, the linear scan and
      [measureElement]; it is embedded in [Module Dynamic];
    - the fixed-height variant (second part, lines 268-455), with the closed
      form range; it is embedded in [Module Fixed].

    Numbers.  JavaScript numbers that carry pixel quantities (scroll offsets,
    heights) are modelled as exact rationals [Q]; indices, counts and the
    overscan are modelled as integers [Z].  Rounding of IEEE doubles is not
    modelled.  Equality of pixel quantities is [Qeq] ([==]) unless the two
    sides are built by the same operations, in which case it is [=].

    The program computes in binary64.  A statement that compares a product
    or a quotient with a sum, or that needs the exact floor of a quotient,
    is therefore made for integer pixel quantities in the range where
    binary64 is exact, or in terms of the indices the program returns;
    [Module Binary64] gives the products and the running sum of the
    fixed-height variant in binary64, for the inputs on which rounding
    shows. *)

From stdpp Require Import gmap strings list fin_maps pretty.
From Stdlib Require Import PrimFloat.
From Stdlib Require Import Ascii QArith Qround Lia.

Local Open Scope Z_scope.

(** ** What the hooks share *)

(** The scroll element as far as the hooks read it: [scrollElement.scrollTop]. *)
Record HTMLElement := { el_scrollTop : Q }.

(** What the three effects have registered on the scroll element:
    the [ResizeObserver] of the first layout effect and the two ["scroll"]
    listeners (the one that copies [scrollTop], the one that drives
    [isScrolling]). *)
Record Subscriptions := {
  resizeObserved : bool;
  scrollTopListener : bool;
  isScrollingListener : bool
}.

Definition noSubscriptions : Subscriptions :=
  {| resizeObserved := false; scrollTopListener := false;
     isScrollingListener := false |}.

Definition allSubscriptions : Subscriptions :=
  {| resizeObserved := true; scrollTopListener := true;
     isScrollingListener := true |}.

(** Notifications of the environment: a ["scroll"] event (the element's
    [scrollTop] at that time), a resize entry (the measured block size) and
    the expiry of the [scrollingDelay] timer. *)
Inductive Notification :=
| ScrollEvent (top : Q)
| ResizeEntry (height : Q)
| TimerExpired.

Definition DEFAULT_OVERSCAN : Z := 3.
Definition DEFAULT_SCROLLING_DELAY : Z := 100.

(** [x > y] and [x >= y] on pixel quantities, as booleans. *)
Definition Qgtb (x y : Q) : bool := negb (Qle_bool x y).
Definition Qgeb (x y : Q) : bool := Qle_bool y x.

(** ** Fixed-height variant *)

Module Fixed.

Record UseFixedSizeListProps := {
  itemsCount : Z;
  itemHeight : Q;
  overscan : option Z;
  scrollingDelay : option Z;
  getScrollElement : option HTMLElement
}.

(** The [useState] cells of the hook. *)
Record State := {
  scrollTop : Q;
  isScrolling : bool;
  listHeight : Q
}.

Definition initialState : State :=
  {| scrollTop := 0%Q; isScrolling := false; listHeight := 0%Q |}.

Record VirtualItem := { index : Z; offsetTop : Q }.

Record Output := {
  virtualItems : list VirtualItem;
  totalHeight : Q;
  startIndex : Z;
  endIndex : Z;
  out_isScrolling : bool
}.

(** [for (let index = startIndex; index <= endIndex; index++) push(...)].
    The guard is the loop's; [fuel] bounds the number of iterations and
    [pushRows_fuel] shows that [endIndex - startIndex + 1] is always enough. *)
Fixpoint pushRows (fuel : nat) (index endIndex : Z) (itemHeight : Q)
  : list VirtualItem :=
  match fuel with
  | O => []
  | S fuel' =>
      if index <=? endIndex
      then {| index := index; offsetTop := (inject_Z index * itemHeight)%Q |}
             :: pushRows fuel' (index + 1) endIndex itemHeight
      else []
  end.

(** The body of [useMemo] followed by [totalHeight] and the returned object. *)
Definition useFixedSizeList (props : UseFixedSizeListProps) (st : State)
  : Output :=
  let itemHeight := itemHeight props in
  let itemsCount := itemsCount props in
  let overscan := default DEFAULT_OVERSCAN (overscan props) in
  let rangeStart := scrollTop st in
  let rangeEnd := (scrollTop st + listHeight st)%Q in
  let startIndex := Qfloor (rangeStart / itemHeight) in
  let endIndex := Qceiling (rangeEnd / itemHeight) in
  let startIndex := Z.max 0 (startIndex - overscan) in
  let endIndex := Z.min (itemsCount - 1) (endIndex + overscan) in
  let virtualItems :=
    pushRows (Z.to_nat (endIndex - startIndex + 1)) startIndex endIndex
      itemHeight in
  let totalHeight := (itemHeight * inject_Z itemsCount)%Q in
  {| virtualItems := virtualItems;
     totalHeight := totalHeight;
     startIndex := startIndex;
     endIndex := endIndex;
     out_isScrolling := isScrolling st |}.

(** The three effects, run when the hook mounts: each one reads
    [getScrollElement()] and returns at once when it is [null]; otherwise the
    observer and the listeners are registered and [handleScroll()] is called
    once. *)
Definition mount (props : UseFixedSizeListProps) (st : State)
  : State * Subscriptions :=
  match getScrollElement props with
  | None => (st, noSubscriptions)
  | Some scrollElement =>
      ({| scrollTop := el_scrollTop scrollElement;
          isScrolling := isScrolling st;
          listHeight := listHeight st |},
       allSubscriptions)
  end.

(** Delivery of a notification to the callbacks that are registered. *)
Definition notify (subs : Subscriptions) (n : Notification) (st : State)
  : State :=
  match n with
  | ScrollEvent top =>
      let st1 :=
        if scrollTopListener subs
        then {| scrollTop := top; isScrolling := isScrolling st;
                listHeight := listHeight st |}
        else st in
      if isScrollingListener subs
      then {| scrollTop := scrollTop st1; isScrolling := true;
              listHeight := listHeight st1 |}
      else st1
  | ResizeEntry height =>
      if resizeObserved subs
      then {| scrollTop := scrollTop st; isScrolling := isScrolling st;
              listHeight := height |}
      else st
  | TimerExpired =>
      if isScrollingListener subs
      then {| scrollTop := scrollTop st; isScrolling := false;
              listHeight := listHeight st |}
      else st
  end.

Definition notifyAll (subs : Subscriptions) (ns : list Notification)
  (st : State) : State :=
  foldl (fun s n => notify subs n s) st ns.

End Fixed.

(** ** Dynamic-height variant *)

(** Results of code that can throw. *)
Inductive Result (A : Type) : Type :=
| Ok (a : A)
| Throw (msg : string).
Arguments Ok {A} a.
Arguments Throw {A} msg.

Definition bind {A B : Type} (r : Result A) (k : A -> Result B) : Result B :=
  match r with
  | Ok a => k a
  | Throw msg => Throw msg
  end.

Notation "x <- r ;; k" := (bind r (fun x => k))
  (at level 100, r at next level, right associativity).

(** [type Key = string | number]; number keys are taken to be integers. *)
Inductive Key :=
| KeyString (s : string)
| KeyNumber (n : Z).

(** The measurement cache is a plain object: a key is turned into a property
    name when the object is read or written.  A string is its own name; a
    number is printed in decimal (which is what JavaScript does for integers
    below 10^21 in absolute value). *)
Definition toPropertyKey (k : Key) : string :=
  match k with
  | KeyString s => s
  | KeyNumber n => pretty n
  end.

(** *** [parseInt(s, 10)] on ASCII strings; [None] is [NaN] *)

Definition isWhiteSpace (c : Ascii.ascii) : bool :=
  let n := Z.of_N (Ascii.N_of_ascii c) in
  ((9 <=? n) && (n <=? 13)) || (n =? 32).

Definition digitValue (c : Ascii.ascii) : option Z :=
  let n := Z.of_N (Ascii.N_of_ascii c) in
  if (48 <=? n) && (n <=? 57) then Some (n - 48) else None.

Fixpoint trimStart (s : string) : string :=
  match s with
  | EmptyString => EmptyString
  | String c s' => if isWhiteSpace c then trimStart s' else s
  end.

(** The longest prefix of decimal digits, read as a number; [acc] is [None]
    until a first digit has been seen. *)
Fixpoint parseDigits (acc : option Z) (s : string) : option Z :=
  match s with
  | EmptyString => acc
  | String c s' =>
      match digitValue c with
      | Some d => parseDigits (Some (10 * default 0 acc + d)) s'
      | None => acc
      end
  end.

Definition parseInt (s : string) : option Z :=
  match trimStart s with
  | String "-"%char s' => Z.opp <$> parseDigits None s'
  | String "+"%char s' => parseDigits None s'
  | s' => parseDigits None s'
  end.

(** *** [Array.prototype.slice(start, end)] *)

Definition sliceBound (len k : Z) : Z :=
  if k <? 0 then Z.max (len + k) 0 else Z.min k len.

Definition slice {A : Type} (l : list A) (start stop : Z) : list A :=
  let len := Z.of_nat (length l) in
  let k := sliceBound len start in
  let final := sliceBound len stop in
  take (Z.to_nat (Z.max (final - k) 0)) (drop (Z.to_nat k) l).

Module Dynamic.

Record UseFixedSizeListProps := {
  itemsCount : Z;
  itemHeight : option (Z -> Q);
  estimateItemHeight : option (Z -> Q);
  getItemKey : Z -> Key;
  overscan : option Z;
  scrollingDelay : option Z;
  getScrollElement : option HTMLElement
}.

Definition configurationErrorMessage : string :=
  "You must pass either itemHeight or estimateItemHeight props".

(** [if (!itemHeight && !estimateItemHeight) throw new Error(...)]: a
    function is truthy, an absent option is not. *)
Definition validateProps (props : UseFixedSizeListProps) : Result unit :=
  match itemHeight props, estimateItemHeight props with
  | None, None => Throw configurationErrorMessage
  | _, _ => Ok tt
  end.

(** The [useState] cells of the hook; [measurementCache] is the object
    [Record<Key, number>], a finite map from property names to heights. *)
Record State := {
  scrollTop : Q;
  isScrolling : bool;
  listHeight : Q;
  measurementCache : gmap string Q
}.

Definition initialState : State :=
  {| scrollTop := 0%Q; isScrolling := false; listHeight := 0%Q;
     measurementCache := ∅ |}.

Record Row := {
  key : Key;
  index : Z;
  height : Q;
  offsetTop : Q
}.

Record Output := {
  virtualItems : list (option Row);
  totalHeight : Q;
  startIndex : Z;
  endIndex : Z;
  out_isScrolling : bool;
  allItems : list (option Row)
}.

(** [getItemHeight] of the [useMemo] body.  Calling the absent estimator is a
    [TypeError]; [validateProps] has thrown before in that configuration. *)
Definition getItemHeight (props : UseFixedSizeListProps)
  (measurementCache : gmap string Q) (index : Z) : Result Q :=
  match itemHeight props with
  | Some itemHeight => Ok (itemHeight index)
  | None =>
      let key := getItemKey props index in
      match measurementCache !! toPropertyKey key with
      | Some h => Ok h
      | None =>
          match estimateItemHeight props with
          | Some estimateItemHeight => Ok (estimateItemHeight index)
          | None => Throw "estimateItemHeight is not a function"
          end
      end
  end.

(** [Array(itemsCount)]: an array of [itemsCount] holes, a [RangeError] when
    the length is not an unsigned 32-bit integer. *)
Definition newArray (n : Z) : Result (list (option Row)) :=
  if (0 <=? n) && (n <? 2 ^ 32)
  then Ok (replicate (Z.to_nat n) None)
  else Throw "Invalid array length".

(** The variables the scan loop updates. *)
Record Scan := {
  s_startIndex : Z;
  s_endIndex : Z;
  s_totalHeight : Q;
  s_allItems : list (option Row)
}.

(** One iteration of the [for] loop. *)
Definition scanBody (props : UseFixedSizeListProps)
  (measurementCache : gmap string Q) (rangeStart rangeEnd : Q) (overscan : Z)
  (i : Z) (s : Scan) : Result Scan :=
  let key := getItemKey props i in
  h <- getItemHeight props measurementCache i ;;
  let row := {| key := key; index := i; height := h;
                offsetTop := s_totalHeight s |} in
  let totalHeight := (s_totalHeight s + height row)%Q in
  let allItems := <[Z.to_nat i := Some row]> (s_allItems s) in
  let startIndex :=
    if (s_startIndex s =? -1)
       && Qgtb (offsetTop row + height row) rangeStart
    then Z.max 0 (i - overscan)
    else s_startIndex s in
  let endIndex :=
    if (s_endIndex s =? -1)
       && Qgeb (offsetTop row + height row) rangeEnd
    then Z.min (itemsCount props - 1) (i + overscan)
    else s_endIndex s in
  Ok {| s_startIndex := startIndex; s_endIndex := endIndex;
        s_totalHeight := totalHeight; s_allItems := allItems |}.

(** [for (let i = 0; i < itemsCount; i++) ...].  The guard is the loop's;
    [fuel] bounds the number of iterations and [scanLoop_fuel] shows that
    [itemsCount - i] is always enough. *)
Fixpoint scanLoop (props : UseFixedSizeListProps)
  (measurementCache : gmap string Q) (rangeStart rangeEnd : Q) (overscan : Z)
  (fuel : nat) (i : Z) (s : Scan) : Result Scan :=
  match fuel with
  | O => Ok s
  | S fuel' =>
      if i <? itemsCount props
      then
        s' <- scanBody props measurementCache rangeStart rangeEnd overscan
                i s ;;
        scanLoop props measurementCache rangeStart rangeEnd overscan
          fuel' (i + 1) s'
      else Ok s
  end.

(** The body of [useMemo] and the returned object. *)
Definition computeWindow (props : UseFixedSizeListProps) (st : State)
  : Result Output :=
  let overscan := default DEFAULT_OVERSCAN (overscan props) in
  let rangeStart := scrollTop st in
  let rangeEnd := (scrollTop st + listHeight st)%Q in
  allItems <- newArray (itemsCount props) ;;
  s <- scanLoop props (measurementCache st) rangeStart rangeEnd overscan
         (Z.to_nat (itemsCount props)) 0
         {| s_startIndex := -1; s_endIndex := -1; s_totalHeight := 0%Q;
            s_allItems := allItems |} ;;
  let virtualItems :=
    slice (s_allItems s) (s_startIndex s) (s_endIndex s + 1) in
  Ok {| virtualItems := virtualItems;
        totalHeight := s_totalHeight s;
        startIndex := s_startIndex s;
        endIndex := s_endIndex s;
        out_isScrolling := isScrolling st;
        allItems := s_allItems s |}.

(** One render of the hook: [validateProps(props)], then the window. *)
Definition useFixedSizeList (props : UseFixedSizeListProps) (st : State)
  : Result Output :=
  _ <- validateProps props ;;
  computeWindow props st.

(** The element handed to the [measureElement] ref callback, as far as the
    callback reads it: [getAttribute("data-index")] and
    [getBoundingClientRect().height]. *)
Record Element := {
  dataIndex : option string;
  rectHeight : Q
}.

(** [element.getAttribute("data-index") || ""]: an absent attribute and an
    empty one both give the empty string. *)
Definition indexAttribute (element : Element) : string :=
  match dataIndex element with
  | None | Some EmptyString => EmptyString
  | Some s => s
  end.

Definition invalidIndexMessage : string :=
  "dynamic element must have a valid 'data-index' attribute".

(** [measureElement]: the new state and what was written with
    [console.error]. *)
Definition measureElement (props : UseFixedSizeListProps)
  (element : option Element) (st : State) : State * list string :=
  match element with
  | None => (st, [])
  | Some element =>
      match parseInt (indexAttribute element) with
      | None => (st, [invalidIndexMessage])
      | Some index =>
          let key := getItemKey props index in
          ({| scrollTop := scrollTop st;
              isScrolling := isScrolling st;
              listHeight := listHeight st;
              measurementCache :=
                <[toPropertyKey key := rectHeight element]>
                  (measurementCache st) |},
           [])
      end
  end.

(** The three effects at mount, as in the fixed-height variant. *)
Definition mount (props : UseFixedSizeListProps) (st : State)
  : State * Subscriptions :=
  match getScrollElement props with
  | None => (st, noSubscriptions)
  | Some scrollElement =>
      ({| scrollTop := el_scrollTop scrollElement;
          isScrolling := isScrolling st;
          listHeight := listHeight st;
          measurementCache := measurementCache st |},
       allSubscriptions)
  end.

Definition notify (subs : Subscriptions) (n : Notification) (st : State)
  : State :=
  match n with
  | ScrollEvent top =>
      let st1 :=
        if scrollTopListener subs
        then {| scrollTop := top; isScrolling := isScrolling st;
                listHeight := listHeight st;
                measurementCache := measurementCache st |}
        else st in
      if isScrollingListener subs
      then {| scrollTop := scrollTop st1; isScrolling := true;
              listHeight := listHeight st1;
              measurementCache := measurementCache st1 |}
      else st1
  | ResizeEntry height =>
      if resizeObserved subs
      then {| scrollTop := scrollTop st; isScrolling := isScrolling st;
              listHeight := height;
              measurementCache := measurementCache st |}
      else st
  | TimerExpired =>
      if isScrollingListener subs
      then {| scrollTop := scrollTop st; isScrolling := false;
              listHeight := listHeight st;
              measurementCache := measurementCache st |}
      else st
  end.

Definition notifyAll (subs : Subscriptions) (ns : list Notification)
  (st : State) : State :=
  foldl (fun s n => notify subs n s) st ns.

End Dynamic.

(** ** Definitions used to state the properties *)

(** The sum of the heights of rows [0 .. n-1], added from the first row on. *)
Fixpoint sumHeights (heightOf : Z -> Q) (n : nat) : Q :=
  match n with
  | O => 0%Q
  | S n' => (sumHeights heightOf n' + heightOf (Z.of_nat n'))%Q
  end.

(** Bottom edge of row [i]: its offset plus its height. *)
Definition rowBottom (heightOf : Z -> Q) (i : Z) : Q :=
  sumHeights heightOf (S (Z.to_nat i)).

(** The first index below [n] at which [P] holds. *)
Fixpoint firstIndex (P : Z -> bool) (n : nat) : option Z :=
  match n with
  | O => None
  | S n' =>
      match firstIndex P n' with
      | Some a => Some a
      | None => if P (Z.of_nat n') then Some (Z.of_nat n') else None
      end
  end.

(** The closed form of the fixed-height range, in the words of the
    specification: [rawStart = floor(scrollOffset / itemHeight)],
    [rawEnd = ceil((scrollOffset + viewportHeight) / itemHeight)],
    [startIndex = max(0, rawStart - overscan)],
    [endIndex = min(itemsCount - 1, rawEnd + overscan)]. *)
Definition closedFormStart (scrollOffset itemHeight : Q) (overscan : Z) : Z :=
  let rawStart := Qfloor (scrollOffset / itemHeight) in
  Z.max 0 (rawStart - overscan).

Definition closedFormEnd (scrollOffset viewportHeight itemHeight : Q)
  (itemsCount overscan : Z) : Z :=
  let rawEnd := Qceiling ((scrollOffset + viewportHeight) / itemHeight) in
  Z.min (itemsCount - 1) (rawEnd + overscan).

(** The height of a row in dynamic mode, in the words of the specification:
    the cached height for the item's key if present, else the estimate. *)
Definition cacheOrEstimate (cache : gmap string Q) (getItemKey : Z -> Key)
  (estimate : Z -> Q) (i : Z) : Q :=
  match cache !! toPropertyKey (getItemKey i) with
  | Some h => h
  | None => estimate i
  end.

(** The row the scan builds for index [i] when [heightOf] gives the heights. *)
Definition rowAt (getItemKey : Z -> Key) (heightOf : Z -> Q) (i : Z)
  : Dynamic.Row :=
  {| Dynamic.key := getItemKey i;
     Dynamic.index := i;
     Dynamic.height := heightOf i;
     Dynamic.offsetTop := sumHeights heightOf (Z.to_nat i) |}.

(** What the scan leaves in [startIndex] and [endIndex] after it has visited
    the rows [0 .. n-1]: the padded index of the first row whose bottom edge
    is beyond [rangeStart] (reaches [rangeEnd]), and [-1] when there is no
    such row. *)
Definition scanStart (heightOf : Z -> Q) (rangeStart : Q) (overscan : Z)
  (n : nat) : Z :=
  match firstIndex (fun j => Qgtb (rowBottom heightOf j) rangeStart) n with
  | Some a => Z.max 0 (a - overscan)
  | None => -1
  end.

Definition scanEnd (heightOf : Z -> Q) (rangeEnd : Q) (itemsCount overscan : Z)
  (n : nat) : Z :=
  match firstIndex (fun j => Qgeb (rowBottom heightOf j) rangeEnd) n with
  | Some b => Z.min (itemsCount - 1) (b + overscan)
  | None => -1
  end.

(** The variables of the scan before the first iteration, for an array of
    [n] holes. *)
Definition scanInit (n : nat) : Dynamic.Scan :=
  {| Dynamic.s_startIndex := -1; Dynamic.s_endIndex := -1;
     Dynamic.s_totalHeight := 0%Q;
     Dynamic.s_allItems := replicate n None |}.

(** First invariant of the scan, on entry to iteration [k]: the running
    total and the rows written so far. *)
Definition scanned (props : Dynamic.UseFixedSizeListProps)
  (heightOf : Z -> Q) (k : nat) (s : Dynamic.Scan) : Prop :=
  Dynamic.s_totalHeight s = sumHeights heightOf k /\
  length (Dynamic.s_allItems s) = Z.to_nat (Dynamic.itemsCount props) /\
  forall j, (j < k)%nat ->
    Dynamic.s_allItems s !! j =
    Some (Some (rowAt (Dynamic.getItemKey props) heightOf (Z.of_nat j))).

(** Second invariant of the scan: the two indices. *)
Definition ranged (props : Dynamic.UseFixedSizeListProps)
  (heightOf : Z -> Q) (rangeStart rangeEnd : Q) (overscan : Z)
  (k : nat) (s : Dynamic.Scan) : Prop :=
  (k <= Z.to_nat (Dynamic.itemsCount props))%nat /\
  Dynamic.s_totalHeight s = sumHeights heightOf k /\
  Dynamic.s_startIndex s = scanStart heightOf rangeStart overscan k /\
  Dynamic.s_endIndex s =
    scanEnd heightOf rangeEnd (Dynamic.itemsCount props) overscan k.

(** The invariant of the specification on a returned range:
    [0 <= startIndex <= endIndex <= itemsCount - 1]. *)
Definition rangeInvariant (startIndex endIndex itemsCount : Z) : Prop :=
  0 <= startIndex /\ startIndex <= endIndex /\ endIndex <= itemsCount - 1.

(** Concrete configurations used in the examples. *)
Definition fixedProps (n : Z) (h : Q) (o : option Z) (el : option HTMLElement)
  : Fixed.UseFixedSizeListProps :=
  {| Fixed.itemsCount := n;
     Fixed.itemHeight := h;
     Fixed.overscan := o;
     Fixed.scrollingDelay := None;
     Fixed.getScrollElement := el |}.

Definition fixedState (s v : Q) : Fixed.State :=
  {| Fixed.scrollTop := s; Fixed.isScrolling := false; Fixed.listHeight := v |}.

Definition dynamicProps (n : Z) (estimate : Z -> Q) (getKey : Z -> Key)
  (o : option Z) (el : option HTMLElement) : Dynamic.UseFixedSizeListProps :=
  {| Dynamic.itemsCount := n;
     Dynamic.itemHeight := None;
     Dynamic.estimateItemHeight := Some estimate;
     Dynamic.getItemKey := getKey;
     Dynamic.overscan := o;
     Dynamic.scrollingDelay := None;
     Dynamic.getScrollElement := el |}.

Definition dynamicState (s v : Q) (cache : gmap string Q) : Dynamic.State :=
  {| Dynamic.scrollTop := s; Dynamic.isScrolling := false;
     Dynamic.listHeight := v; Dynamic.measurementCache := cache |}.

(** Three rows with the estimate 40 and number keys, nothing measured. *)
Definition shortListProps : Dynamic.UseFixedSizeListProps :=
  dynamicProps 3 (fun _ => 40%Q) KeyNumber None None.

(** A rendered element with its [data-index] attribute and measured height. *)
Definition renderedElement (attribute : string) (h : Q) : Dynamic.Element :=
  {| Dynamic.dataIndex := Some attribute; Dynamic.rectHeight := h |}.

(** A key function that gives row 0 the string key ["1"] and every other
    row its index as a number key. *)
Definition aliasKey (i : Z) : Key :=
  if i =? 0 then KeyString "1" else KeyNumber i.

Definition aliasProps : Dynamic.UseFixedSizeListProps :=
  dynamicProps 2 (fun _ => 40%Q) aliasKey None None.

(** ** The [isScrolling] effect and the host's timers *)

(** The third effect of both variants ([useEffect], lines 99-125 and
    342-368) together with the part of the host it talks to: the timers it
    has scheduled with [setTimeout] and the clock.  Time is in milliseconds;
    a timer may fire at any moment from its due time on. *)
Module Debounce.

Record State := {
  isScrolling : bool;           (* the [useState] cell *)
  timeoutId : option nat;       (* [let timeoutId: number | null] *)
  listening : bool;             (* the "scroll" listener is registered *)
  pending : gmap nat Z;         (* host: scheduled timers and their due time *)
  nextId : nat;                 (* host: the id the next timer gets *)
  now : Z                       (* host: the clock *)
}.

(** [setTimeout(callback, delay)]: a fresh id, due [delay] from now (a
    negative delay counts as 0). *)
Definition setTimeout (delay : Z) (st : State) : State * nat :=
  ({| isScrolling := isScrolling st;
      timeoutId := timeoutId st;
      listening := listening st;
      pending := <[nextId st := now st + Z.max 0 delay]> (pending st);
      nextId := S (nextId st);
      now := now st |},
   nextId st).

(** [clearTimeout(id)]. *)
Definition clearTimeout (id : nat) (st : State) : State :=
  {| isScrolling := isScrolling st;
     timeoutId := timeoutId st;
     listening := listening st;
     pending := delete id (pending st);
     nextId := nextId st;
     now := now st |}.

Definition setIsScrolling (b : bool) (st : State) : State :=
  {| isScrolling := b;
     timeoutId := timeoutId st;
     listening := listening st;
     pending := pending st;
     nextId := nextId st;
     now := now st |}.

Definition setTimeoutId (id : option nat) (st : State) : State :=
  {| isScrolling := isScrolling st;
     timeoutId := id;
     listening := listening st;
     pending := pending st;
     nextId := nextId st;
     now := now st |}.

(** The first render: [useState(false)], no effect has run yet.  The host
    has none of this effect's timers; it is at timer id [firstId] and at time
    [start]. *)
Definition initial (firstId : nat) (start : Z) : State :=
  {| isScrolling := false;
     timeoutId := None;
     listening := false;
     pending := ∅;
     nextId := firstId;
     now := start |}.

(** The effect body: nothing without a scroll element, else
    [timeoutId = null] and the listener registered.  It does not write the
    [isScrolling] cell. *)
Definition effect (scrollElement : option HTMLElement) (st : State) : State :=
  {| isScrolling := isScrolling st;
     timeoutId := None;
     listening := match scrollElement with Some _ => true | None => false end;
     pending := pending st;
     nextId := nextId st;
     now := now st |}.

(** The first run of the effect, after the first render. *)
Definition mount (scrollElement : option HTMLElement) (firstId : nat)
  (start : Z) : State :=
  effect scrollElement (initial firstId start).

(** [handleScroll] of the effect. *)
Definition handleScroll (scrollingDelay : Z) (st : State) : State :=
  let st := setIsScrolling true st in
  let st :=
    match timeoutId st with
    | Some id => clearTimeout id st
    | None => st
    end in
  let '(st, id) := setTimeout scrollingDelay st in
  setTimeoutId (Some id) st.

(** The function the effect returns: the listener is removed and the timer
    held in [timeoutId] is cleared. *)
Definition cleanup (st : State) : State :=
  let st :=
    {| isScrolling := isScrolling st;
       timeoutId := timeoutId st;
       listening := false;
       pending := pending st;
       nextId := nextId st;
       now := now st |} in
  match timeoutId st with
  | Some id => clearTimeout id st
  | None => st
  end.

(** What can happen to a mounted effect: a ["scroll"] event, time passing,
    the host firing timer [id], the effect being cleaned up. *)
Inductive Event :=
| Scroll
| Tick (dt : Z)
| Fire (id : nat)
| Cleanup.

Definition step (scrollingDelay : Z) (ev : Event) (st : State) : State :=
  match ev with
  | Scroll => if listening st then handleScroll scrollingDelay st else st
  | Tick dt =>
      {| isScrolling := isScrolling st;
         timeoutId := timeoutId st;
         listening := listening st;
         pending := pending st;
         nextId := nextId st;
         now := now st + Z.max 0 dt |}
  | Fire id =>
      match pending st !! id with
      | Some due =>
          if due <=? now st
          then setIsScrolling false (clearTimeout id st)
          else st
      | None => st
      end
  | Cleanup => cleanup st
  end.

Definition run (scrollingDelay : Z) (evs : list Event) (st : State) : State :=
  foldl (fun st ev => step scrollingDelay ev st) st evs.

(** The effect runs again when one of its dependencies [getScrollElement],
    [scrollingDelay] changes: the cleanup of the previous run, then the body.
    The [isScrolling] cell lives on across the runs. *)
Definition rerun (scrollElement : option HTMLElement) (st : State) : State :=
  effect scrollElement (cleanup st).

(** Successive runs of the effect, each with the scroll element and the
    delay of its render and with the events that reach it. *)
Fixpoint runs (lifetimes : list (option HTMLElement * Z * list Event))
  (st : State) : State :=
  match lifetimes with
  | [] => st
  | (scrollElement, scrollingDelay, evs) :: rest =>
      runs rest (run scrollingDelay evs (rerun scrollElement st))
  end.

End Debounce.

(** ** The products and the sum of the fixed-height variant in binary64 *)

(** [totalHeight = itemHeight * itemsCount],
    [offsetTop: index * itemHeight] and the quotient
    [rangeStart / itemHeight] as the program computes them, on IEEE doubles,
    and the sum of the heights of the rows [0 .. n-1] added in index order,
    on IEEE doubles. *)
Module Binary64.

Definition totalHeight (itemHeight itemsCount : float) : float :=
  PrimFloat.mul itemHeight itemsCount.

Definition offsetTop (index itemHeight : float) : float :=
  PrimFloat.mul index itemHeight.

Fixpoint sumHeights (heightOf : nat -> float) (n : nat) : float :=
  match n with
  | O => PrimFloat.zero
  | S n' => PrimFloat.add (sumHeights heightOf n') (heightOf n')
  end.

(** The operand of [Math.floor] in [startIndex]. *)
Definition rawStart (rangeStart itemHeight : float) : float :=
  PrimFloat.div rangeStart itemHeight.

(** The double that the literal [0.1] denotes: the quotient [1 / 10],
    rounded. *)
Definition tenth : float := 0x1.999999999999ap-4.

End Binary64.

(** ** The [Simple] component of the dynamic-height variant *)

Module Simple.

Record Item := { id : string; text : string }.

(** [(index) => listItems[index].id]: reading [id] of [undefined] throws. *)
Definition getItemKey (listItems : list Item) (index : Z) : Result Key :=
  match (if 0 <=? index then listItems !! Z.to_nat index else None) with
  | Some item => Ok (KeyString (id item))
  | None => Throw "Cannot read properties of undefined (reading 'id')"
  end.

(** The [onClick] of the button: [items.slice().reverse()]. *)
Definition reverseItems (listItems : list Item) : list Item :=
  reverse listItems.

(** [getItemKey] is a total function that returns what the callback of the
    component returns wherever that one returns. *)
Definition keyFunction (listItems : list Item) (getKey : Z -> Key) : Prop :=
  forall index k, getItemKey listItems index = Ok k -> getKey index = k.

(** The props the component passes to the hook. *)
Definition props (listItems : list Item) (getKey : Z -> Key)
  (scrollElement : option HTMLElement) : Dynamic.UseFixedSizeListProps :=
  {| Dynamic.itemsCount := Z.of_nat (length listItems);
     Dynamic.itemHeight := None;
     Dynamic.estimateItemHeight := Some (fun _ => 40%Q);
     Dynamic.getItemKey := getKey;
     Dynamic.overscan := None;
     Dynamic.scrollingDelay := None;
     Dynamic.getScrollElement := scrollElement |}.

(** The element rendered for a virtual row:
    [data-index={virtualItem.index}], with the height the layout gives it. *)
Definition rowElement (layoutHeight : Z -> Q) (index : Z) : Dynamic.Element :=
  {| Dynamic.dataIndex := Some (pretty index);
     Dynamic.rectHeight := layoutHeight index |}.

(** [ref={measureElement}] on every rendered row: the callback runs once
    for each of them. *)
Definition measureRows (props : Dynamic.UseFixedSizeListProps)
  (layoutHeight : Z -> Q) (indices : list Z) (st : Dynamic.State)
  : Dynamic.State :=
  foldl
    (fun st index =>
       fst (Dynamic.measureElement props
              (Some (rowElement layoutHeight index)) st))
    st indices.

End Simple.

(** What reaches the dynamic-height hook between two renders: a notification
    of the scroll element or a call of the [measureElement] ref callback. *)
Inductive Action :=
| Notify (n : Notification)
| Measure (element : option Dynamic.Element).

Definition act (props : Dynamic.UseFixedSizeListProps)
  (subs : Subscriptions) (a : Action) (st : Dynamic.State) : Dynamic.State :=
  match a with
  | Notify n => Dynamic.notify subs n st
  | Measure element => fst (Dynamic.measureElement props element st)
  end.

Definition actAll (props : Dynamic.UseFixedSizeListProps)
  (subs : Subscriptions) (actions : list Action) (st : Dynamic.State)
  : Dynamic.State :=
  foldl (fun st a => act props subs a st) st actions.

(** The scroll offsets and the viewport heights a list of notifications
    carries, in order. *)
Definition scrollTops (ns : list Notification) : list Q :=
  omap (fun n => match n with ScrollEvent top => Some top | _ => None end) ns.

Definition resizeHeights (ns : list Notification) : list Q :=
  omap (fun n => match n with ResizeEntry h => Some h | _ => None end) ns.

(** Top edge of row [i]: the sum of the heights before it. *)
Definition rowTop (heightOf : Z -> Q) (i : Z) : Q :=
  sumHeights heightOf (Z.to_nat i).

(** A configuration of the dynamic-height hook with [itemHeight] supplied. *)
Definition heightFunctionProps (n : Z) (itemHeight : Z -> Q)
  (getKey : Z -> Key) (o : option Z) : Dynamic.UseFixedSizeListProps :=
  {| Dynamic.itemsCount := n;
     Dynamic.itemHeight := Some itemHeight;
     Dynamic.estimateItemHeight := None;
     Dynamic.getItemKey := getKey;
     Dynamic.overscan := o;
     Dynamic.scrollingDelay := None;
     Dynamic.getScrollElement := None |}.

(** Three items and their keys. *)
Definition threeItems : list Simple.Item :=
  [ {| Simple.id := "a"; Simple.text := "first" |};
    {| Simple.id := "b"; Simple.text := "second" |};
    {| Simple.id := "c"; Simple.text := "third" |} ].

Definition threeKeys (i : Z) : Key :=
  if i =? 0 then KeyString "a"
  else if i =? 1 then KeyString "b" else KeyString "c".

Definition threeKeysReversed (i : Z) : Key :=
  if i =? 0 then KeyString "c"
  else if i =? 1 then KeyString "b" else KeyString "a".

(** The invariant of the [isScrolling] effect: the only timer that can be
    pending is the one held in [timeoutId]; while the listener is registered
    the flag is set exactly when a timer is pending; without the listener no
    timer is pending. *)
Definition debounceInvariant (st : Debounce.State) : Prop :=
  (forall id due, Debounce.pending st !! id = Some due ->
     Debounce.timeoutId st = Some id) /\
  (Debounce.listening st = true ->
     (Debounce.isScrolling st = true <-> Debounce.pending st <> ∅)) /\
  (Debounce.listening st = false -> Debounce.pending st = ∅).

(** After a scroll at a time from which the flag is due not before [limit]:
    the clock has not gone back, no pending timer is due before [limit], and
    the flag is cleared only from [limit] on. *)
Definition debounceArmed (since limit : Z) (st : Debounce.State) : Prop :=
  since <= Debounce.now st /\
  (forall id due, Debounce.pending st !! id = Some due -> limit <= due) /\
  (Debounce.isScrolling st = false -> limit <= Debounce.now st).

(** What holds of the [isScrolling] effect over all its runs: a pending
    timer is the one held in [timeoutId], and while it is pending the flag is
    set and the listener registered. *)
Definition debounceHeld (st : Debounce.State) : Prop :=
  forall id due, Debounce.pending st !! id = Some due ->
    Debounce.timeoutId st = Some id /\
    Debounce.isScrolling st = true /\
    Debounce.listening st = true.

(** ** The model on small inputs *)

Example parseInt_17 : parseInt "17" = Some 17.
Proof. reflexivity. Qed.

Example parseInt_prefix : parseInt "  -3px" = Some (-3).
Proof. reflexivity. Qed.

Example parseInt_empty : parseInt "" = None.
Proof. reflexivity. Qed.

Example parseInt_letters : parseInt "abc" = None.
Proof. reflexivity. Qed.

Example slice_unset : slice [1; 2; 3] (-1) 0 = [].
Proof. reflexivity. Qed.

Example slice_prefix : slice [1; 2; 3] 0 2 = [1; 2].
Proof. reflexivity. Qed.

(** ** Facts on rationals and on the helper definitions *)

Lemma Qgtb_iff (x y : Q) : Qgtb x y = true <-> (y < x)%Q.
Proof.
  unfold Qgtb. rewrite negb_true_iff, <- not_true_iff_false, Qle_bool_iff.
  split; [apply Qnot_le_lt | apply Qlt_not_le].
Qed.

Lemma Qgeb_iff (x y : Q) : Qgeb x y = true <-> (y <= x)%Q.
Proof. unfold Qgeb. apply Qle_bool_iff. Qed.

Lemma inject_Z_le_inv (a b : Z) : (inject_Z a <= inject_Z b)%Q -> a <= b.
Proof. intros H. rewrite Zle_Qle. exact H. Qed.

Lemma Qdiv_le_mono (x y h : Q) : (0 < h)%Q -> (x <= y)%Q -> (x / h <= y / h)%Q.
Proof.
  intros Hh Hxy. unfold Qdiv. apply Qmult_le_compat_r; [exact Hxy |].
  apply Qlt_le_weak, Qinv_lt_0_compat, Hh.
Qed.

Lemma Qdiv_nonneg (x h : Q) : (0 < h)%Q -> (0 <= x)%Q -> (0 <= x / h)%Q.
Proof.
  intros Hh Hx. unfold Qdiv. apply Qmult_le_0_compat; [exact Hx |].
  apply Qlt_le_weak, Qinv_lt_0_compat, Hh.
Qed.

Lemma Qdiv_lt_bound (x h : Q) (n : Z) :
  (0 < h)%Q -> (x < h * inject_Z n)%Q -> (x / h < inject_Z n)%Q.
Proof.
  intros Hh Hx. apply Qlt_shift_div_r; [exact Hh |].
  now rewrite Qmult_comm.
Qed.

Lemma sumHeights_const (h : Q) (n : nat) :
  (sumHeights (fun _ => h) n == inject_Z (Z.of_nat n) * h)%Q.
Proof.
  induction n as [|n IH]; simpl sumHeights.
  - now rewrite Qmult_0_l.
  - rewrite IH, Nat2Z.inj_succ. unfold Z.succ. rewrite inject_Z_plus. ring.
Qed.

Lemma firstIndex_Some (P : Z -> bool) (n : nat) (a : Z) :
  firstIndex P n = Some a ->
  0 <= a < Z.of_nat n /\ P a = true /\
  forall j, 0 <= j < a -> P j = false.
Proof.
  induction n as [|n IH]; simpl; [discriminate |].
  destruct (firstIndex P n) as [b|] eqn:Hb.
  - intros [= ->]. destruct (IH eq_refl) as (? & ? & ?). repeat split; auto; lia.
  - destruct (P (Z.of_nat n)) eqn:HP; [| discriminate].
    intros [= <-]. repeat split; auto; try lia.
    clear IH HP. revert Hb. induction n as [|m IHm]; simpl; [lia |].
    destruct (firstIndex P m) eqn:Hm; [discriminate |].
    destruct (P (Z.of_nat m)) eqn:HPm; [discriminate |].
    intros _ j Hj. destruct (decide (j = Z.of_nat m)) as [-> | Hne]; [exact HPm |].
    apply IHm; [reflexivity | lia].
Qed.

Lemma firstIndex_None (P : Z -> bool) (n : nat) :
  firstIndex P n = None <-> forall j, 0 <= j < Z.of_nat n -> P j = false.
Proof.
  induction n as [|n IH]; simpl.
  - split; [intros _ j Hj; lia | reflexivity].
  - destruct (firstIndex P n) as [a|] eqn:Ha.
    + split; [discriminate |]. intros H.
      apply firstIndex_Some in Ha as (Hr & HP & _).
      rewrite H in HP by lia. discriminate.
    + destruct IH as [IH _]. specialize (IH eq_refl).
      destruct (P (Z.of_nat n)) eqn:HP.
      * split; [discriminate |]. intros H. rewrite H in HP by lia. discriminate.
      * split; [| reflexivity]. intros _ j Hj.
        destruct (decide (j = Z.of_nat n)) as [-> | Hne]; [exact HP |].
        apply IH. lia.
Qed.

(** ** Fixed-height variant: the range and the rows *)

Lemma pushRows_fuel (fuel : nat) (i e : Z) (h : Q) :
  (Z.to_nat (e - i + 1) <= fuel)%nat ->
  Fixed.pushRows fuel i e h = Fixed.pushRows (Z.to_nat (e - i + 1)) i e h.
Proof.
  revert i. induction fuel as [|fuel IH]; intros i Hfuel.
  - replace (Z.to_nat (e - i + 1)) with O by lia. reflexivity.
  - simpl. destruct (i <=? e) eqn:Hie.
    + apply Z.leb_le in Hie.
      replace (Z.to_nat (e - i + 1)) with (S (Z.to_nat (e - (i + 1) + 1))) by lia.
      simpl. apply Z.leb_le in Hie. rewrite Hie. f_equal. apply IH. lia.
    + apply Z.leb_gt in Hie.
      replace (Z.to_nat (e - i + 1)) with O by lia. reflexivity.
Qed.

Lemma pushRows_indices (fuel : nat) (i e : Z) (h : Q) :
  (Z.to_nat (e - i + 1) <= fuel)%nat ->
  Fixed.index <$> Fixed.pushRows fuel i e h = seqZ i (e - i + 1).
Proof.
  revert i. induction fuel as [|fuel IH]; intros i Hfuel.
  - rewrite seqZ_nil by lia. reflexivity.
  - simpl. destruct (i <=? e) eqn:Hie.
    + apply Z.leb_le in Hie. rewrite (seqZ_cons i) by lia.
      rewrite fmap_cons. simpl. f_equal.
      rewrite IH by lia. f_equal; lia.
    + apply Z.leb_gt in Hie. rewrite seqZ_nil by lia. reflexivity.
Qed.

Lemma pushRows_rows (fuel : nat) (i e : Z) (h : Q) (row : Fixed.VirtualItem) :
  row ∈ Fixed.pushRows fuel i e h ->
  i <= Fixed.index row <= e /\
  Fixed.offsetTop row = (inject_Z (Fixed.index row) * h)%Q.
Proof.
  revert i. induction fuel as [|fuel IH]; intros i; simpl.
  - intros H. inversion H.
  - destruct (i <=? e) eqn:Hie; [| intros H; inversion H].
    apply Z.leb_le in Hie. rewrite elem_of_cons. intros [-> | Hin].
    + simpl. split; [lia | reflexivity].
    + apply IH in Hin as [? ?]. split; [lia | assumption].
Qed.

Lemma fixed_startIndex_eq (props : Fixed.UseFixedSizeListProps)
  (st : Fixed.State) :
  Fixed.startIndex (Fixed.useFixedSizeList props st) =
  closedFormStart (Fixed.scrollTop st) (Fixed.itemHeight props)
    (default DEFAULT_OVERSCAN (Fixed.overscan props)).
Proof. reflexivity. Qed.

Lemma fixed_endIndex_eq (props : Fixed.UseFixedSizeListProps)
  (st : Fixed.State) :
  Fixed.endIndex (Fixed.useFixedSizeList props st) =
  closedFormEnd (Fixed.scrollTop st) (Fixed.listHeight st)
    (Fixed.itemHeight props) (Fixed.itemsCount props)
    (default DEFAULT_OVERSCAN (Fixed.overscan props)).
Proof. reflexivity. Qed.

Lemma fixed_virtualItems_indices (props : Fixed.UseFixedSizeListProps)
  (st : Fixed.State) :
  let out := Fixed.useFixedSizeList props st in
  Fixed.index <$> Fixed.virtualItems out =
  seqZ (Fixed.startIndex out) (Fixed.endIndex out - Fixed.startIndex out + 1).
Proof. simpl. apply pushRows_indices. lia. Qed.

Lemma fixed_virtualItems_rows (props : Fixed.UseFixedSizeListProps)
  (st : Fixed.State) (row : Fixed.VirtualItem) :
  let out := Fixed.useFixedSizeList props st in
  row ∈ Fixed.virtualItems out ->
  Fixed.startIndex out <= Fixed.index row <= Fixed.endIndex out /\
  Fixed.offsetTop row = (inject_Z (Fixed.index row) * Fixed.itemHeight props)%Q.
Proof. simpl. apply pushRows_rows. Qed.

(** The raw bounds are the floor and the ceiling in the usual sense: with a
    positive [itemHeight], row [rawStart] is the one that contains
    [scrollOffset], and [rawEnd] is the least index whose top edge is not
    above [scrollOffset + viewportHeight]. *)
Lemma Qdiv_mult_cancel (x h : Q) : (0 < h)%Q -> (x / h * h == x)%Q.
Proof. intros Hh. field. intros H0. rewrite H0 in Hh. now apply Qlt_irrefl in Hh. Qed.

Lemma rawStart_bounds (s h : Q) :
  (0 < h)%Q ->
  (inject_Z (Qfloor (s / h)) * h <= s)%Q /\
  (s < inject_Z (Qfloor (s / h) + 1) * h)%Q.
Proof.
  intros Hh. split.
  - rewrite <- (Qdiv_mult_cancel s h Hh) at 2.
    apply Qmult_le_compat_r; [apply Qfloor_le | now apply Qlt_le_weak].
  - rewrite <- (Qdiv_mult_cancel s h Hh) at 1.
    apply Qmult_lt_compat_r; [exact Hh | apply Qlt_floor].
Qed.

Lemma rawEnd_bounds (e h : Q) :
  (0 < h)%Q ->
  (inject_Z (Qceiling (e / h) - 1) * h < e)%Q /\
  (e <= inject_Z (Qceiling (e / h)) * h)%Q.
Proof.
  intros Hh. split.
  - rewrite <- (Qdiv_mult_cancel e h Hh) at 2.
    apply Qmult_lt_compat_r; [exact Hh | apply Qceiling_lt].
  - rewrite <- (Qdiv_mult_cancel e h Hh) at 1.
    apply Qmult_le_compat_r; [apply Qle_ceiling | now apply Qlt_le_weak].
Qed.

(** C1.  In fixed-height mode with [itemHeight > 0] the computed range is the
    closed form [startIndex = max(0, floor(scrollOffset/itemHeight) -
    overscan)], [endIndex = min(itemsCount-1,
    ceil((scrollOffset+viewportHeight)/itemHeight) + overscan)],
    [totalHeight = itemHeight * itemsCount]; the returned rows are those of
    indices [startIndex .. endIndex] and each has
    [offsetTop = index * itemHeight].  For 10000 items of height 40, a
    viewport of 600, the default overscan 3 and scroll offset 0 the result is
    [startIndex = 0], [endIndex = 18], [totalHeight = 400000]. *)
Theorem fixed_range_closed_form :
  (forall (props : Fixed.UseFixedSizeListProps) (st : Fixed.State),
     (0 < Fixed.itemHeight props)%Q ->
     let out := Fixed.useFixedSizeList props st in
     let overscan := default DEFAULT_OVERSCAN (Fixed.overscan props) in
     Fixed.startIndex out =
       Z.max 0 (Qfloor (Fixed.scrollTop st / Fixed.itemHeight props)
                - overscan) /\
     Fixed.endIndex out =
       Z.min (Fixed.itemsCount props - 1)
         (Qceiling ((Fixed.scrollTop st + Fixed.listHeight st)
                    / Fixed.itemHeight props) + overscan) /\
     Fixed.startIndex out =
       closedFormStart (Fixed.scrollTop st) (Fixed.itemHeight props) overscan /\
     Fixed.endIndex out =
       closedFormEnd (Fixed.scrollTop st) (Fixed.listHeight st)
         (Fixed.itemHeight props) (Fixed.itemsCount props) overscan /\
     Fixed.totalHeight out =
       (Fixed.itemHeight props * inject_Z (Fixed.itemsCount props))%Q /\
     Fixed.index <$> Fixed.virtualItems out =
       seqZ (Fixed.startIndex out)
         (Fixed.endIndex out - Fixed.startIndex out + 1) /\
     (forall row, row ∈ Fixed.virtualItems out ->
        Fixed.offsetTop row =
          (inject_Z (Fixed.index row) * Fixed.itemHeight props)%Q)) /\
  (let out := Fixed.useFixedSizeList (fixedProps 10000 40 None None)
                (fixedState 0 600) in
   Fixed.startIndex out = 0 /\ Fixed.endIndex out = 18 /\
   Fixed.totalHeight out = 400000%Q).
Proof.
  split.
  - intros props st Hh out overscan.
    repeat split; try reflexivity.
    + apply fixed_virtualItems_indices.
    + intros row Hrow. now apply fixed_virtualItems_rows in Hrow as [_ ?].
  - vm_compute. repeat split; reflexivity.
Qed.

Lemma fixed_range_closed_form_witness :
  (0 < Fixed.itemHeight (fixedProps 50 25 (Some 2%Z) None))%Q /\
  Fixed.startIndex
    (Fixed.useFixedSizeList (fixedProps 50 25 (Some 2) None)
       (fixedState 310 100)) = 10 /\
  Fixed.endIndex
    (Fixed.useFixedSizeList (fixedProps 50 25 (Some 2) None)
       (fixedState 310 100)) = 19.
Proof.
  split; [reflexivity |].
  destruct fixed_range_closed_form as [Hgen _].
  destruct (Hgen (fixedProps 50 25 (Some 2) None) (fixedState 310 100)
              eq_refl) as (Hs & He & _).
  split; [rewrite Hs | rewrite He]; reflexivity.
Defined.

(** C9.  In fixed-height mode with [itemHeight > 0], for fixed [itemsCount],
    [overscan] and [viewportHeight], [startIndex] and [endIndex] do not
    decrease when [scrollOffset] grows. *)
Theorem fixed_range_monotone (props : Fixed.UseFixedSizeListProps)
  (viewportHeight s1 s2 : Q) (scrolling1 scrolling2 : bool) :
  (0 < Fixed.itemHeight props)%Q ->
  (s1 <= s2)%Q ->
  let out1 :=
    Fixed.useFixedSizeList props
      {| Fixed.scrollTop := s1; Fixed.isScrolling := scrolling1;
         Fixed.listHeight := viewportHeight |} in
  let out2 :=
    Fixed.useFixedSizeList props
      {| Fixed.scrollTop := s2; Fixed.isScrolling := scrolling2;
         Fixed.listHeight := viewportHeight |} in
  Fixed.startIndex out1 <= Fixed.startIndex out2 /\
  Fixed.endIndex out1 <= Fixed.endIndex out2.
Proof.
  intros Hh Hs.
  unfold Fixed.useFixedSizeList.
  cbn [Fixed.startIndex Fixed.endIndex Fixed.scrollTop Fixed.listHeight].
  assert (Hfloor : Qfloor (s1 / Fixed.itemHeight props)
                   <= Qfloor (s2 / Fixed.itemHeight props)).
  { apply Qfloor_resp_le, Qdiv_le_mono; assumption. }
  assert (Hceil : Qceiling ((s1 + viewportHeight) / Fixed.itemHeight props)
                  <= Qceiling ((s2 + viewportHeight) / Fixed.itemHeight props)).
  { apply Qceiling_resp_le, Qdiv_le_mono; [assumption |].
    apply Qplus_le_compat; [assumption | apply Qle_refl]. }
  split; lia.
Qed.

Lemma fixed_range_monotone_witness :
  Fixed.startIndex (Fixed.useFixedSizeList (fixedProps 10000 40 None None)
                      (fixedState 1000 600))
  <= Fixed.startIndex (Fixed.useFixedSizeList (fixedProps 10000 40 None None)
                         (fixedState 2010 600)) /\
  Fixed.endIndex (Fixed.useFixedSizeList (fixedProps 10000 40 None None)
                    (fixedState 1000 600))
  <= Fixed.endIndex (Fixed.useFixedSizeList (fixedProps 10000 40 None None)
                       (fixedState 2010 600)).
Proof.
  apply (fixed_range_monotone (fixedProps 10000 40 None None) 600 1000 2010
           false false).
  - reflexivity.
  - discriminate.
Defined.

(** ** Dynamic-height variant: the scan *)

Lemma getItemHeight_fixed (props : Dynamic.UseFixedSizeListProps)
  (cache : gmap string Q) (f : Z -> Q) (i : Z) :
  Dynamic.itemHeight props = Some f ->
  Dynamic.getItemHeight props cache i = Ok (f i).
Proof. unfold Dynamic.getItemHeight. now intros ->. Qed.

Lemma getItemHeight_dynamic (props : Dynamic.UseFixedSizeListProps)
  (cache : gmap string Q) (e : Z -> Q) (i : Z) :
  Dynamic.itemHeight props = None ->
  Dynamic.estimateItemHeight props = Some e ->
  Dynamic.getItemHeight props cache i =
  Ok (cacheOrEstimate cache (Dynamic.getItemKey props) e i).
Proof.
  unfold Dynamic.getItemHeight, cacheOrEstimate. intros -> ->.
  now destruct (cache !! _).
Qed.

(** After [validateProps], [getItemHeight] never throws. *)
Lemma getItemHeight_valid (props : Dynamic.UseFixedSizeListProps)
  (cache : gmap string Q) :
  Dynamic.validateProps props = Ok tt ->
  exists heightOf, forall i,
    Dynamic.getItemHeight props cache i = Ok (heightOf i).
Proof.
  unfold Dynamic.validateProps. intros Hvalid.
  destruct (Dynamic.itemHeight props) as [f|] eqn:Hf.
  - exists f. intros i. now apply getItemHeight_fixed.
  - destruct (Dynamic.estimateItemHeight props) as [e|] eqn:He; [| discriminate].
    exists (cacheOrEstimate cache (Dynamic.getItemKey props) e).
    intros i. now apply getItemHeight_dynamic.
Qed.

Lemma newArray_ok (n : Z) :
  0 <= n < 2 ^ 32 ->
  Dynamic.newArray n = Ok (replicate (Z.to_nat n) None).
Proof.
  intros [H0 H1]. unfold Dynamic.newArray.
  apply Z.leb_le in H0. apply Z.ltb_lt in H1. now rewrite H0, H1.
Qed.

Section Scan.

Variable props : Dynamic.UseFixedSizeListProps.
Variable cache : gmap string Q.
Variables rangeStart rangeEnd : Q.
Variable overscan : Z.
Variable heightOf : Z -> Q.
Hypothesis heightOf_ok :
  forall i, Dynamic.getItemHeight props cache i = Ok (heightOf i).

Local Abbreviation N := (Z.to_nat (Dynamic.itemsCount props)).
Local Abbreviation body :=
  (Dynamic.scanBody props cache rangeStart rangeEnd overscan).
Local Abbreviation loop :=
  (Dynamic.scanLoop props cache rangeStart rangeEnd overscan).
Local Abbreviation scanned := (scanned props heightOf).
Local Abbreviation ranged :=
  (ranged props heightOf rangeStart rangeEnd overscan).
Local Abbreviation scanInit := (scanInit N).

(** The loop leaves by its guard: fuel beyond [itemsCount - i] is not used. *)
Lemma scanLoop_fuel (fuel : nat) (i : Z) (s : Dynamic.Scan) :
  (Z.to_nat (Dynamic.itemsCount props - i) <= fuel)%nat ->
  loop fuel i s = loop (Z.to_nat (Dynamic.itemsCount props - i)) i s.
Proof.
  revert i s. induction fuel as [|fuel IH]; intros i s Hfuel.
  - replace (Z.to_nat (Dynamic.itemsCount props - i)) with O by lia.
    reflexivity.
  - simpl. destruct (i <? Dynamic.itemsCount props) eqn:Hi.
    + apply Z.ltb_lt in Hi.
      replace (Z.to_nat (Dynamic.itemsCount props - i))
        with (S (Z.to_nat (Dynamic.itemsCount props - (i + 1)))) by lia.
      simpl. apply Z.ltb_lt in Hi. rewrite Hi.
      destruct (Dynamic.scanBody _ _ _ _ _ i s) as [s'|msg]; simpl;
        [| reflexivity].
      apply IH. lia.
    + apply Z.ltb_ge in Hi.
      replace (Z.to_nat (Dynamic.itemsCount props - i)) with O by lia.
      reflexivity.
Qed.

(** A loop rule: an invariant that every iteration carries from [k] to
    [S k] holds at [itemsCount] when the loop ends, and the loop does end
    with a result. *)
Lemma scanLoop_rule (Inv : nat -> Dynamic.Scan -> Prop) :
  (forall k s, (k < N)%nat -> Inv k s ->
     exists s1, body (Z.of_nat k) s = Ok s1 /\ Inv (S k) s1) ->
  forall fuel k s, (k + fuel = N)%nat -> Inv k s ->
    exists s', loop fuel (Z.of_nat k) s = Ok s' /\ Inv N s'.
Proof.
  intros Hbody. induction fuel as [|fuel IH]; intros k s Hk Hinv.
  - exists s. split; [reflexivity |]. now replace N with k by lia.
  - simpl. assert (Hlt : (Z.of_nat k <? Dynamic.itemsCount props) = true).
    { apply Z.ltb_lt. lia. }
    rewrite Hlt. destruct (Hbody k s) as (s1 & Hs1 & Hinv1); [lia | exact Hinv |].
    rewrite Hs1. simpl.
    replace (Z.of_nat k + 1) with (Z.of_nat (S k)) by lia.
    apply IH; [lia | exact Hinv1].
Qed.

(** What one iteration does, once the height of the row is known. *)
Lemma scanBody_eq (k : nat) (s : Dynamic.Scan) :
  Dynamic.s_totalHeight s = sumHeights heightOf k ->
  body (Z.of_nat k) s =
  Ok {| Dynamic.s_startIndex :=
          if (Dynamic.s_startIndex s =? -1)
             && Qgtb (rowBottom heightOf (Z.of_nat k)) rangeStart
          then Z.max 0 (Z.of_nat k - overscan)
          else Dynamic.s_startIndex s;
        Dynamic.s_endIndex :=
          if (Dynamic.s_endIndex s =? -1)
             && Qgeb (rowBottom heightOf (Z.of_nat k)) rangeEnd
          then Z.min (Dynamic.itemsCount props - 1) (Z.of_nat k + overscan)
          else Dynamic.s_endIndex s;
        Dynamic.s_totalHeight := sumHeights heightOf (S k);
        Dynamic.s_allItems :=
          <[k := Some (rowAt (Dynamic.getItemKey props) heightOf (Z.of_nat k))]>
            (Dynamic.s_allItems s) |}.
Proof.
  intros Htotal. unfold Dynamic.scanBody.
  rewrite heightOf_ok. unfold bind, rowBottom, rowAt.
  cbn [Dynamic.height Dynamic.offsetTop].
  rewrite !Nat2Z.id, Htotal. reflexivity.
Qed.

Lemma scanned_step (k : nat) (s : Dynamic.Scan) :
  (k < N)%nat -> scanned k s ->
  exists s1, body (Z.of_nat k) s = Ok s1 /\ scanned (S k) s1.
Proof.
  intros Hk (Htotal & Hlen & Hrows).
  eexists. split; [apply scanBody_eq, Htotal |].
  split; [reflexivity |]. cbn [Dynamic.s_allItems].
  split; [now rewrite length_insert |].
  intros j Hj. destruct (decide (j = k)) as [-> | Hne].
  - apply list_lookup_insert_eq. lia.
  - rewrite list_lookup_insert_ne by congruence. apply Hrows. lia.
Qed.

Lemma ranged_step (k : nat) (s : Dynamic.Scan) :
  0 <= overscan ->
  (k < N)%nat -> ranged k s ->
  exists s1, body (Z.of_nat k) s = Ok s1 /\ ranged (S k) s1.
Proof.
  intros Hover Hk (_ & Htotal & Hstart & Hend).
  eexists. split; [apply scanBody_eq, Htotal |].
  split; [lia |]. split; [reflexivity |].
  cbn [Dynamic.s_startIndex Dynamic.s_endIndex].
  rewrite Hstart, Hend. unfold scanStart, scanEnd. simpl firstIndex.
  split.
  - destruct (firstIndex _ k) as [a|] eqn:Ha.
    + replace (Z.max 0 (a - overscan) =? -1) with false
        by (symmetry; apply Z.eqb_neq; lia).
      reflexivity.
    + simpl. now destruct (Qgtb _ _).
  - destruct (firstIndex _ k) as [b|] eqn:Hb.
    + apply firstIndex_Some in Hb as (Hb & _).
      replace (Z.min (Dynamic.itemsCount props - 1) (b + overscan) =? -1)
        with false by (symmetry; apply Z.eqb_neq; lia).
      reflexivity.
    + simpl. now destruct (Qgeb _ _).
Qed.

Lemma scanned_init : scanned 0 scanInit.
Proof.
  split; [reflexivity |]. split; [apply length_replicate |].
  intros j Hj. lia.
Qed.

Lemma ranged_init : ranged 0 scanInit.
Proof. repeat split. lia. Qed.

(** The scan over all rows returns, with every row written and the total
    equal to the sum of the heights. *)
Lemma scanLoop_scanned :
  exists s, loop N 0 scanInit = Ok s /\ scanned N s.
Proof.
  apply (scanLoop_rule scanned scanned_step N 0%nat scanInit);
    [lia | apply scanned_init].
Qed.

Lemma scanLoop_ranged :
  0 <= overscan ->
  exists s, loop N 0 scanInit = Ok s /\ ranged N s.
Proof.
  intros Hover.
  apply (scanLoop_rule ranged (fun k s => ranged_step k s Hover) N 0%nat
           scanInit); [lia | apply ranged_init].
Qed.

End Scan.

(** ** Dynamic-height variant: the computed window *)

(** The window as a function of the heights: it is returned whenever the
    item count is a valid array length and the heights are available. *)
Lemma computeWindow_spec (props : Dynamic.UseFixedSizeListProps)
  (st : Dynamic.State) (heightOf : Z -> Q) :
  0 <= Dynamic.itemsCount props < 2 ^ 32 ->
  (forall i, Dynamic.getItemHeight props (Dynamic.measurementCache st) i
             = Ok (heightOf i)) ->
  let n := Z.to_nat (Dynamic.itemsCount props) in
  let overscan := default DEFAULT_OVERSCAN (Dynamic.overscan props) in
  exists out,
    Dynamic.computeWindow props st = Ok out /\
    Dynamic.totalHeight out = sumHeights heightOf n /\
    length (Dynamic.allItems out) = n /\
    (forall j, (j < n)%nat ->
       Dynamic.allItems out !! j =
       Some (Some (rowAt (Dynamic.getItemKey props) heightOf (Z.of_nat j)))) /\
    Dynamic.virtualItems out =
      slice (Dynamic.allItems out) (Dynamic.startIndex out)
        (Dynamic.endIndex out + 1) /\
    (0 <= overscan ->
       Dynamic.startIndex out =
         scanStart heightOf (Dynamic.scrollTop st) overscan n /\
       Dynamic.endIndex out =
         scanEnd heightOf (Dynamic.scrollTop st + Dynamic.listHeight st)%Q
           (Dynamic.itemsCount props) overscan n).
Proof.
  intros Hn Hheight n overscan.
  destruct (scanLoop_scanned props (Dynamic.measurementCache st)
              (Dynamic.scrollTop st)
              (Dynamic.scrollTop st + Dynamic.listHeight st)%Q
              overscan heightOf Hheight) as (s & Hs & Htotal & Hlen & Hrows).
  unfold Dynamic.computeWindow. rewrite (newArray_ok _ Hn).
  cbn [bind]. fold overscan. unfold scanInit in Hs. rewrite Hs. cbn [bind].
  eexists. split; [reflexivity |].
  cbn [Dynamic.totalHeight Dynamic.allItems Dynamic.virtualItems
       Dynamic.startIndex Dynamic.endIndex].
  repeat (split; [assumption || reflexivity |]).
  intros Hover.
  destruct (scanLoop_ranged props (Dynamic.measurementCache st)
              (Dynamic.scrollTop st)
              (Dynamic.scrollTop st + Dynamic.listHeight st)%Q
              overscan heightOf Hheight Hover) as (s' & Hs' & _ & _ & Hst & Hen).
  unfold scanInit in Hs'. rewrite Hs in Hs'. injection Hs' as <-.
  split; assumption.
Qed.

Lemma pushRows_lookup (fuel : nat) (i e : Z) (h : Q) (k : nat) :
  (k < fuel)%nat -> i + Z.of_nat k <= e ->
  Fixed.pushRows fuel i e h !! k
  = Some {| Fixed.index := i + Z.of_nat k;
            Fixed.offsetTop := (inject_Z (i + Z.of_nat k) * h)%Q |}.
Proof.
  revert i k. induction fuel as [|fuel IH]; intros i k Hk Hle; [lia |].
  simpl. replace (i <=? e) with true by (symmetry; apply Z.leb_le; lia).
  destruct k as [|k].
  - simpl. now rewrite Z.add_0_r.
  - simpl. rewrite IH by lia.
    now replace (i + 1 + Z.of_nat k) with (i + Z.of_nat (S k)) by lia.
Qed.

Lemma fixed_virtualItems_lookup (props : Fixed.UseFixedSizeListProps)
  (st : Fixed.State) (i : Z) :
  let out := Fixed.useFixedSizeList props st in
  Fixed.startIndex out <= i <= Fixed.endIndex out ->
  Fixed.virtualItems out !! Z.to_nat (i - Fixed.startIndex out)
  = Some {| Fixed.index := i;
            Fixed.offsetTop := (inject_Z i * Fixed.itemHeight props)%Q |}.
Proof.
  intros out Hi. subst out. unfold Fixed.useFixedSizeList in *.
  cbn [Fixed.virtualItems Fixed.startIndex Fixed.endIndex] in *.
  rewrite pushRows_lookup by lia.
  now rewrite Z2Nat.id, Zplus_minus by lia.
Qed.

(** C3 as stated fails in fixed-height mode, where the program multiplies:
    for [itemHeight = 0.1] and [itemsCount = 10] it returns
    [totalHeight = 0.1 * 10 = 1], while the sum of the ten heights is
    [0.9999999999999999]; and the row at index 6 has
    [offsetTop = 6 * 0.1 = 0.6000000000000001], while the sum of the six
    heights before it is [0.6]. *)
Lemma totalHeight_sum_counterexample :
  Binary64.totalHeight Binary64.tenth 10 = 1%float /\
  Binary64.sumHeights (fun _ => Binary64.tenth) 10
    = 0x1.fffffffffffffp-1%float /\
  Binary64.totalHeight Binary64.tenth 10
    <> Binary64.sumHeights (fun _ => Binary64.tenth) 10 /\
  Binary64.offsetTop 6 Binary64.tenth
    <> Binary64.sumHeights (fun _ => Binary64.tenth) 6.
Proof.
  split; [reflexivity |]. split; [reflexivity |]. split.
  - intros H.
    apply (f_equal (PrimFloat.eqb (Binary64.totalHeight Binary64.tenth 10)))
      in H.
    vm_compute in H. discriminate.
  - intros H.
    apply (f_equal (PrimFloat.eqb (Binary64.offsetTop 6 Binary64.tenth)))
      in H.
    vm_compute in H. discriminate.
Qed.

(** C3, amended.  In dynamic-height mode (no [itemHeight], an estimator),
    for every measurement cache and every estimator, the hook returns a
    window whose [totalHeight] is the sum of the heights (the cached height
    if the item's key has one, else the estimate) of all [itemsCount] rows,
    added in index order, and the row at index [i] has [offsetTop] equal to
    the sum of the heights of rows [0 .. i-1].  In fixed-height mode, with
    [itemHeight > 0], [totalHeight] is the product [itemHeight * itemsCount]
    and every index [i] of the range has its row, with [offsetTop] the
    product [i * itemHeight]; for an integer [itemHeight] with
    [itemHeight * itemsCount < 2^53], where these products are exact, they
    are the sum of the heights of all rows and of the rows [0 .. i-1]. *)
Theorem totalHeight_is_sum_of_heights :
  (forall (props : Dynamic.UseFixedSizeListProps) (st : Dynamic.State)
          (estimate : Z -> Q),
     Dynamic.itemHeight props = None ->
     Dynamic.estimateItemHeight props = Some estimate ->
     0 <= Dynamic.itemsCount props < 2 ^ 32 ->
     let heightOf :=
       cacheOrEstimate (Dynamic.measurementCache st)
         (Dynamic.getItemKey props) estimate in
     exists out,
       Dynamic.useFixedSizeList props st = Ok out /\
       Dynamic.totalHeight out =
         sumHeights heightOf (Z.to_nat (Dynamic.itemsCount props)) /\
       length (Dynamic.allItems out) = Z.to_nat (Dynamic.itemsCount props) /\
       forall i, 0 <= i < Dynamic.itemsCount props ->
         exists row,
           Dynamic.allItems out !! Z.to_nat i = Some (Some row) /\
           Dynamic.index row = i /\
           Dynamic.height row = heightOf i /\
           Dynamic.offsetTop row = sumHeights heightOf (Z.to_nat i)) /\
  (forall (props : Fixed.UseFixedSizeListProps) (st : Fixed.State),
     (0 < Fixed.itemHeight props)%Q ->
     let out := Fixed.useFixedSizeList props st in
     Fixed.totalHeight out
       = (Fixed.itemHeight props * inject_Z (Fixed.itemsCount props))%Q /\
     forall i, Fixed.startIndex out <= i <= Fixed.endIndex out ->
       exists row,
         Fixed.virtualItems out !! Z.to_nat (i - Fixed.startIndex out)
           = Some row /\
         Fixed.index row = i /\
         Fixed.offsetTop row = (inject_Z i * Fixed.itemHeight props)%Q) /\
  (forall (props : Fixed.UseFixedSizeListProps) (st : Fixed.State) (k : Z),
     Fixed.itemHeight props = inject_Z k ->
     0 < k ->
     0 <= Fixed.itemsCount props ->
     k * Fixed.itemsCount props < 2 ^ 53 ->
     let heightOf := fun _ : Z => Fixed.itemHeight props in
     let out := Fixed.useFixedSizeList props st in
     (Fixed.totalHeight out ==
        sumHeights heightOf (Z.to_nat (Fixed.itemsCount props)))%Q /\
     forall i, Fixed.startIndex out <= i <= Fixed.endIndex out ->
       exists row,
         Fixed.virtualItems out !! Z.to_nat (i - Fixed.startIndex out)
           = Some row /\
         Fixed.index row = i /\
         (Fixed.offsetTop row == sumHeights heightOf (Z.to_nat i))%Q).
Proof.
  split; [| split].
  - intros props st estimate Hfixed Hestimate Hn heightOf.
    destruct (computeWindow_spec props st heightOf Hn)
      as (out & Hout & Htotal & Hlen & Hrows & _).
    { intros i. now apply getItemHeight_dynamic. }
    exists out. split.
    { unfold Dynamic.useFixedSizeList, Dynamic.validateProps.
      now rewrite Hfixed, Hestimate. }
    split; [exact Htotal |]. split; [exact Hlen |].
    intros i Hi. eexists. split; [apply Hrows; lia |].
    rewrite Z2Nat.id by lia. repeat split.
  - intros props st _ out. split; [reflexivity |].
    intros i Hi. eexists.
    split; [apply fixed_virtualItems_lookup; exact Hi |]. split; reflexivity.
  - intros props st k Hk _ Hn Hsafe heightOf out. split.
    + subst out heightOf. cbn [Fixed.totalHeight Fixed.useFixedSizeList].
      rewrite sumHeights_const, Z2Nat.id by exact Hn. apply Qmult_comm.
    + intros i Hi. eexists.
      split; [apply fixed_virtualItems_lookup; exact Hi |].
      split; [reflexivity |]. cbn [Fixed.offsetTop].
      subst heightOf. rewrite sumHeights_const.
      assert (Hstart : 0 <= Fixed.startIndex out).
      { subst out. unfold Fixed.useFixedSizeList. cbn [Fixed.startIndex]. lia. }
      rewrite Z2Nat.id by lia. reflexivity.
Qed.

Lemma totalHeight_is_sum_of_heights_witness :
  (exists out,
     Dynamic.useFixedSizeList shortListProps
       (dynamicState 0 600 {[ "1" := 80%Q ]}) = Ok out /\
     Dynamic.totalHeight out = 160%Q) /\
  (Fixed.totalHeight
     (Fixed.useFixedSizeList (fixedProps 10000 40 None None)
        (fixedState 0 600))
   == sumHeights (fun _ => 40) (Z.to_nat 10000))%Q /\
  (exists row,
     Fixed.virtualItems
       (Fixed.useFixedSizeList (fixedProps 10000 40 None None)
          (fixedState 2010 600)) !! 3%nat = Some row /\
     Fixed.index row = 50 /\
     (Fixed.offsetTop row == sumHeights (fun _ => 40) (Z.to_nat 50))%Q) /\
  (exists row,
     Fixed.virtualItems
       (Fixed.useFixedSizeList (fixedProps 10000 40 None None)
          (fixedState 2010 600)) !! 3%nat = Some row /\
     Fixed.index row = 50 /\ Fixed.offsetTop row = (50 * 40)%Q).
Proof.
  destruct totalHeight_is_sum_of_heights as (Hdynamic & Hproduct & Hfixed).
  split; [| split; [| split]]; cycle 3.
  { destruct (Hproduct (fixedProps 10000 40 None None) (fixedState 2010 600)
                eq_refl) as [_ Hrows].
    apply (Hrows 50). split; discriminate. }
  - destruct (Hdynamic shortListProps (dynamicState 0 600 {[ "1" := 80%Q ]})
                (fun _ => 40%Q) eq_refl eq_refl)
      as (out & Hout & Htotal & _).
    + split; [discriminate | reflexivity].
    + exists out. split; [exact Hout |]. rewrite Htotal. reflexivity.
  - apply (Hfixed (fixedProps 10000 40 None None) (fixedState 0 600) 40);
      (reflexivity || discriminate).
  - destruct (Hfixed (fixedProps 10000 40 None None) (fixedState 2010 600) 40
                eq_refl eq_refl) as [_ Hrows]; [discriminate | reflexivity |].
    apply (Hrows 50). split; discriminate.
Defined.

(** The scenario of the specification: three rows estimated at 40; once row 1
    is measured at 80, the offset of row 2 is 120 instead of 80. *)
Example offsetTop_after_measurement :
  exists out0 out1,
    Dynamic.useFixedSizeList shortListProps (dynamicState 0 600 ∅) = Ok out0 /\
    Dynamic.useFixedSizeList shortListProps
      (fst (Dynamic.measureElement shortListProps
              (Some (renderedElement "1" 80)) (dynamicState 0 600 ∅)))
      = Ok out1 /\
    Dynamic.offsetTop <$> mjoin (Dynamic.allItems out0 !! 2%nat) = Some 80%Q /\
    Dynamic.offsetTop <$> mjoin (Dynamic.allItems out1 !! 2%nat) = Some 120%Q.
Proof. do 2 eexists. repeat split; vm_compute; reflexivity. Qed.

(** When no row reaches the end of the viewport, the scan returns the
    sentinel in [endIndex]; when no row's bottom is beyond the scroll offset,
    it returns the sentinel in [startIndex]. *)
Lemma scan_returns_sentinel (props : Dynamic.UseFixedSizeListProps)
  (st : Dynamic.State) (heightOf : Z -> Q) :
  Dynamic.validateProps props = Ok tt ->
  0 <= Dynamic.itemsCount props < 2 ^ 32 ->
  0 <= default DEFAULT_OVERSCAN (Dynamic.overscan props) ->
  (forall i, Dynamic.getItemHeight props (Dynamic.measurementCache st) i
             = Ok (heightOf i)) ->
  exists out,
    Dynamic.useFixedSizeList props st = Ok out /\
    ((forall i, 0 <= i < Dynamic.itemsCount props ->
        (rowBottom heightOf i < Dynamic.scrollTop st + Dynamic.listHeight st)%Q)
     -> Dynamic.endIndex out = -1) /\
    ((forall i, 0 <= i < Dynamic.itemsCount props ->
        (rowBottom heightOf i <= Dynamic.scrollTop st)%Q)
     -> Dynamic.startIndex out = -1).
Proof.
  intros Hvalid Hn Hover Hheight.
  destruct (computeWindow_spec props st heightOf Hn Hheight)
    as (out & Hout & _ & _ & _ & _ & Hrange).
  destruct (Hrange Hover) as [Hstart Hend].
  exists out. split.
  { unfold Dynamic.useFixedSizeList. rewrite Hvalid. exact Hout. }
  split; intros Hnone.
  - rewrite Hend. unfold scanEnd.
    replace (firstIndex _ _) with (@None Z); [reflexivity |].
    symmetry. apply firstIndex_None. intros j Hj.
    apply not_true_is_false. rewrite Qgeb_iff. apply Qlt_not_le, Hnone. lia.
  - rewrite Hstart. unfold scanStart.
    replace (firstIndex _ _) with (@None Z); [reflexivity |].
    symmetry. apply firstIndex_None. intros j Hj.
    apply not_true_is_false. rewrite Qgtb_iff. apply Qle_not_lt, Hnone. lia.
Qed.

(** The fixed-height variant on content shorter than the viewport: three
    rows of height 40 in a viewport of 600 give [endIndex = itemsCount - 1]
    and all three rows. *)
Example fixed_short_content :
  let out := Fixed.useFixedSizeList (fixedProps 3 40 None None)
               (fixedState 0 600) in
  Fixed.startIndex out = 0 /\ Fixed.endIndex out = 2 /\
  Fixed.index <$> Fixed.virtualItems out = [0; 1; 2].
Proof. vm_compute. repeat split; reflexivity. Qed.

(** C2 (the code at the failing inputs).  Three rows of estimated height 40
    in a viewport of 600 at scroll offset 0: no row's bottom edge reaches
    600, and the hook returns [endIndex = -1] and no virtual item, where
    [itemsCount - 1 = 2] is claimed.  An empty list at scroll offset 0, and
    the three rows at scroll offset 120: no row's bottom edge is beyond the
    scroll offset, and the hook returns [startIndex = -1], where [0] is
    claimed. *)
Theorem dynamic_scan_returns_unset_index :
  (rowBottom (fun _ => 40%Q) 0 < 0 + 600)%Q /\
  (rowBottom (fun _ => 40%Q) 1 < 0 + 600)%Q /\
  (rowBottom (fun _ => 40%Q) 2 < 0 + 600)%Q /\
  (exists out,
     Dynamic.useFixedSizeList shortListProps (dynamicState 0 600 ∅) = Ok out /\
     Dynamic.startIndex out = 0 /\
     Dynamic.endIndex out = -1 /\
     Dynamic.endIndex out <> Dynamic.itemsCount shortListProps - 1 /\
     Dynamic.virtualItems out = []) /\
  (exists out,
     Dynamic.useFixedSizeList
       (dynamicProps 0 (fun _ => 40%Q) KeyNumber None None)
       (dynamicState 0 600 ∅) = Ok out /\
     Dynamic.startIndex out = -1 /\
     Dynamic.startIndex out <> 0) /\
  (rowBottom (fun _ => 40%Q) 2 <= 120)%Q /\
  (exists out,
     Dynamic.useFixedSizeList shortListProps (dynamicState 120 600 ∅)
       = Ok out /\
     Dynamic.startIndex out = -1 /\
     Dynamic.startIndex out <> 0).
Proof.
  do 3 (split; [reflexivity |]).
  split.
  { eexists. split; [vm_compute; reflexivity |].
    cbn. repeat split; discriminate. }
  split.
  { eexists. split; [vm_compute; reflexivity |].
    cbn. split; [reflexivity | discriminate]. }
  split; [discriminate |].
  eexists. split; [vm_compute; reflexivity |].
  cbn. split; [reflexivity | discriminate].
Qed.

(** ** Bounds on the returned range *)

Lemma fixed_range_within_bounds (props : Fixed.UseFixedSizeListProps)
  (st : Fixed.State) :
  (0 < Fixed.itemHeight props)%Q ->
  0 <= default DEFAULT_OVERSCAN (Fixed.overscan props) ->
  (0 <= Fixed.scrollTop st)%Q ->
  (0 <= Fixed.listHeight st)%Q ->
  let out := Fixed.useFixedSizeList props st in
  Fixed.startIndex out <= Fixed.itemsCount props - 1 ->
  rangeInvariant (Fixed.startIndex out) (Fixed.endIndex out)
    (Fixed.itemsCount props).
Proof.
  intros Hh Hover Hs Hv out. subst out.
  unfold rangeInvariant, Fixed.useFixedSizeList.
  cbn [Fixed.startIndex Fixed.endIndex].
  set (h := Fixed.itemHeight props) in *.
  set (s := Fixed.scrollTop st) in *.
  set (v := Fixed.listHeight st) in *.
  assert (Hfloor0 : 0 <= Qfloor (s / h)).
  { change 0 with (Qfloor 0). apply Qfloor_resp_le. now apply Qdiv_nonneg. }
  assert (Hfc : Qfloor (s / h) <= Qceiling ((s + v) / h)).
  { apply inject_Z_le_inv.
    eapply Qle_trans; [apply Qfloor_le |].
    eapply Qle_trans; [| apply Qle_ceiling].
    apply Qdiv_le_mono; [exact Hh |].
    rewrite <- (Qplus_0_r s) at 1.
    apply Qplus_le_compat; [apply Qle_refl | exact Hv]. }
  lia.
Qed.

Lemma inject_Z_pos (k : Z) : 0 < k -> (0 < inject_Z k)%Q.
Proof. intros Hk. change 0%Q with (inject_Z 0). now rewrite <- Zlt_Qlt. Qed.

Lemma inject_Z_nonneg (k : Z) : 0 <= k -> (0 <= inject_Z k)%Q.
Proof. intros Hk. change 0%Q with (inject_Z 0). now rewrite <- Zle_Qle. Qed.

Lemma fixed_startIndex_in_content (props : Fixed.UseFixedSizeListProps)
  (st : Fixed.State) (k m : Z) :
  Fixed.itemHeight props = inject_Z k ->
  Fixed.scrollTop st = inject_Z m ->
  0 < k -> 0 <= m < k * Fixed.itemsCount props ->
  0 <= default DEFAULT_OVERSCAN (Fixed.overscan props) ->
  Fixed.startIndex (Fixed.useFixedSizeList props st)
  <= Fixed.itemsCount props - 1.
Proof.
  intros Hk Hm Hpos Hinside Hover. unfold Fixed.useFixedSizeList.
  cbn [Fixed.startIndex]. rewrite Hk, Hm.
  assert (Hh : (0 < inject_Z k)%Q) by now apply inject_Z_pos.
  assert (Hfloor0 : 0 <= Qfloor (inject_Z m / inject_Z k)).
  { change 0 with (Qfloor 0). apply Qfloor_resp_le. apply Qdiv_nonneg;
      [exact Hh |]. apply inject_Z_nonneg. lia. }
  assert (Hfloorn : Qfloor (inject_Z m / inject_Z k) < Fixed.itemsCount props).
  { rewrite Zlt_Qlt. eapply Qle_lt_trans; [apply Qfloor_le |].
    apply Qdiv_lt_bound; [exact Hh |].
    rewrite <- inject_Z_mult, <- Zlt_Qlt. lia. }
  lia.
Qed.

Lemma dynamic_range_within_bounds (props : Dynamic.UseFixedSizeListProps)
  (st : Dynamic.State) (heightOf : Z -> Q) :
  Dynamic.validateProps props = Ok tt ->
  (forall i, Dynamic.getItemHeight props (Dynamic.measurementCache st) i
             = Ok (heightOf i)) ->
  0 < Dynamic.itemsCount props < 2 ^ 32 ->
  0 <= default DEFAULT_OVERSCAN (Dynamic.overscan props) ->
  (0 < Dynamic.listHeight st)%Q ->
  (exists j, 0 <= j < Dynamic.itemsCount props /\
     (Dynamic.scrollTop st + Dynamic.listHeight st
      <= rowBottom heightOf j)%Q) ->
  exists out,
    Dynamic.useFixedSizeList props st = Ok out /\
    rangeInvariant (Dynamic.startIndex out) (Dynamic.endIndex out)
      (Dynamic.itemsCount props).
Proof.
  intros Hvalid Hheight Hn Hover Hv (j & Hj & Hreach).
  destruct (computeWindow_spec props st heightOf) as
    (out & Hout & _ & _ & _ & _ & Hrange); [lia | exact Hheight |].
  destruct (Hrange Hover) as [Hstart Hend].
  exists out. split.
  { unfold Dynamic.useFixedSizeList. rewrite Hvalid. exact Hout. }
  rewrite Hstart, Hend. unfold rangeInvariant, scanStart, scanEnd.
  destruct (firstIndex (fun j0 => Qgeb (rowBottom heightOf j0) _) _)
    as [b|] eqn:Hb.
  2:{ exfalso. rewrite firstIndex_None in Hb.
      specialize (Hb j ltac:(lia)). apply not_true_iff_false in Hb.
      apply Hb, Qgeb_iff, Hreach. }
  apply firstIndex_Some in Hb as (Hbn & Hbreach & _).
  apply Qgeb_iff in Hbreach.
  assert (Hbeyond : (Dynamic.scrollTop st < rowBottom heightOf b)%Q).
  { eapply Qlt_le_trans; [| exact Hbreach].
    rewrite <- (Qplus_0_r (Dynamic.scrollTop st)) at 1.
    apply Qplus_lt_r, Hv. }
  destruct (firstIndex (fun j0 => Qgtb (rowBottom heightOf j0) _) _)
    as [a|] eqn:Ha.
  2:{ exfalso. rewrite firstIndex_None in Ha.
      specialize (Ha b Hbn). apply not_true_iff_false in Ha.
      apply Ha, Qgtb_iff, Hbeyond. }
  apply firstIndex_Some in Ha as (Han & _ & Hbefore).
  assert (Hab : a <= b).
  { destruct (Z_le_gt_dec a b) as [Hle | Hgt]; [exact Hle |].
    exfalso. specialize (Hbefore b ltac:(lia)).
    apply not_true_iff_false in Hbefore. apply Hbefore, Qgtb_iff, Hbeyond. }
  lia.
Qed.

(** C4 as stated fails.  In fixed-height mode, when the scroll offset lies
    beyond the content: ten rows of height 40 at scroll offset 4000 give
    [startIndex = 97] and [endIndex = 9].  In dynamic-height mode, when the
    content is shorter than the viewport: three rows of height 40 in a
    viewport of 600 give [startIndex = 0] and [endIndex = -1]. *)
Lemma range_bounds_counterexample :
  (0 < Fixed.itemsCount (fixedProps 10 40 None None) /\
   Fixed.startIndex
     (Fixed.useFixedSizeList (fixedProps 10 40 None None)
        (fixedState 4000 600)) = 97 /\
   Fixed.endIndex
     (Fixed.useFixedSizeList (fixedProps 10 40 None None)
        (fixedState 4000 600)) = 9 /\
   ~ rangeInvariant
       (Fixed.startIndex
          (Fixed.useFixedSizeList (fixedProps 10 40 None None)
             (fixedState 4000 600)))
       (Fixed.endIndex
          (Fixed.useFixedSizeList (fixedProps 10 40 None None)
             (fixedState 4000 600)))
       (Fixed.itemsCount (fixedProps 10 40 None None))) /\
  (0 < Dynamic.itemsCount shortListProps /\
   exists out,
     Dynamic.useFixedSizeList shortListProps (dynamicState 0 600 ∅) = Ok out /\
     Dynamic.endIndex out = -1 /\
     ~ rangeInvariant (Dynamic.startIndex out) (Dynamic.endIndex out)
         (Dynamic.itemsCount shortListProps)).
Proof.
  split.
  - split; [reflexivity |]. split; [reflexivity |]. split; [reflexivity |].
    intros (_ & Hle & _). vm_compute in Hle. apply Hle. reflexivity.
  - split; [reflexivity |].
    eexists. split; [vm_compute; reflexivity |].
    split; [reflexivity |].
    intros (_ & Hle & _). vm_compute in Hle. apply Hle. reflexivity.
Qed.

(** Why the scroll offset and the item height of the second part of the
    theorem below are integers: on doubles, three rows of height 40.1
    ([0x1.40ccccccccccdp+5]) have [totalHeight = 120.30000000000001], the
    scroll offset 120.3 ([0x1.e133333333333p+6]) is less than that, and
    the quotient [120.3 / 40.1] is 3: the program returns [startIndex = 3]
    and [endIndex = 2] with overscan 0. *)
Example range_start_on_rounded_boundary :
  Binary64.totalHeight 0x1.40ccccccccccdp+5 3 = 0x1.e133333333334p+6%float /\
  PrimFloat.ltb 0x1.e133333333333p+6
    (Binary64.totalHeight 0x1.40ccccccccccdp+5 3) = true /\
  Binary64.rawStart 0x1.e133333333333p+6 0x1.40ccccccccccdp+5 = 3%float.
Proof. repeat split; reflexivity. Qed.

(** C4, amended.  With [itemsCount > 0] and a non-negative overscan:
    in fixed-height mode ([itemHeight > 0], [scrollOffset >= 0],
    [viewportHeight >= 0]) the returned range satisfies
    [0 <= startIndex <= endIndex <= itemsCount - 1] whenever the returned
    [startIndex] is at most [itemsCount - 1]; for an integer [itemHeight]
    and an integer [scrollOffset] with [itemHeight + scrollOffset <= 2^52],
    where the floor of the quotient is exact, this is so whenever the scroll
    offset lies inside the content, [0 <= scrollOffset < totalHeight].  In
    dynamic-height mode the hook returns a window with the same bounds
    whenever the viewport height is positive and some row's bottom edge
    reaches [scrollOffset + viewportHeight]. *)
Theorem range_within_bounds :
  (forall (props : Fixed.UseFixedSizeListProps) (st : Fixed.State),
     0 < Fixed.itemsCount props ->
     (0 < Fixed.itemHeight props)%Q ->
     0 <= default DEFAULT_OVERSCAN (Fixed.overscan props) ->
     (0 <= Fixed.scrollTop st)%Q ->
     (0 <= Fixed.listHeight st)%Q ->
     let out := Fixed.useFixedSizeList props st in
     Fixed.startIndex out <= Fixed.itemsCount props - 1 ->
     rangeInvariant (Fixed.startIndex out) (Fixed.endIndex out)
       (Fixed.itemsCount props)) /\
  (forall (props : Fixed.UseFixedSizeListProps) (st : Fixed.State) (k m : Z),
     0 < Fixed.itemsCount props ->
     Fixed.itemHeight props = inject_Z k ->
     Fixed.scrollTop st = inject_Z m ->
     0 < k -> k + m <= 2 ^ 52 ->
     0 <= default DEFAULT_OVERSCAN (Fixed.overscan props) ->
     0 <= m < k * Fixed.itemsCount props ->
     (0 <= Fixed.listHeight st)%Q ->
     let out := Fixed.useFixedSizeList props st in
     rangeInvariant (Fixed.startIndex out) (Fixed.endIndex out)
       (Fixed.itemsCount props)) /\
  (forall (props : Dynamic.UseFixedSizeListProps) (st : Dynamic.State)
          (heightOf : Z -> Q),
     Dynamic.validateProps props = Ok tt ->
     (forall i, Dynamic.getItemHeight props (Dynamic.measurementCache st) i
                = Ok (heightOf i)) ->
     0 < Dynamic.itemsCount props < 2 ^ 32 ->
     0 <= default DEFAULT_OVERSCAN (Dynamic.overscan props) ->
     (0 < Dynamic.listHeight st)%Q ->
     (exists j, 0 <= j < Dynamic.itemsCount props /\
        (Dynamic.scrollTop st + Dynamic.listHeight st
         <= rowBottom heightOf j)%Q) ->
     exists out,
       Dynamic.useFixedSizeList props st = Ok out /\
       rangeInvariant (Dynamic.startIndex out) (Dynamic.endIndex out)
         (Dynamic.itemsCount props)).
Proof.
  split; [| split].
  - intros props st _. apply fixed_range_within_bounds.
  - intros props st k m _ Hk Hm Hpos _ Hover Hinside Hv out.
    apply fixed_range_within_bounds; try assumption.
    + rewrite Hk. now apply inject_Z_pos.
    + rewrite Hm. apply inject_Z_nonneg. lia.
    + now apply (fixed_startIndex_in_content props st k m).
  - intros props st heightOf. apply dynamic_range_within_bounds.
Qed.

Lemma range_within_bounds_witness :
  (let out := Fixed.useFixedSizeList (fixedProps 10000 40 None None)
                (fixedState 2010 600) in
   rangeInvariant (Fixed.startIndex out) (Fixed.endIndex out) 10000) /\
  (let out := Fixed.useFixedSizeList (fixedProps 3 40 (Some 0) None)
                (fixedState 119 20) in
   rangeInvariant (Fixed.startIndex out) (Fixed.endIndex out) 3) /\
  (exists out,
     Dynamic.useFixedSizeList shortListProps (dynamicState 0 100 ∅) = Ok out /\
     rangeInvariant (Dynamic.startIndex out) (Dynamic.endIndex out) 3).
Proof.
  destruct range_within_bounds as (Hfixed & Hinteger & Hdynamic).
  split; [| split].
  - apply (Hfixed (fixedProps 10000 40 None None) (fixedState 2010 600));
      (reflexivity || discriminate).
  - apply (Hinteger (fixedProps 3 40 (Some 0) None) (fixedState 119 20)
             40 119);
      (reflexivity || discriminate || (split; [discriminate | reflexivity])).
  - apply (Hdynamic shortListProps (dynamicState 0 100 ∅) (fun _ => 40%Q)).
    + reflexivity.
    + intros i. reflexivity.
    + split; reflexivity.
    + discriminate.
    + reflexivity.
    + exists 2. split; [split; [discriminate | reflexivity] | discriminate].
Defined.

(** ** No scroll element *)

Lemma fixed_notifyAll_unsubscribed (ns : list Notification) (st : Fixed.State) :
  Fixed.notifyAll noSubscriptions ns st = st.
Proof.
  unfold Fixed.notifyAll. induction ns as [|n ns IH]; [reflexivity |].
  simpl. destruct n; exact IH.
Qed.

Lemma dynamic_notifyAll_unsubscribed (ns : list Notification)
  (st : Dynamic.State) :
  Dynamic.notifyAll noSubscriptions ns st = st.
Proof.
  unfold Dynamic.notifyAll. induction ns as [|n ns IH]; [reflexivity |].
  simpl. destruct n; exact IH.
Qed.

Lemma Qfloor_zero_div (h : Q) : Qfloor (0 / h) = 0.
Proof.
  assert (H : (0 / h == 0)%Q) by (unfold Qdiv; apply Qmult_0_l).
  now rewrite H.
Qed.

Lemma Qceiling_zero_div (h : Q) : Qceiling ((0 + 0) / h) = 0.
Proof.
  assert (H : ((0 + 0) / h == 0)%Q) by (unfold Qdiv; apply Qmult_0_l).
  now rewrite H.
Qed.

Lemma firstIndex_zero (P : Z -> bool) (n : nat) :
  P 0 = true -> (0 < n)%nat -> firstIndex P n = Some 0.
Proof.
  intros HP. induction n as [|n IH]; [lia |]. intros _. simpl.
  destruct n as [|n].
  - simpl firstIndex. change (Z.of_nat 0) with 0. now rewrite HP.
  - now rewrite IH by lia.
Qed.

Lemma slice_prefix_take {A : Type} (l : list A) (stop : Z) :
  0 <= stop <= Z.of_nat (length l) ->
  slice l 0 stop = take (Z.to_nat stop) l.
Proof.
  intros Hstop. unfold slice, sliceBound.
  replace (0 <? 0) with false by reflexivity.
  replace (stop <? 0) with false by (symmetry; apply Z.ltb_ge; lia).
  rewrite Z.min_l by lia. rewrite Z.min_l by lia. simpl drop.
  f_equal. lia.
Qed.

(** The fixed-height window computed from scroll offset 0 and viewport
    height 0. *)
Lemma fixed_initial_window (props : Fixed.UseFixedSizeListProps) :
  0 <= default DEFAULT_OVERSCAN (Fixed.overscan props) ->
  let out := Fixed.useFixedSizeList props Fixed.initialState in
  let last :=
    Z.min (Fixed.itemsCount props - 1)
      (default DEFAULT_OVERSCAN (Fixed.overscan props)) in
  Fixed.startIndex out = 0 /\
  Fixed.endIndex out = last /\
  Fixed.index <$> Fixed.virtualItems out = seqZ 0 (last + 1).
Proof.
  intros Hover out last.
  assert (Hstart : Fixed.startIndex out = 0).
  { subst out. unfold Fixed.useFixedSizeList.
    cbn [Fixed.startIndex Fixed.scrollTop Fixed.initialState].
    rewrite Qfloor_zero_div. lia. }
  assert (Hend : Fixed.endIndex out = last).
  { subst out last. unfold Fixed.useFixedSizeList.
    cbn [Fixed.endIndex Fixed.scrollTop Fixed.listHeight Fixed.initialState].
    rewrite Qceiling_zero_div. reflexivity. }
  split; [exact Hstart |]. split; [exact Hend |].
  subst out. rewrite fixed_virtualItems_indices. rewrite Hstart, Hend.
  f_equal. lia.
Qed.

(** The dynamic-height window computed from scroll offset 0 and viewport
    height 0, when the first row has a positive height. *)
Lemma dynamic_initial_window (props : Dynamic.UseFixedSizeListProps)
  (st : Dynamic.State) (heightOf : Z -> Q) :
  Dynamic.validateProps props = Ok tt ->
  (forall i, Dynamic.getItemHeight props (Dynamic.measurementCache st) i
             = Ok (heightOf i)) ->
  0 < Dynamic.itemsCount props < 2 ^ 32 ->
  0 <= default DEFAULT_OVERSCAN (Dynamic.overscan props) ->
  Dynamic.scrollTop st = 0%Q ->
  Dynamic.listHeight st = 0%Q ->
  (0 < heightOf 0%Z)%Q ->
  let last :=
    Z.min (Dynamic.itemsCount props - 1)
      (default DEFAULT_OVERSCAN (Dynamic.overscan props)) in
  exists out,
    Dynamic.useFixedSizeList props st = Ok out /\
    Dynamic.startIndex out = 0 /\
    Dynamic.endIndex out = last /\
    Dynamic.virtualItems out =
      take (Z.to_nat (last + 1)) (Dynamic.allItems out) /\
    length (Dynamic.virtualItems out) = Z.to_nat (last + 1).
Proof.
  intros Hvalid Hheight Hn Hover Htop Hlist Hfirst last.
  destruct (computeWindow_spec props st heightOf) as
    (out & Hout & _ & Hlen & _ & Hslice & Hrange); [lia | exact Hheight |].
  destruct (Hrange Hover) as [Hstart Hend].
  assert (Hbottom : (rowBottom heightOf 0%Z == heightOf 0%Z)%Q).
  { unfold rowBottom. simpl sumHeights. apply Qplus_0_l. }
  rewrite Htop in Hstart. rewrite Htop, Hlist in Hend.
  unfold scanStart in Hstart. unfold scanEnd in Hend.
  rewrite firstIndex_zero in Hstart;
    [| apply Qgtb_iff; now rewrite Hbottom | lia].
  rewrite firstIndex_zero in Hend;
    [| apply Qgeb_iff; rewrite Hbottom; now apply Qlt_le_weak | lia].
  exists out. split.
  { unfold Dynamic.useFixedSizeList. rewrite Hvalid. exact Hout. }
  assert (Hstart0 : Dynamic.startIndex out = 0) by lia.
  assert (Hend0 : Dynamic.endIndex out = last) by (subst last; lia).
  split; [exact Hstart0 |]. split; [exact Hend0 |].
  rewrite Hslice, Hstart0, Hend0.
  rewrite slice_prefix_take by (subst last; lia).
  split; [reflexivity |]. rewrite length_take. subst last. lia.
Qed.

(** C5 as stated fails: with no scroll element and 10000 rows of height 40,
    nothing is observed, nothing is thrown, and the window holds the four
    rows 0..3; in dynamic-height mode with three rows it holds all three. *)
Lemma no_scroll_element_counterexample :
  Fixed.getScrollElement (fixedProps 10000 40 None None) = None /\
  snd (Fixed.mount (fixedProps 10000 40 None None) Fixed.initialState)
    = noSubscriptions /\
  Fixed.index <$>
    Fixed.virtualItems
      (Fixed.useFixedSizeList (fixedProps 10000 40 None None)
         (fst (Fixed.mount (fixedProps 10000 40 None None)
                 Fixed.initialState)))
    = [0; 1; 2; 3] /\
  Fixed.virtualItems
    (Fixed.useFixedSizeList (fixedProps 10000 40 None None)
       (fst (Fixed.mount (fixedProps 10000 40 None None) Fixed.initialState)))
    <> [] /\
  Dynamic.getScrollElement shortListProps = None /\
  snd (Dynamic.mount shortListProps Dynamic.initialState) = noSubscriptions /\
  exists out,
    Dynamic.useFixedSizeList shortListProps
      (fst (Dynamic.mount shortListProps Dynamic.initialState)) = Ok out /\
    length (Dynamic.virtualItems out) = 3%nat /\
    Dynamic.virtualItems out <> [].
Proof.
  repeat (split; [reflexivity || (vm_compute; discriminate) |]).
  eexists. split; [vm_compute; reflexivity |].
  split; [reflexivity | discriminate].
Qed.

(** C5, amended.  When the viewport source yields none, the effects register
    no observer and no listener, so no notification reaches the hook and the
    scroll offset and viewport height keep their initial value 0; the hook
    does not throw for that reason and computes the window from offset 0 and
    height 0.  With a non-negative overscan that window is
    [startIndex = 0], [endIndex = min(itemsCount - 1, overscan)] with the
    rows [0 .. endIndex] (fixed-height mode with [itemHeight > 0];
    dynamic-height mode with [itemsCount > 0] and a positive first height):
    it is empty only when there is no item. *)
Theorem no_scroll_element_window :
  (forall (props : Fixed.UseFixedSizeListProps) (ns : list Notification),
     Fixed.getScrollElement props = None ->
     (0 < Fixed.itemHeight props)%Q ->
     0 <= default DEFAULT_OVERSCAN (Fixed.overscan props) ->
     let mounted := Fixed.mount props Fixed.initialState in
     let st := Fixed.notifyAll (snd mounted) ns (fst mounted) in
     let out := Fixed.useFixedSizeList props st in
     let last :=
       Z.min (Fixed.itemsCount props - 1)
         (default DEFAULT_OVERSCAN (Fixed.overscan props)) in
     snd mounted = noSubscriptions /\
     st = Fixed.initialState /\
     Fixed.startIndex out = 0 /\
     Fixed.endIndex out = last /\
     Fixed.index <$> Fixed.virtualItems out = seqZ 0 (last + 1) /\
     (Fixed.virtualItems out = [] <-> Fixed.itemsCount props <= 0)) /\
  (forall (props : Dynamic.UseFixedSizeListProps) (st0 : Dynamic.State)
          (ns : list Notification) (heightOf : Z -> Q),
     Dynamic.getScrollElement props = None ->
     Dynamic.validateProps props = Ok tt ->
     (forall i, Dynamic.getItemHeight props (Dynamic.measurementCache st0) i
                = Ok (heightOf i)) ->
     0 < Dynamic.itemsCount props < 2 ^ 32 ->
     0 <= default DEFAULT_OVERSCAN (Dynamic.overscan props) ->
     Dynamic.scrollTop st0 = 0%Q ->
     Dynamic.listHeight st0 = 0%Q ->
     (0 < heightOf 0%Z)%Q ->
     let mounted := Dynamic.mount props st0 in
     let st := Dynamic.notifyAll (snd mounted) ns (fst mounted) in
     let last :=
       Z.min (Dynamic.itemsCount props - 1)
         (default DEFAULT_OVERSCAN (Dynamic.overscan props)) in
     snd mounted = noSubscriptions /\
     st = st0 /\
     exists out,
       Dynamic.useFixedSizeList props st = Ok out /\
       Dynamic.startIndex out = 0 /\
       Dynamic.endIndex out = last /\
       Dynamic.virtualItems out =
         take (Z.to_nat (last + 1)) (Dynamic.allItems out) /\
       length (Dynamic.virtualItems out) = Z.to_nat (last + 1) /\
       Dynamic.virtualItems out <> []).
Proof.
  split.
  - intros props ns Hnone Hh Hover mounted st out last.
    assert (Hmounted : mounted = (Fixed.initialState, noSubscriptions)).
    { subst mounted. unfold Fixed.mount. now rewrite Hnone. }
    assert (Hst : st = Fixed.initialState).
    { subst st. rewrite Hmounted. apply fixed_notifyAll_unsubscribed. }
    split; [now rewrite Hmounted |]. split; [exact Hst |].
    subst out. rewrite Hst.
    destruct (fixed_initial_window props Hover) as (Hstart & Hend & Hrows).
    split; [exact Hstart |]. split; [exact Hend |]. split; [exact Hrows |].
    fold last in Hrows. split.
    + intros Hnil. rewrite Hnil in Hrows. simpl in Hrows.
      destruct (Z_le_gt_dec (Fixed.itemsCount props) 0) as [Hle | Hgt];
        [exact Hle |].
      rewrite seqZ_cons in Hrows by (subst last; lia). discriminate.
    + intros Hle. rewrite seqZ_nil in Hrows by (subst last; lia).
      now apply fmap_nil_inv in Hrows.
  - intros props st0 ns heightOf Hnone Hvalid Hheight Hn Hover Htop Hlist
      Hfirst mounted st last.
    assert (Hmounted : mounted = (st0, noSubscriptions)).
    { subst mounted. unfold Dynamic.mount. now rewrite Hnone. }
    assert (Hst : st = st0).
    { subst st. rewrite Hmounted. apply dynamic_notifyAll_unsubscribed. }
    split; [now rewrite Hmounted |]. split; [exact Hst |].
    rewrite Hst.
    destruct (dynamic_initial_window props st0 heightOf Hvalid Hheight Hn
                Hover Htop Hlist Hfirst)
      as (out & Hout & Hstart & Hend & Htake & Hlen).
    exists out. repeat (split; [assumption |]).
    intros Hnil. rewrite Hnil in Hlen. simpl in Hlen. lia.
Qed.

Lemma no_scroll_element_window_witness :
  (let out := Fixed.useFixedSizeList (fixedProps 10000 40 None None)
                (Fixed.notifyAll
                   (snd (Fixed.mount (fixedProps 10000 40 None None)
                           Fixed.initialState))
                   [ScrollEvent 800; ResizeEntry 600]
                   (fst (Fixed.mount (fixedProps 10000 40 None None)
                           Fixed.initialState))) in
   Fixed.startIndex out = 0 /\ Fixed.endIndex out = 3) /\
  (exists out,
     Dynamic.useFixedSizeList shortListProps
       (Dynamic.notifyAll
          (snd (Dynamic.mount shortListProps Dynamic.initialState))
          [ScrollEvent 800; ResizeEntry 600]
          (fst (Dynamic.mount shortListProps Dynamic.initialState)))
       = Ok out /\
     Dynamic.startIndex out = 0 /\ Dynamic.endIndex out = 2).
Proof.
  destruct no_scroll_element_window as [Hfixed Hdynamic]. split.
  - destruct (Hfixed (fixedProps 10000 40 None None)
                [ScrollEvent 800; ResizeEntry 600] eq_refl eq_refl)
      as (_ & _ & Hstart & Hend & _).
    + discriminate.
    + split; [exact Hstart | exact Hend].
  - destruct (Hdynamic shortListProps Dynamic.initialState
                [ScrollEvent 800; ResizeEntry 600] (fun _ => 40%Q)
                eq_refl eq_refl)
      as (_ & _ & out & Hout & Hstart & Hend & _).
    + intros i. reflexivity.
    + split; reflexivity.
    + discriminate.
    + reflexivity.
    + reflexivity.
    + reflexivity.
    + exists out. split; [exact Hout |]. split; [exact Hstart | exact Hend].
Defined.

(** ** Configuration *)

Lemma scanLoop_throws (props : Dynamic.UseFixedSizeListProps)
  (cache : gmap string Q) (rangeStart rangeEnd : Q) (overscan : Z)
  (fuel : nat) (i : Z) (s : Dynamic.Scan) (msg : string) :
  Dynamic.scanLoop props cache rangeStart rangeEnd overscan fuel i s
    = Throw msg ->
  msg = "estimateItemHeight is not a function".
Proof.
  revert i s. induction fuel as [|fuel IH]; intros i s; simpl; [discriminate |].
  destruct (i <? Dynamic.itemsCount props); [| discriminate].
  unfold Dynamic.scanBody at 1, Dynamic.getItemHeight.
  destruct (Dynamic.itemHeight props) as [f|]; simpl; [apply IH |].
  destruct (cache !! _) as [h|]; simpl; [apply IH |].
  destruct (Dynamic.estimateItemHeight props) as [e|]; simpl; [apply IH |].
  now intros [= <-].
Qed.

Lemma computeWindow_throws (props : Dynamic.UseFixedSizeListProps)
  (st : Dynamic.State) (msg : string) :
  Dynamic.computeWindow props st = Throw msg ->
  msg = "Invalid array length" \/
  msg = "estimateItemHeight is not a function".
Proof.
  unfold Dynamic.computeWindow, Dynamic.newArray.
  destruct (_ && _); simpl; [| intros [= <-]; now left].
  destruct (Dynamic.scanLoop _ _ _ _ _ _ _ _) as [s|msg'] eqn:Hloop; simpl;
    [discriminate |].
  intros [= <-]. right. eapply scanLoop_throws, Hloop.
Qed.

(** C7.  [validateProps], and with it the hook, throws the descriptive
    configuration error exactly when neither [itemHeight] nor
    [estimateItemHeight] is supplied; with at least one of them supplied
    [validateProps] returns and the hook does not raise this error. *)
Theorem configuration_error_iff (props : Dynamic.UseFixedSizeListProps) :
  (Dynamic.validateProps props
     = Throw "You must pass either itemHeight or estimateItemHeight props"
   <-> Dynamic.itemHeight props = None /\
       Dynamic.estimateItemHeight props = None) /\
  (Dynamic.validateProps props = Ok tt
   <-> Dynamic.itemHeight props <> None \/
       Dynamic.estimateItemHeight props <> None) /\
  (forall st,
     Dynamic.useFixedSizeList props st
       = Throw "You must pass either itemHeight or estimateItemHeight props"
     <-> Dynamic.itemHeight props = None /\
         Dynamic.estimateItemHeight props = None).
Proof.
  assert (Hhook : forall st,
            Dynamic.validateProps props = Ok tt ->
            Dynamic.useFixedSizeList props st
              <> Throw Dynamic.configurationErrorMessage).
  { intros st Hvalid Hthrow. unfold Dynamic.useFixedSizeList in Hthrow.
    rewrite Hvalid in Hthrow. simpl in Hthrow.
    apply computeWindow_throws in Hthrow as [? | ?]; discriminate. }
  change "You must pass either itemHeight or estimateItemHeight props"
    with Dynamic.configurationErrorMessage.
  unfold Dynamic.useFixedSizeList. revert Hhook.
  unfold Dynamic.useFixedSizeList, Dynamic.validateProps.
  destruct (Dynamic.itemHeight props) as [f|];
    destruct (Dynamic.estimateItemHeight props) as [e|]; intros Hhook.
  - split; [| split; [| intros st]]; split;
      try discriminate; try tauto; try (intros [? ?]; discriminate).
    + intros _. left. discriminate.
    + intros Hthrow. now apply Hhook in Hthrow.
  - split; [| split; [| intros st]]; split;
      try discriminate; try tauto; try (intros [? ?]; discriminate).
    + intros _. left. discriminate.
    + intros Hthrow. now apply Hhook in Hthrow.
  - split; [| split; [| intros st]]; split;
      try discriminate; try tauto; try (intros [? ?]; discriminate).
    + intros _. right. discriminate.
    + intros Hthrow. now apply Hhook in Hthrow.
  - split; [| split; [| intros st]]; split;
      try discriminate; try tauto; try (intros [? ?]; congruence).
Qed.

Lemma configuration_error_iff_witness :
  Dynamic.validateProps shortListProps = Ok tt /\
  forall st,
    Dynamic.useFixedSizeList shortListProps st
      <> Throw "You must pass either itemHeight or estimateItemHeight props".
Proof.
  destruct (configuration_error_iff shortListProps) as (_ & Hok & Hhook).
  split.
  - apply Hok. right. discriminate.
  - intros st Hthrow. apply Hhook in Hthrow as [_ Hnone]. discriminate.
Defined.

(** ** [parseInt] reads back a printed index *)

Lemma digitValue_pretty_N_char (d : N) :
  (d < 10)%N -> digitValue (pretty_N_char d) = Some (Z.of_N d).
Proof.
  intros Hd.
  assert (Hcases : (d = 0 \/ d = 1 \/ d = 2 \/ d = 3 \/ d = 4 \/ d = 5 \/
                    d = 6 \/ d = 7 \/ d = 8 \/ d = 9)%N) by lia.
  repeat (destruct Hcases as [-> | Hcases]; [reflexivity |]).
  subst d. reflexivity.
Qed.

Lemma digit_not_sign (c : ascii) (d : Z) :
  digitValue c = Some d ->
  isWhiteSpace c = false /\ c <> "-"%char /\ c <> "+"%char.
Proof.
  destruct c as [[] [] [] [] [] [] [] []]; vm_compute;
    try discriminate; intros _; repeat split; discriminate.
Qed.

Lemma pretty_N_go_digits (x : N) (s : string) :
  (0 < x)%N ->
  parseDigits None (pretty_N_go x s) = parseDigits (Some (Z.of_N x)) s /\
  exists c rest d, pretty_N_go x s = String c rest /\ digitValue c = Some d.
Proof.
  revert s. induction (N.lt_wf_0 x) as [x _ IH]; intros s Hx.
  rewrite pretty_N_go_step by exact Hx.
  assert (Hdigit := digitValue_pretty_N_char (x `mod` 10)%N
                      ltac:(apply N.mod_lt; lia)).
  destruct (decide (x `div` 10 = 0)%N) as [Hsmall | Hlarge].
  - rewrite Hsmall, pretty_N_go_0. split.
    + simpl. rewrite Hdigit. simpl. do 2 f_equal.
      pose proof (N.Div0.div_mod x 10) as Hdm. lia.
    + eauto.
  - assert (Hlt : (x `div` 10 < x)%N) by (apply N.div_lt; lia).
    assert (Hpos : (0 < x `div` 10)%N) by now apply N.neq_0_lt_0.
    destruct (IH _ Hlt (String (pretty_N_char (x `mod` 10)) s) Hpos)
      as [Hparse Hhead].
    split; [| exact Hhead].
    rewrite Hparse. simpl. rewrite Hdigit. simpl. do 2 f_equal.
    pose proof (N.Div0.div_mod x 10) as Hdm. lia.
Qed.

Lemma parseInt_pretty_pos (p : positive) :
  parseDigits None (pretty (Npos p)) = Some (Zpos p) /\
  exists c rest d, pretty (Npos p) = String c rest /\ digitValue c = Some d.
Proof.
  unfold pretty, pretty_N. destruct (decide (N.pos p = 0%N)) as [H | _]; [lia |].
  destruct (pretty_N_go_digits (N.pos p) "" ltac:(lia)) as [Hparse Hhead].
  split; [| exact Hhead]. rewrite Hparse. reflexivity.
Qed.

(** Every index, printed in decimal, is read back by [parseInt]. *)
Lemma parseInt_pretty (z : Z) : parseInt (pretty z) = Some z.
Proof.
  destruct z as [|p|p].
  - reflexivity.
  - destruct (parseInt_pretty_pos p) as (Hparse & c & rest & d & Hhead & Hd).
    change (pretty (Z.pos p)) with (pretty (N.pos p)).
    unfold parseInt. rewrite <- Hparse. rewrite Hhead.
    destruct (digit_not_sign c d Hd) as (Hws & Hminus & Hplus).
    simpl trimStart. rewrite Hws.
    destruct c as [[] [] [] [] [] [] [] []]; try reflexivity; congruence.
  - destruct (parseInt_pretty_pos p) as (Hparse & _).
    change (pretty (Z.neg p)) with (String "-"%char (pretty (N.pos p))).
    unfold parseInt. simpl trimStart.
    change (isWhiteSpace "-") with false. cbv iota.
    rewrite Hparse. reflexivity.
Qed.

(** ** Measurement reports *)

Lemma dynamic_notify_cache (subs : Subscriptions) (n : Notification)
  (st : Dynamic.State) :
  Dynamic.measurementCache (Dynamic.notify subs n st)
  = Dynamic.measurementCache st.
Proof.
  destruct n; simpl;
    repeat match goal with |- context [if ?b then _ else _] => destruct b end;
    reflexivity.
Qed.

Lemma dynamic_notifyAll_cache (subs : Subscriptions) (ns : list Notification)
  (st : Dynamic.State) :
  Dynamic.measurementCache (Dynamic.notifyAll subs ns st)
  = Dynamic.measurementCache st.
Proof.
  unfold Dynamic.notifyAll. revert st.
  induction ns as [|n ns IH]; intros st; [reflexivity |].
  simpl. rewrite IH. apply dynamic_notify_cache.
Qed.

(** A report with a parsable index stores the measured height under the
    property name of the item's key and changes nothing else. *)
Lemma measureElement_valid (props : Dynamic.UseFixedSizeListProps)
  (element : Dynamic.Element) (st : Dynamic.State) (i : Z) :
  parseInt (Dynamic.indexAttribute element) = Some i ->
  Dynamic.measureElement props (Some element) st =
  ({| Dynamic.scrollTop := Dynamic.scrollTop st;
      Dynamic.isScrolling := Dynamic.isScrolling st;
      Dynamic.listHeight := Dynamic.listHeight st;
      Dynamic.measurementCache :=
        <[toPropertyKey (Dynamic.getItemKey props i)
            := Dynamic.rectHeight element]> (Dynamic.measurementCache st) |},
   []).
Proof. intros Hparse. unfold Dynamic.measureElement. now rewrite Hparse. Qed.

Lemma measureElement_invalid (props : Dynamic.UseFixedSizeListProps)
  (element : Dynamic.Element) (st : Dynamic.State) :
  parseInt (Dynamic.indexAttribute element) = None ->
  Dynamic.measureElement props (Some element) st
  = (st, [Dynamic.invalidIndexMessage]).
Proof. intros Hparse. unfold Dynamic.measureElement. now rewrite Hparse. Qed.

Lemma indexAttribute_missing (element : Dynamic.Element) :
  Dynamic.dataIndex element = None ->
  parseInt (Dynamic.indexAttribute element) = None.
Proof. unfold Dynamic.indexAttribute. now intros ->. Qed.

(** The element rendered for row [i] ([data-index={i}]) reports index [i]. *)
Lemma indexAttribute_rendered (i : Z) (h : Q) :
  parseInt (Dynamic.indexAttribute (renderedElement (pretty i) h)) = Some i.
Proof.
  unfold Dynamic.indexAttribute, renderedElement. cbn [Dynamic.dataIndex].
  destruct (pretty i) as [|c rest] eqn:Hpretty.
  - pose proof (parseInt_pretty i) as Hparse. rewrite Hpretty in Hparse.
    discriminate.
  - rewrite <- Hpretty. apply parseInt_pretty.
Qed.

(** C6.  In dynamic-height mode, once a report for index [i] has stored the
    measured height [H] under the key of item [i], [getItemHeight(i)] returns
    [H], whatever the estimator says, also after any number of scroll, resize
    and timer notifications (recomputing the window does not touch the
    cache).  This holds for every element whose [data-index] reads as [i],
    and so for every index [i] and height [H] reported through the element
    rendered with [data-index = i]. *)
Theorem measured_height_round_trip :
  (forall (props : Dynamic.UseFixedSizeListProps) (element : Dynamic.Element)
          (st : Dynamic.State) (i : Z) (subs : Subscriptions)
          (ns : list Notification),
     Dynamic.itemHeight props = None ->
     parseInt (Dynamic.indexAttribute element) = Some i ->
     let st1 := fst (Dynamic.measureElement props (Some element) st) in
     let st2 := Dynamic.notifyAll subs ns st1 in
     Dynamic.measurementCache st1
       !! toPropertyKey (Dynamic.getItemKey props i)
       = Some (Dynamic.rectHeight element) /\
     Dynamic.getItemHeight props (Dynamic.measurementCache st1) i
       = Ok (Dynamic.rectHeight element) /\
     Dynamic.getItemHeight props (Dynamic.measurementCache st2) i
       = Ok (Dynamic.rectHeight element)) /\
  (forall (props : Dynamic.UseFixedSizeListProps) (st : Dynamic.State)
          (i : Z) (H : Q) (subs : Subscriptions) (ns : list Notification),
     Dynamic.itemHeight props = None ->
     let st1 :=
       fst (Dynamic.measureElement props
              (Some (renderedElement (pretty i) H)) st) in
     Dynamic.getItemHeight props
       (Dynamic.measurementCache (Dynamic.notifyAll subs ns st1)) i
     = Ok H).
Proof.
  assert (Hgeneral :
    forall props element st i subs ns,
      Dynamic.itemHeight props = None ->
      parseInt (Dynamic.indexAttribute element) = Some i ->
      let st1 := fst (Dynamic.measureElement props (Some element) st) in
      let st2 := Dynamic.notifyAll subs ns st1 in
      Dynamic.measurementCache st1
        !! toPropertyKey (Dynamic.getItemKey props i)
        = Some (Dynamic.rectHeight element) /\
      Dynamic.getItemHeight props (Dynamic.measurementCache st1) i
        = Ok (Dynamic.rectHeight element) /\
      Dynamic.getItemHeight props (Dynamic.measurementCache st2) i
        = Ok (Dynamic.rectHeight element)).
  { intros props element st i subs ns Hdynamic Hparse st1 st2.
    assert (Hstored :
              Dynamic.measurementCache st1
                !! toPropertyKey (Dynamic.getItemKey props i)
              = Some (Dynamic.rectHeight element)).
    { subst st1. rewrite (measureElement_valid _ _ _ _ Hparse). simpl.
      apply lookup_insert_eq. }
    split; [exact Hstored |].
    assert (Hread :
              Dynamic.getItemHeight props (Dynamic.measurementCache st1) i
              = Ok (Dynamic.rectHeight element)).
    { unfold Dynamic.getItemHeight. now rewrite Hdynamic, Hstored. }
    split; [exact Hread |].
    subst st2. now rewrite dynamic_notifyAll_cache. }
  split; [exact Hgeneral |].
  intros props st i H subs ns Hdynamic st1.
  apply (Hgeneral props (renderedElement (pretty i) H) st i subs ns Hdynamic).
  apply indexAttribute_rendered.
Qed.

Lemma measured_height_round_trip_witness :
  Dynamic.getItemHeight shortListProps
    (Dynamic.measurementCache
       (Dynamic.notifyAll allSubscriptions [ScrollEvent 40; TimerExpired]
          (fst (Dynamic.measureElement shortListProps
                  (Some (renderedElement "1" 80))
                  Dynamic.initialState)))) 1
  = Ok 80%Q.
Proof.
  destruct measured_height_round_trip as [Hgeneral _].
  apply (Hgeneral shortListProps (renderedElement "1" 80)
           Dynamic.initialState 1 allSubscriptions
           [ScrollEvent 40; TimerExpired]); reflexivity.
Defined.

(** C8.  A report whose element has no [data-index] attribute, or one that
    [parseInt] cannot read, is dropped: the message is written with
    [console.error], nothing is thrown, the state (the cache with it) is
    unchanged, and the heights and the window computed afterwards are those
    computed before. *)
Theorem invalid_measurement_dropped (props : Dynamic.UseFixedSizeListProps)
  (element : Dynamic.Element) (st : Dynamic.State) :
  Dynamic.dataIndex element = None \/
  parseInt (Dynamic.indexAttribute element) = None ->
  let reported := Dynamic.measureElement props (Some element) st in
  reported = (st, ["dynamic element must have a valid 'data-index' attribute"])
  /\ Dynamic.measurementCache (fst reported) = Dynamic.measurementCache st
  /\ (forall i,
        Dynamic.getItemHeight props (Dynamic.measurementCache (fst reported)) i
        = Dynamic.getItemHeight props (Dynamic.measurementCache st) i)
  /\ Dynamic.useFixedSizeList props (fst reported)
     = Dynamic.useFixedSizeList props st.
Proof.
  intros Hinvalid reported.
  assert (Hparse : parseInt (Dynamic.indexAttribute element) = None).
  { destruct Hinvalid as [Hmissing | Hparse]; [| exact Hparse].
    now apply indexAttribute_missing. }
  assert (Hreported : reported = (st, [Dynamic.invalidIndexMessage])).
  { subst reported. now apply measureElement_invalid. }
  rewrite Hreported. repeat split; reflexivity.
Qed.

Lemma invalid_measurement_dropped_witness :
  Dynamic.measureElement shortListProps (Some (renderedElement "row-1" 80))
    (dynamicState 0 600 {[ "0" := 55%Q ]})
  = (dynamicState 0 600 {[ "0" := 55%Q ]},
     ["dynamic element must have a valid 'data-index' attribute"]).
Proof.
  apply (invalid_measurement_dropped shortListProps
           (renderedElement "row-1" 80)
           (dynamicState 0 600 {[ "0" := 55%Q ]})).
  right. reflexivity.
Defined.

(** ** Frame of a measurement report *)

(** Number key 1 and string key ["1"] name the same property of the cache. *)
Example number_and_string_key_alias :
  KeyNumber 1 <> KeyString "1" /\
  toPropertyKey (KeyNumber 1) = toPropertyKey (KeyString "1").
Proof. split; [discriminate | reflexivity]. Qed.

(** Keys of the same kind name different properties when they differ. *)
Lemma toPropertyKey_same_kind (k k' : Key) :
  match k, k' with
  | KeyString _, KeyString _ | KeyNumber _, KeyNumber _ => True
  | _, _ => False
  end ->
  k' <> k -> toPropertyKey k' <> toPropertyKey k.
Proof.
  destruct k as [s | n], k' as [s' | n']; simpl; intros Hkind Hne Heq;
    try contradiction; apply Hne.
  - now rewrite Heq.
  - f_equal. now apply (inj pretty).
Qed.

(** C10 as stated fails when a number key and a string key print alike:
    row 0 has the string key ["1"] and is measured at 10, row 1 has the
    number key [1]; the report of 80 for row 1 changes the cached height of
    the other key ["1"] from 10 to 80. *)
Lemma measurement_frame_counterexample :
  let st0 :=
    fst (Dynamic.measureElement aliasProps (Some (renderedElement "0" 10))
           Dynamic.initialState) in
  let st1 :=
    fst (Dynamic.measureElement aliasProps (Some (renderedElement "1" 80))
           st0) in
  parseInt (Dynamic.indexAttribute (renderedElement "1" 80)) = Some 1 /\
  KeyString "1" <> Dynamic.getItemKey aliasProps 1 /\
  Dynamic.measurementCache st0 !! toPropertyKey (KeyString "1") = Some 10%Q /\
  Dynamic.measurementCache st1 !! toPropertyKey (KeyString "1") = Some 80%Q /\
  Dynamic.measurementCache st1 !! toPropertyKey (KeyString "1")
    <> Dynamic.measurementCache st0 !! toPropertyKey (KeyString "1").
Proof.
  cbv zeta. split; [reflexivity |]. split; [discriminate |].
  split; [vm_compute; reflexivity |]. split; [vm_compute; reflexivity |].
  vm_compute. discriminate.
Qed.

(** C10, amended.  A valid measurement report for index [i] modifies only
    the cache entry named by the string form of [getItemKey(i)]: for every
    key [k'] whose string form differs from it (in particular every other
    string key when the key is a string, and every other number key when it
    is a number) the cached height after the report is the one before it;
    scroll offset, viewport height and the scrolling flag are unchanged; and
    the entry itself holds the reported height whatever it held before, so
    that of two reports for one key the last one wins. *)
Theorem measurement_frame (props : Dynamic.UseFixedSizeListProps)
  (element : Dynamic.Element) (st : Dynamic.State) (i : Z) :
  parseInt (Dynamic.indexAttribute element) = Some i ->
  let k := Dynamic.getItemKey props i in
  let st1 := fst (Dynamic.measureElement props (Some element) st) in
  (forall k', toPropertyKey k' <> toPropertyKey k ->
     Dynamic.measurementCache st1 !! toPropertyKey k'
     = Dynamic.measurementCache st !! toPropertyKey k') /\
  (forall k',
     match k, k' with
     | KeyString _, KeyString _ | KeyNumber _, KeyNumber _ => True
     | _, _ => False
     end ->
     k' <> k ->
     Dynamic.measurementCache st1 !! toPropertyKey k'
     = Dynamic.measurementCache st !! toPropertyKey k') /\
  Dynamic.scrollTop st1 = Dynamic.scrollTop st /\
  Dynamic.listHeight st1 = Dynamic.listHeight st /\
  Dynamic.isScrolling st1 = Dynamic.isScrolling st /\
  Dynamic.measurementCache st1 !! toPropertyKey k
    = Some (Dynamic.rectHeight element) /\
  (forall element2 i2,
     parseInt (Dynamic.indexAttribute element2) = Some i2 ->
     toPropertyKey (Dynamic.getItemKey props i2) = toPropertyKey k ->
     Dynamic.measurementCache
       (fst (Dynamic.measureElement props (Some element2) st1))
       !! toPropertyKey k
     = Some (Dynamic.rectHeight element2)).
Proof.
  intros Hparse k st1.
  assert (Hst1 : Dynamic.measurementCache st1 =
                 <[toPropertyKey k := Dynamic.rectHeight element]>
                   (Dynamic.measurementCache st)).
  { subst st1. now rewrite (measureElement_valid _ _ _ _ Hparse). }
  assert (Hframe : forall k', toPropertyKey k' <> toPropertyKey k ->
            Dynamic.measurementCache st1 !! toPropertyKey k'
            = Dynamic.measurementCache st !! toPropertyKey k').
  { intros k' Hne. rewrite Hst1. apply lookup_insert_ne. congruence. }
  split; [exact Hframe |].
  split.
  { intros k' Hkind Hne. apply Hframe.
    apply toPropertyKey_same_kind; [| exact Hne].
    destruct k, k'; exact Hkind. }
  subst st1. rewrite (measureElement_valid _ _ _ _ Hparse) in *.
  cbn [fst Dynamic.scrollTop Dynamic.listHeight Dynamic.isScrolling
       Dynamic.measurementCache] in *.
  repeat (split; [reflexivity |]).
  split; [apply lookup_insert_eq |].
  intros element2 i2 Hparse2 Hsame.
  rewrite (measureElement_valid _ _ _ _ Hparse2).
  cbn [fst Dynamic.measurementCache]. rewrite Hsame.
  apply lookup_insert_eq.
Qed.

Lemma measurement_frame_witness :
  Dynamic.measurementCache
    (fst (Dynamic.measureElement shortListProps
            (Some (renderedElement "1" 80))
            (dynamicState 0 600 {[ "2" := 55%Q ]})))
    !! toPropertyKey (KeyNumber 2)
  = Some 55%Q.
Proof.
  destruct (measurement_frame shortListProps (renderedElement "1" 80)
              (dynamicState 0 600 {[ "2" := 55%Q ]}) 1 eq_refl)
    as (Hframe & _).
  rewrite (Hframe (KeyNumber 2)); [reflexivity |].
  vm_compute. discriminate.
Defined.

(** ** Fixed-height variant: what the range covers and how large it is *)

Lemma Qfloor_lt_bound (s h : Q) (i : Z) :
  (0 < h)%Q -> (s < inject_Z (i + 1) * h)%Q -> Qfloor (s / h) <= i.
Proof.
  intros Hh Hs. apply Z.lt_succ_r. rewrite Zlt_Qlt.
  eapply Qle_lt_trans; [apply Qfloor_le |].
  now apply Qlt_shift_div_r.
Qed.

Lemma Qceiling_gt_bound (e h : Q) (i : Z) :
  (0 < h)%Q -> (inject_Z i * h < e)%Q -> i < Qceiling (e / h).
Proof.
  intros Hh He. rewrite Zlt_Qlt.
  eapply Qlt_le_trans; [| apply Qle_ceiling].
  now apply Qlt_shift_div_l.
Qed.

Lemma pushRows_length (fuel : nat) (i e : Z) (h : Q) :
  (Z.to_nat (e - i + 1) <= fuel)%nat ->
  length (Fixed.pushRows fuel i e h) = Z.to_nat (e - i + 1).
Proof.
  intros Hfuel.
  rewrite <- (length_fmap Fixed.index), pushRows_indices by exact Hfuel.
  apply length_seqZ.
Qed.

(** For integer pixel quantities (where binary64 is exact:
    [itemHeight + scrollOffset + viewportHeight <= 2^52]), every row of the
    list that meets the viewport is rendered: if row [i] (from
    [i * itemHeight] to [(i + 1) * itemHeight]) overlaps
    [scrollOffset, scrollOffset + viewportHeight], then
    [startIndex <= i <= endIndex] and the row is among the virtual items. *)
Theorem fixed_visible_rows_rendered (props : Fixed.UseFixedSizeListProps)
  (st : Fixed.State) (k m w i : Z) :
  Fixed.itemHeight props = inject_Z k ->
  Fixed.scrollTop st = inject_Z m ->
  Fixed.listHeight st = inject_Z w ->
  0 < k -> 0 <= m -> 0 <= w -> k + m + w <= 2 ^ 52 ->
  0 <= default DEFAULT_OVERSCAN (Fixed.overscan props) ->
  0 <= i < Fixed.itemsCount props ->
  i * k < m + w ->
  m < (i + 1) * k ->
  let out := Fixed.useFixedSizeList props st in
  Fixed.startIndex out <= i <= Fixed.endIndex out /\
  {| Fixed.index := i;
     Fixed.offsetTop := (inject_Z i * Fixed.itemHeight props)%Q |}
    ∈ Fixed.virtualItems out.
Proof.
  intros Hk Hm Hw Hpos Hm0 Hw0 _ Hover Hi Htop Hbottom out.
  assert (Hh : (0 < Fixed.itemHeight props)%Q).
  { rewrite Hk. now apply inject_Z_pos. }
  assert (HtopQ : (inject_Z i * Fixed.itemHeight props
                   < Fixed.scrollTop st + Fixed.listHeight st)%Q).
  { rewrite Hk, Hm, Hw, <- inject_Z_mult, <- inject_Z_plus, <- Zlt_Qlt.
    exact Htop. }
  assert (HbottomQ : (Fixed.scrollTop st
                      < inject_Z (i + 1) * Fixed.itemHeight props)%Q).
  { rewrite Hk, Hm, <- inject_Z_mult, <- Zlt_Qlt. exact Hbottom. }
  assert (Hfloor := Qfloor_lt_bound _ _ _ Hh HbottomQ).
  assert (Hceil := Qceiling_gt_bound _ _ _ Hh HtopQ).
  assert (Hrange : Fixed.startIndex out <= i <= Fixed.endIndex out).
  { subst out. unfold Fixed.useFixedSizeList.
    cbn [Fixed.startIndex Fixed.endIndex]. lia. }
  split; [exact Hrange |].
  apply list_elem_of_lookup. exists (Z.to_nat (i - Fixed.startIndex out)).
  now apply fixed_virtualItems_lookup.
Qed.

Lemma fixed_visible_rows_rendered_witness :
  {| Fixed.index := 30; Fixed.offsetTop := 1200%Q |}
    ∈ Fixed.virtualItems
        (Fixed.useFixedSizeList (fixedProps 10000 40 None None)
           (fixedState 1210 600)).
Proof.
  apply (fixed_visible_rows_rendered (fixedProps 10000 40 None None)
           (fixedState 1210 600) 40 1210 600 30);
    (reflexivity || discriminate || (split; [discriminate | reflexivity])).
Defined.

(** For integer pixel quantities (where binary64 is exact:
    [itemHeight + scrollOffset + viewportHeight <= 2^52]), the number of
    rendered rows does not depend on the length of the list: it is at most
    [ceil(viewportHeight / itemHeight) + 2 * overscan + 2]. *)
Theorem fixed_rendered_rows_bounded (props : Fixed.UseFixedSizeListProps)
  (st : Fixed.State) (k m w : Z) :
  Fixed.itemHeight props = inject_Z k ->
  Fixed.scrollTop st = inject_Z m ->
  Fixed.listHeight st = inject_Z w ->
  0 < k -> 0 <= m -> 0 <= w -> k + m + w <= 2 ^ 52 ->
  let out := Fixed.useFixedSizeList props st in
  let overscan := default DEFAULT_OVERSCAN (Fixed.overscan props) in
  Z.of_nat (length (Fixed.virtualItems out))
  <= Z.max 0 (Qceiling (inject_Z w / inject_Z k) + 2 * overscan + 2).
Proof.
  intros Hk Hm Hw Hpos _ _ _ out overscan. subst out.
  unfold Fixed.useFixedSizeList. cbn [Fixed.virtualItems].
  rewrite pushRows_length by lia. fold overscan. rewrite Hk, Hm, Hw.
  set (h := inject_Z k). set (s := inject_Z m). set (v := inject_Z w).
  assert (Hceil : Qceiling ((s + v) / h)
                  <= Qfloor (s / h) + 1 + Qceiling (v / h)).
  { rewrite <- (Qceiling_Z (Qfloor (s / h) + 1 + Qceiling (v / h))).
    apply Qceiling_resp_le.
    rewrite !inject_Z_plus.
    assert (Hsplit : ((s + v) / h == s / h + v / h)%Q).
    { unfold Qdiv. ring. }
    rewrite Hsplit. apply Qplus_le_compat.
    - rewrite <- inject_Z_plus. apply Qlt_le_weak, Qlt_floor.
    - apply Qle_ceiling. }
  lia.
Qed.

Lemma fixed_rendered_rows_bounded_witness :
  Z.of_nat
    (length (Fixed.virtualItems
               (Fixed.useFixedSizeList (fixedProps 10000 40 None None)
                  (fixedState 1210 600))))
  <= 23.
Proof.
  apply (fixed_rendered_rows_bounded (fixedProps 10000 40 None None)
           (fixedState 1210 600) 40 1210 600);
    (reflexivity || discriminate).
Defined.

(** With [itemHeight > 0], the window is empty exactly when
    [endIndex < startIndex]: when the scroll offset is beyond the content,
    for instance, and for every scroll state when the list has no item. *)
Theorem fixed_empty_window (props : Fixed.UseFixedSizeListProps)
  (st : Fixed.State) :
  (0 < Fixed.itemHeight props)%Q ->
  let out := Fixed.useFixedSizeList props st in
  (Fixed.virtualItems out = [] <-> Fixed.endIndex out < Fixed.startIndex out)
  /\ (Fixed.itemsCount props <= 0 -> Fixed.virtualItems out = []).
Proof.
  intros _ out.
  assert (Hlen : length (Fixed.virtualItems out)
                 = Z.to_nat (Fixed.endIndex out - Fixed.startIndex out + 1)).
  { subst out. unfold Fixed.useFixedSizeList.
    cbn [Fixed.virtualItems Fixed.startIndex Fixed.endIndex].
    apply pushRows_length. lia. }
  assert (Hiff : Fixed.virtualItems out = []
                 <-> Fixed.endIndex out < Fixed.startIndex out).
  { split.
    - intros Hnil. apply (f_equal length) in Hnil. rewrite Hlen in Hnil.
      cbn [length] in Hnil. lia.
    - intros Hlt. apply length_zero_iff_nil. rewrite Hlen. lia. }
  split; [exact Hiff |].
  intros Hn. apply Hiff. subst out. unfold Fixed.useFixedSizeList.
  cbn [Fixed.startIndex Fixed.endIndex]. lia.
Qed.

Lemma fixed_empty_window_witness :
  Fixed.virtualItems
    (Fixed.useFixedSizeList (fixedProps 10 40 None None)
       (fixedState 4000 600))
  = [] /\
  Fixed.virtualItems
    (Fixed.useFixedSizeList (fixedProps 0 40 None None) (fixedState 120 600))
  = [].
Proof.
  split.
  - apply (proj1 (fixed_empty_window (fixedProps 10 40 None None)
                    (fixedState 4000 600) eq_refl)).
    reflexivity.
  - apply (proj2 (fixed_empty_window (fixedProps 0 40 None None)
                    (fixedState 120 600) eq_refl)).
    discriminate.
Defined.

(** ** Dynamic-height variant: when the hook returns, and what it renders *)

Lemma useFixedSizeList_returns (props : Dynamic.UseFixedSizeListProps)
  (st : Dynamic.State) (out : Dynamic.Output) :
  Dynamic.useFixedSizeList props st = Ok out ->
  Dynamic.validateProps props = Ok tt /\
  0 <= Dynamic.itemsCount props < 2 ^ 32.
Proof.
  intros Hout. unfold Dynamic.useFixedSizeList in Hout.
  destruct (Dynamic.validateProps props) as [[]|msg] eqn:Hvalid;
    [| discriminate].
  split; [reflexivity |]. simpl in Hout.
  unfold Dynamic.computeWindow, Dynamic.newArray in Hout.
  destruct (0 <=? Dynamic.itemsCount props) eqn:H0;
    destruct (Dynamic.itemsCount props <? 2 ^ 32) eqn:H1;
    try discriminate.
  apply Z.leb_le in H0. apply Z.ltb_lt in H1. lia.
Qed.

(** The hook returns a window exactly when the props pass [validateProps]
    and [itemsCount] is a valid array length: after validation the call of
    the optional estimator cannot fail. *)
Theorem dynamic_hook_returns_iff (props : Dynamic.UseFixedSizeListProps)
  (st : Dynamic.State) :
  (exists out, Dynamic.useFixedSizeList props st = Ok out)
  <-> Dynamic.validateProps props = Ok tt /\
      0 <= Dynamic.itemsCount props < 2 ^ 32.
Proof.
  split.
  - intros [out Hout]. eapply useFixedSizeList_returns, Hout.
  - intros [Hvalid Hn].
    destruct (getItemHeight_valid props (Dynamic.measurementCache st) Hvalid)
      as [heightOf Hheight].
    destruct (computeWindow_spec props st heightOf Hn Hheight)
      as (out & Hout & _).
    exists out. unfold Dynamic.useFixedSizeList. now rewrite Hvalid.
Qed.

Lemma dynamic_hook_returns_iff_witness :
  exists out,
    Dynamic.useFixedSizeList shortListProps (dynamicState 40 600 ∅) = Ok out.
Proof.
  apply (dynamic_hook_returns_iff shortListProps (dynamicState 40 600 ∅)).
  split; [reflexivity |]. split; [discriminate | reflexivity].
Defined.

Lemma scanLoop_cache_irrelevant (props : Dynamic.UseFixedSizeListProps)
  (f : Z -> Q) (c1 c2 : gmap string Q) (rangeStart rangeEnd : Q)
  (overscan : Z) (fuel : nat) (i : Z) (s : Dynamic.Scan) :
  Dynamic.itemHeight props = Some f ->
  Dynamic.scanLoop props c1 rangeStart rangeEnd overscan fuel i s
  = Dynamic.scanLoop props c2 rangeStart rangeEnd overscan fuel i s.
Proof.
  intros Hf. revert i s. induction fuel as [|fuel IH]; intros i s;
    [reflexivity |].
  simpl. destruct (i <? Dynamic.itemsCount props); [| reflexivity].
  unfold Dynamic.scanBody.
  rewrite (getItemHeight_fixed props c1 f i Hf),
          (getItemHeight_fixed props c2 f i Hf).
  simpl. apply IH.
Qed.

(** With [itemHeight] supplied the measurement cache is never read: calls of
    [measureElement], whatever their elements, leave the result of the hook
    as it was. *)
Theorem itemHeight_takes_precedence (props : Dynamic.UseFixedSizeListProps)
  (f : Z -> Q) (elements : list (option Dynamic.Element))
  (subs : Subscriptions) (st : Dynamic.State) :
  Dynamic.itemHeight props = Some f ->
  Dynamic.useFixedSizeList props
    (actAll props subs (Measure <$> elements) st)
  = Dynamic.useFixedSizeList props st.
Proof.
  intros Hf. revert st.
  induction elements as [|element elements IH]; intros st; [reflexivity |].
  unfold actAll in *. rewrite fmap_cons. cbn [foldl]. rewrite IH.
  unfold act, Dynamic.useFixedSizeList, Dynamic.computeWindow.
  destruct (Dynamic.validateProps props); [| reflexivity]. cbn [bind].
  destruct (Dynamic.newArray _); [| reflexivity]. cbn [bind].
  unfold Dynamic.measureElement.
  destruct element as [element|]; [| reflexivity].
  destruct (parseInt _); [| reflexivity].
  cbn [fst Dynamic.scrollTop Dynamic.listHeight Dynamic.isScrolling
       Dynamic.measurementCache].
  now rewrite (scanLoop_cache_irrelevant props f _
                 (Dynamic.measurementCache st) _ _ _ _ _ _ Hf).
Qed.

Lemma itemHeight_takes_precedence_witness :
  Dynamic.useFixedSizeList
    (heightFunctionProps 3 (fun _ => 25%Q) KeyNumber None)
    (actAll (heightFunctionProps 3 (fun _ => 25%Q) KeyNumber None)
       allSubscriptions
       (Measure <$> [Some (renderedElement "1" 80); None])
       (dynamicState 0 600 ∅))
  = Dynamic.useFixedSizeList
      (heightFunctionProps 3 (fun _ => 25%Q) KeyNumber None)
      (dynamicState 0 600 ∅).
Proof.
  apply (itemHeight_takes_precedence
           (heightFunctionProps 3 (fun _ => 25%Q) KeyNumber None)
           (fun _ => 25%Q)).
  reflexivity.
Defined.

Lemma slice_lookup {A : Type} (l : list A) (start stop : Z) (k : nat) :
  0 <= start <= stop -> stop <= Z.of_nat (length l) ->
  slice l start stop !! k =
  if decide (Z.of_nat k < stop - start)
  then l !! (Z.to_nat start + k)%nat else None.
Proof.
  intros Hstart Hstop. unfold slice, sliceBound.
  replace (start <? 0) with false by (symmetry; apply Z.ltb_ge; lia).
  replace (stop <? 0) with false by (symmetry; apply Z.ltb_ge; lia).
  rewrite !Z.min_l by lia. rewrite Z.max_l by lia.
  rewrite lookup_take. destruct (decide (k < Z.to_nat (stop - start))%nat);
    destruct (decide (Z.of_nat k < stop - start)); try lia; [| reflexivity].
  apply lookup_drop.
Qed.

(** When the returned range satisfies
    [0 <= startIndex <= endIndex <= itemsCount - 1], the virtual items are
    exactly the rows [startIndex .. endIndex], in order, each with its key,
    height and offset. *)
Theorem dynamic_virtualItems_rows (props : Dynamic.UseFixedSizeListProps)
  (st : Dynamic.State) (heightOf : Z -> Q) (out : Dynamic.Output) :
  (forall i, Dynamic.getItemHeight props (Dynamic.measurementCache st) i
             = Ok (heightOf i)) ->
  Dynamic.useFixedSizeList props st = Ok out ->
  rangeInvariant (Dynamic.startIndex out) (Dynamic.endIndex out)
    (Dynamic.itemsCount props) ->
  Dynamic.virtualItems out =
  (fun i => Some (rowAt (Dynamic.getItemKey props) heightOf i))
    <$> seqZ (Dynamic.startIndex out)
          (Dynamic.endIndex out - Dynamic.startIndex out + 1).
Proof.
  intros Hheight Hout (Hstart & Horder & Hend).
  destruct (useFixedSizeList_returns props st out Hout) as [Hvalid Hn].
  destruct (computeWindow_spec props st heightOf Hn Hheight)
    as (out' & Hout' & _ & Hlen & Hrows & Hslice & _).
  unfold Dynamic.useFixedSizeList in Hout. rewrite Hvalid in Hout.
  cbn [bind] in Hout. rewrite Hout in Hout'. injection Hout' as <-.
  apply list_eq. intros k. rewrite Hslice, list_lookup_fmap.
  rewrite slice_lookup by lia.
  destruct (decide (Z.of_nat k < _)) as [Hk | Hk].
  - rewrite Hrows by lia. rewrite lookup_seqZ_lt by lia. simpl.
    do 3 f_equal. lia.
  - rewrite lookup_seqZ_ge by lia. reflexivity.
Qed.

Lemma dynamic_virtualItems_rows_witness :
  exists out,
    Dynamic.useFixedSizeList shortListProps (dynamicState 0 100 ∅) = Ok out /\
    Dynamic.virtualItems out =
    (fun i => Some (rowAt KeyNumber (fun _ => 40%Q) i))
      <$> seqZ (Dynamic.startIndex out)
            (Dynamic.endIndex out - Dynamic.startIndex out + 1).
Proof.
  eexists. split; [vm_compute; reflexivity |].
  apply (dynamic_virtualItems_rows shortListProps (dynamicState 0 100 ∅)
           (fun _ => 40%Q)).
  - intros i. reflexivity.
  - vm_compute. reflexivity.
  - repeat split; discriminate.
Defined.

Lemma sumHeights_mono (heightOf : Z -> Q) (k m : nat) :
  (forall j, 0 <= j -> (0 <= heightOf j)%Q) ->
  (k <= m)%nat ->
  (sumHeights heightOf k <= sumHeights heightOf m)%Q.
Proof.
  intros Hnonneg Hkm. induction Hkm as [|m Hkm IH]; [apply Qle_refl |].
  simpl. eapply Qle_trans; [exact IH |].
  rewrite <- (Qplus_0_r (sumHeights heightOf m)) at 1.
  apply Qplus_le_compat; [apply Qle_refl | apply Hnonneg; lia].
Qed.

Lemma firstIndex_unique (P : Z -> bool) (n : nat) (a : Z) :
  0 <= a < Z.of_nat n -> P a = true ->
  (forall j, 0 <= j < a -> P j = false) ->
  firstIndex P n = Some a.
Proof.
  intros Ha HP Hbefore.
  destruct (firstIndex P n) as [a'|] eqn:Hfirst.
  - apply firstIndex_Some in Hfirst as (Ha' & HP' & Hbefore').
    f_equal. destruct (Z.lt_trichotomy a a') as [Hlt | [Heq | Hgt]].
    + rewrite Hbefore' in HP by lia. discriminate.
    + now symmetry.
    + rewrite Hbefore in HP' by lia. discriminate.
  - rewrite firstIndex_None in Hfirst. rewrite Hfirst in HP by lia.
    discriminate.
Qed.

(** With non-negative heights, every row that meets the viewport is
    rendered, provided some row reaches the end of the viewport: if row [i]
    (from [rowTop i] to [rowBottom i]) overlaps
    [scrollOffset, scrollOffset + viewportHeight], then
    [startIndex <= i <= endIndex] and the row is the virtual item at
    position [i - startIndex]. *)
Theorem dynamic_visible_rows_rendered (props : Dynamic.UseFixedSizeListProps)
  (st : Dynamic.State) (heightOf : Z -> Q) (out : Dynamic.Output) (i : Z) :
  (forall j, Dynamic.getItemHeight props (Dynamic.measurementCache st) j
             = Ok (heightOf j)) ->
  Dynamic.useFixedSizeList props st = Ok out ->
  0 <= default DEFAULT_OVERSCAN (Dynamic.overscan props) ->
  (forall j, 0 <= j -> (0 <= heightOf j)%Q) ->
  0 <= i < Dynamic.itemsCount props ->
  (rowTop heightOf i < Dynamic.scrollTop st + Dynamic.listHeight st)%Q ->
  (Dynamic.scrollTop st < rowBottom heightOf i)%Q ->
  (exists j, 0 <= j < Dynamic.itemsCount props /\
     (Dynamic.scrollTop st + Dynamic.listHeight st
      <= rowBottom heightOf j)%Q) ->
  Dynamic.startIndex out <= i <= Dynamic.endIndex out /\
  Dynamic.virtualItems out !! Z.to_nat (i - Dynamic.startIndex out)
  = Some (Some (rowAt (Dynamic.getItemKey props) heightOf i)).
Proof.
  intros Hheight Hout Hover Hnonneg Hi Htop Hbottom (j & Hj & Hreach).
  destruct (useFixedSizeList_returns props st out Hout) as [Hvalid Hn].
  destruct (computeWindow_spec props st heightOf Hn Hheight)
    as (out' & Hout' & _ & Hlen & Hrows & Hslice & Hrange).
  unfold Dynamic.useFixedSizeList in Hout. rewrite Hvalid in Hout.
  cbn [bind] in Hout. rewrite Hout in Hout'. injection Hout' as <-.
  destruct (Hrange Hover) as [Hstart Hend].
  unfold scanStart in Hstart. unfold scanEnd in Hend.
  destruct (firstIndex (fun j0 => Qgeb (rowBottom heightOf j0) _) _)
    as [b|] eqn:Hb.
  2:{ exfalso. rewrite firstIndex_None in Hb.
      specialize (Hb j ltac:(lia)). apply not_true_iff_false in Hb.
      apply Hb, Qgeb_iff, Hreach. }
  apply firstIndex_Some in Hb as (Hbn & Hbreach & _).
  apply Qgeb_iff in Hbreach.
  destruct (firstIndex (fun j0 => Qgtb (rowBottom heightOf j0) _) _)
    as [a|] eqn:Ha.
  2:{ exfalso. rewrite firstIndex_None in Ha.
      specialize (Ha i ltac:(lia)). apply not_true_iff_false in Ha.
      apply Ha, Qgtb_iff, Hbottom. }
  apply firstIndex_Some in Ha as (Han & _ & Hbefore).
  assert (Hai : a <= i).
  { destruct (Z_le_gt_dec a i) as [Hle | Hgt]; [exact Hle |].
    exfalso. specialize (Hbefore i ltac:(lia)).
    apply not_true_iff_false in Hbefore. apply Hbefore, Qgtb_iff, Hbottom. }
  assert (Hib : i <= b).
  { destruct (Z_le_gt_dec i b) as [Hle | Hgt]; [exact Hle |].
    exfalso. apply (Qlt_irrefl (rowTop heightOf i)).
    eapply Qlt_le_trans; [exact Htop |].
    eapply Qle_trans; [exact Hbreach |].
    unfold rowBottom, rowTop. apply sumHeights_mono; [exact Hnonneg | lia]. }
  assert (Hin : Dynamic.startIndex out <= i <= Dynamic.endIndex out) by lia.
  split; [exact Hin |].
  rewrite Hslice, slice_lookup by lia.
  destruct (decide (Z.of_nat _ < _)) as [_ | Hk]; [| lia].
  rewrite Hrows by lia. do 3 f_equal. lia.
Qed.

Lemma dynamic_visible_rows_rendered_witness :
  exists out,
    Dynamic.useFixedSizeList shortListProps (dynamicState 50 60 ∅) = Ok out /\
    Dynamic.virtualItems out !! Z.to_nat (1 - Dynamic.startIndex out)
    = Some (Some (rowAt KeyNumber (fun _ => 40%Q) 1)).
Proof.
  eexists. split; [vm_compute; reflexivity |].
  apply (dynamic_visible_rows_rendered shortListProps (dynamicState 50 60 ∅)
           (fun _ => 40%Q)).
  - intros j. reflexivity.
  - vm_compute. reflexivity.
  - discriminate.
  - intros j _. discriminate.
  - split; [discriminate | reflexivity].
  - reflexivity.
  - reflexivity.
  - exists 2. split; [split; [discriminate | reflexivity] | discriminate].
Defined.

(** ** The two variants on rows of one height *)

Lemma rowBottom_const (h : Q) (j : Z) :
  0 <= j -> (rowBottom (fun _ => h) j == inject_Z (j + 1) * h)%Q.
Proof.
  intros Hj. unfold rowBottom. rewrite sumHeights_const.
  replace (Z.of_nat (S (Z.to_nat j))) with (j + 1) by lia. reflexivity.
Qed.

Lemma inject_Z_mult_le (a b : Z) (h : Q) :
  (0 < h)%Q -> a <= b -> (inject_Z a * h <= inject_Z b * h)%Q.
Proof.
  intros Hh Hab. apply Qmult_le_compat_r; [| now apply Qlt_le_weak].
  now rewrite <- Zle_Qle.
Qed.

Lemma scanStart_const (h s : Q) (overscan : Z) (n : nat) :
  (0 < h)%Q -> (0 <= s)%Q -> (s < h * inject_Z (Z.of_nat n))%Q ->
  scanStart (fun _ => h) s overscan n = Z.max 0 (Qfloor (s / h) - overscan).
Proof.
  intros Hh Hs Hsn. unfold scanStart.
  destruct (rawStart_bounds s h Hh) as [Hlow Hhigh].
  rewrite (firstIndex_unique _ n (Qfloor (s / h))); [reflexivity | | |].
  - split.
    + change 0 with (Qfloor 0). apply Qfloor_resp_le. now apply Qdiv_nonneg.
    + rewrite Zlt_Qlt. eapply Qle_lt_trans; [apply Qfloor_le |].
      now apply Qdiv_lt_bound.
  - apply Qgtb_iff. rewrite rowBottom_const; [exact Hhigh |].
    change 0 with (Qfloor 0). apply Qfloor_resp_le. now apply Qdiv_nonneg.
  - intros j Hj. apply not_true_is_false. rewrite Qgtb_iff.
    rewrite rowBottom_const by lia. intros Hlt.
    pose proof (Qfloor_lt_bound s h j Hh Hlt). lia.
Qed.

Lemma scanEnd_const (h e : Q) (itemsCount overscan : Z) (n : nat) :
  (0 < h)%Q -> (0 < e)%Q -> (e <= h * inject_Z (Z.of_nat n))%Q ->
  scanEnd (fun _ => h) e itemsCount overscan n
  = Z.min (itemsCount - 1) (Qceiling (e / h) - 1 + overscan).
Proof.
  intros Hh He Hen. unfold scanEnd.
  destruct (rawEnd_bounds e h Hh) as [Hlow Hhigh].
  assert (Hpos : 0 < Qceiling (e / h)).
  { rewrite Zlt_Qlt. eapply Qlt_le_trans; [| apply Qle_ceiling].
    apply Qlt_shift_div_l; [exact Hh |]. now rewrite Qmult_0_l. }
  assert (Hbound : Qceiling (e / h) <= Z.of_nat n).
  { rewrite <- (Qceiling_Z (Z.of_nat n)). apply Qceiling_resp_le.
    apply Qle_shift_div_r; [exact Hh |]. now rewrite Qmult_comm. }
  rewrite (firstIndex_unique _ n (Qceiling (e / h) - 1)); [reflexivity | | |].
  - lia.
  - apply Qgeb_iff. rewrite rowBottom_const by lia.
    now replace (Qceiling (e / h) - 1 + 1) with (Qceiling (e / h)) by lia.
  - intros j Hj. apply not_true_is_false. rewrite Qgeb_iff.
    rewrite rowBottom_const by lia. apply Qlt_not_le.
    eapply Qle_lt_trans; [| exact Hlow].
    apply inject_Z_mult_le; [exact Hh | lia].
Qed.

(** When every row has the same integer height [h > 0], the scroll offset
    and the viewport height are integers, the viewport lies inside the
    content and [h * itemsCount + h <= 2^52] (so that the sums of the scan
    and the quotients of the closed form are exact in binary64), the scan
    of the dynamic-height variant finds the [startIndex] of the closed form
    of the fixed-height variant, and an [endIndex] that is one row short of
    it: [min(itemsCount - 1, ceil((scrollOffset + viewportHeight) / h) - 1 +
    overscan)]. *)
Theorem dynamic_scan_on_equal_heights (props : Dynamic.UseFixedSizeListProps)
  (st : Dynamic.State) (k m w : Z) (out : Dynamic.Output) :
  (forall i, Dynamic.getItemHeight props (Dynamic.measurementCache st) i
             = Ok (inject_Z k)) ->
  Dynamic.useFixedSizeList props st = Ok out ->
  Dynamic.scrollTop st = inject_Z m ->
  Dynamic.listHeight st = inject_Z w ->
  0 < k ->
  k * Dynamic.itemsCount props + k <= 2 ^ 52 ->
  0 <= default DEFAULT_OVERSCAN (Dynamic.overscan props) ->
  0 <= m < k * Dynamic.itemsCount props ->
  0 < m + w <= k * Dynamic.itemsCount props ->
  let fixed :=
    Fixed.useFixedSizeList
      {| Fixed.itemsCount := Dynamic.itemsCount props;
         Fixed.itemHeight := inject_Z k;
         Fixed.overscan := Dynamic.overscan props;
         Fixed.scrollingDelay := Dynamic.scrollingDelay props;
         Fixed.getScrollElement := Dynamic.getScrollElement props |}
      {| Fixed.scrollTop := Dynamic.scrollTop st;
         Fixed.isScrolling := Dynamic.isScrolling st;
         Fixed.listHeight := Dynamic.listHeight st |} in
  Dynamic.startIndex out = Fixed.startIndex fixed /\
  Dynamic.endIndex out =
    Z.min (Dynamic.itemsCount props - 1)
      (Qceiling (inject_Z (m + w) / inject_Z k) - 1
       + default DEFAULT_OVERSCAN (Dynamic.overscan props)) /\
  Fixed.endIndex fixed =
    Z.min (Dynamic.itemsCount props - 1) (Dynamic.endIndex out + 1).
Proof.
  intros Hheight Hout Hm Hw Hk _ Hover Hmn Hen fixed.
  destruct (useFixedSizeList_returns props st out Hout) as [Hvalid Hn].
  destruct (computeWindow_spec props st (fun _ => inject_Z k) Hn Hheight)
    as (out' & Hout' & _ & _ & _ & _ & Hrange).
  unfold Dynamic.useFixedSizeList in Hout. rewrite Hvalid in Hout.
  cbn [bind] in Hout. rewrite Hout in Hout'. injection Hout' as <-.
  destruct (Hrange Hover) as [Hstart Hend].
  assert (Hh : (0 < inject_Z k)%Q) by now apply inject_Z_pos.
  rewrite Hm in Hstart. rewrite Hm, Hw, <- inject_Z_plus in Hend.
  rewrite scanStart_const in Hstart; cycle 1.
  { exact Hh. }
  { apply inject_Z_nonneg. lia. }
  { rewrite Z2Nat.id by lia. rewrite <- inject_Z_mult, <- Zlt_Qlt. lia. }
  rewrite scanEnd_const in Hend; cycle 1.
  { exact Hh. }
  { apply inject_Z_pos. lia. }
  { rewrite Z2Nat.id by lia. rewrite <- inject_Z_mult, <- Zle_Qle. lia. }
  subst fixed. unfold Fixed.useFixedSizeList.
  cbn [Fixed.startIndex Fixed.endIndex Fixed.itemHeight Fixed.itemsCount
       Fixed.overscan Fixed.scrollTop Fixed.listHeight].
  rewrite Hm, Hw, <- inject_Z_plus, Hstart, Hend. repeat split; lia.
Qed.

Lemma dynamic_scan_on_equal_heights_witness :
  exists out,
    Dynamic.useFixedSizeList
      (dynamicProps 30 (fun _ => 40%Q) KeyNumber None None)
      (dynamicState 120 600 ∅) = Ok out /\
    Dynamic.startIndex out = 0 /\ Dynamic.endIndex out = 20.
Proof.
  eexists. split; [vm_compute; reflexivity |].
  match goal with
  | |- Dynamic.startIndex ?out = _ /\ _ =>
      destruct (dynamic_scan_on_equal_heights
                  (dynamicProps 30 (fun _ => 40%Q) KeyNumber None None)
                  (dynamicState 120 600 ∅) 40 120 600 out)
        as (Hstart & Hend & _)
  end.
  - intros i. reflexivity.
  - vm_compute. reflexivity.
  - reflexivity.
  - reflexivity.
  - reflexivity.
  - discriminate.
  - discriminate.
  - split; [discriminate | reflexivity].
  - split; [reflexivity | discriminate].
  - split; [rewrite Hstart | rewrite Hend]; reflexivity.
Defined.

(** ** The state between renders *)

Lemma measureElement_cache_grows (props : Dynamic.UseFixedSizeListProps)
  (element : option Dynamic.Element) (st : Dynamic.State) (name : string) :
  is_Some (Dynamic.measurementCache st !! name) ->
  is_Some (Dynamic.measurementCache
             (fst (Dynamic.measureElement props element st)) !! name).
Proof.
  intros Hsome. unfold Dynamic.measureElement.
  destruct element as [element|]; [| exact Hsome].
  destruct (parseInt _) as [i|]; [| exact Hsome].
  cbn [fst Dynamic.measurementCache].
  rewrite lookup_insert. case_decide; [eauto | exact Hsome].
Qed.

(** The cache is never evicted: whatever notifications and measurement
    reports arrive, every key that has a cached height keeps one, and
    without a measurement report the cache does not change at all. *)
Theorem cache_never_evicted (props : Dynamic.UseFixedSizeListProps)
  (subs : Subscriptions) (actions : list Action) (st : Dynamic.State) :
  dom (Dynamic.measurementCache st)
    ⊆ dom (Dynamic.measurementCache (actAll props subs actions st)) /\
  ((forall element, Measure element ∉ actions) ->
   Dynamic.measurementCache (actAll props subs actions st)
   = Dynamic.measurementCache st).
Proof.
  unfold actAll. revert st.
  induction actions as [|a actions IH]; intros st; [done |].
  cbn [foldl]. destruct (IH (act props subs a st)) as [IHdom IHsame].
  split.
  - etrans; [| exact IHdom]. intros name. rewrite !elem_of_dom.
    destruct a as [n | element]; cbn [act].
    + now rewrite dynamic_notify_cache.
    + apply measureElement_cache_grows.
  - intros Hnone. rewrite IHsame.
    + destruct a as [n | element]; cbn [act].
      * apply dynamic_notify_cache.
      * exfalso. apply (Hnone element). left.
    + intros element Hin. apply (Hnone element). now right.
Qed.

Lemma cache_never_evicted_witness :
  Dynamic.measurementCache
    (actAll shortListProps allSubscriptions
       [Notify (ScrollEvent 40); Notify TimerExpired]
       (dynamicState 0 600 {[ "2" := 55%Q ]}))
  = {[ "2" := 55%Q ]}.
Proof.
  destruct (cache_never_evicted shortListProps allSubscriptions
              [Notify (ScrollEvent 40); Notify TimerExpired]
              (dynamicState 0 600 {[ "2" := 55%Q ]})) as [_ Hsame].
  apply Hsame. intros element Hin. apply elem_of_cons in Hin as [Heq | Hin];
    [discriminate |].
  apply elem_of_cons in Hin as [Heq | Hin]; [discriminate |].
  inversion Hin.
Defined.

Lemma dynamic_notifyAll_snoc (subs : Subscriptions) (ns : list Notification)
  (n : Notification) (st : Dynamic.State) :
  Dynamic.notifyAll subs (ns ++ [n]) st
  = Dynamic.notify subs n (Dynamic.notifyAll subs ns st).
Proof. unfold Dynamic.notifyAll. now rewrite foldl_app. Qed.

Lemma fixed_notifyAll_snoc (subs : Subscriptions) (ns : list Notification)
  (n : Notification) (st : Fixed.State) :
  Fixed.notifyAll subs (ns ++ [n]) st
  = Fixed.notify subs n (Fixed.notifyAll subs ns st).
Proof. unfold Fixed.notifyAll. now rewrite foldl_app. Qed.

(** With a scroll element, the hook starts from the element's scroll
    offset, and after any notifications the scroll offset is that of the
    last scroll event and the viewport height that of the last resize entry
    (the initial ones if there was none); in the dynamic-height variant the
    cache is untouched. *)
Theorem last_notification_wins :
  (forall (props : Fixed.UseFixedSizeListProps) (el : HTMLElement)
          (st : Fixed.State) (ns : list Notification),
     Fixed.getScrollElement props = Some el ->
     let mounted := Fixed.mount props st in
     let st' := Fixed.notifyAll (snd mounted) ns (fst mounted) in
     Fixed.scrollTop st' = default (el_scrollTop el) (last (scrollTops ns)) /\
     Fixed.listHeight st'
       = default (Fixed.listHeight st) (last (resizeHeights ns))) /\
  (forall (props : Dynamic.UseFixedSizeListProps) (el : HTMLElement)
          (st : Dynamic.State) (ns : list Notification),
     Dynamic.getScrollElement props = Some el ->
     let mounted := Dynamic.mount props st in
     let st' := Dynamic.notifyAll (snd mounted) ns (fst mounted) in
     Dynamic.scrollTop st'
       = default (el_scrollTop el) (last (scrollTops ns)) /\
     Dynamic.listHeight st'
       = default (Dynamic.listHeight st) (last (resizeHeights ns)) /\
     Dynamic.measurementCache st' = Dynamic.measurementCache st).
Proof.
  split.
  - intros props el st ns Hel. unfold Fixed.mount. rewrite Hel.
    cbn [fst snd]. induction ns as [|n ns IH] using rev_ind; [done |].
    rewrite fixed_notifyAll_snoc. unfold scrollTops, resizeHeights in *.
    rewrite !omap_app. destruct IH as [IHtop IHheight].
    destruct n; simpl; rewrite ?app_nil_r, ?last_snoc; simpl; auto.
  - intros props el st ns Hel. unfold Dynamic.mount. rewrite Hel.
    cbn [fst snd]. split; [| split].
    + induction ns as [|n ns IH] using rev_ind; [done |].
      rewrite dynamic_notifyAll_snoc. unfold scrollTops in *.
      rewrite omap_app.
      destruct n; simpl; rewrite ?app_nil_r, ?last_snoc; simpl; auto.
    + induction ns as [|n ns IH] using rev_ind; [done |].
      rewrite dynamic_notifyAll_snoc. unfold resizeHeights in *.
      rewrite omap_app.
      destruct n; simpl; rewrite ?app_nil_r, ?last_snoc; simpl; auto.
    + now rewrite dynamic_notifyAll_cache.
Qed.

Lemma last_notification_wins_witness :
  Fixed.scrollTop
    (Fixed.notifyAll
       (snd (Fixed.mount (fixedProps 10 40 None (Some {| el_scrollTop := 7 |}))
               Fixed.initialState))
       [ScrollEvent 80; ResizeEntry 600; ScrollEvent 120; TimerExpired]
       (fst (Fixed.mount
               (fixedProps 10 40 None (Some {| el_scrollTop := 7 |}))
               Fixed.initialState)))
  = 120%Q.
Proof.
  destruct last_notification_wins as [Hfixed _].
  apply (Hfixed (fixedProps 10 40 None (Some {| el_scrollTop := 7 |}))
           {| el_scrollTop := 7 |} Fixed.initialState
           [ScrollEvent 80; ResizeEntry 600; ScrollEvent 120; TimerExpired]
           eq_refl).
Defined.

(** ** The [Simple] component: measuring the rendered rows, reversing *)

Lemma rowElement_index (layoutHeight : Z -> Q) (i : Z) :
  parseInt (Dynamic.indexAttribute (Simple.rowElement layoutHeight i))
  = Some i.
Proof. apply (indexAttribute_rendered i (layoutHeight i)). Qed.

Lemma measureRows_cons (props : Dynamic.UseFixedSizeListProps)
  (layoutHeight : Z -> Q) (i : Z) (indices : list Z) (st : Dynamic.State) :
  Simple.measureRows props layoutHeight (i :: indices) st
  = Simple.measureRows props layoutHeight indices
      (fst (Dynamic.measureElement props
              (Some (Simple.rowElement layoutHeight i)) st)).
Proof. reflexivity. Qed.

(** Once every rendered row has been measured, each of them has the height
    of its element (rows with distinct keys): the cache holds it under the
    row's key and, without [itemHeight], [getItemHeight] returns it; the
    cached heights of all other keys, the scroll offset and the viewport
    height are as before. *)
Theorem measured_rows_are_cached (props : Dynamic.UseFixedSizeListProps)
  (layoutHeight : Z -> Q) (indices : list Z) (st : Dynamic.State) :
  NoDup ((fun i => toPropertyKey (Dynamic.getItemKey props i)) <$> indices) ->
  let st' := Simple.measureRows props layoutHeight indices st in
  (forall i, i ∈ indices ->
     Dynamic.measurementCache st'
       !! toPropertyKey (Dynamic.getItemKey props i)
     = Some (layoutHeight i)) /\
  (Dynamic.itemHeight props = None ->
   forall i, i ∈ indices ->
     Dynamic.getItemHeight props (Dynamic.measurementCache st') i
     = Ok (layoutHeight i)) /\
  (forall name,
     name ∉ (fun i => toPropertyKey (Dynamic.getItemKey props i)) <$> indices ->
     Dynamic.measurementCache st' !! name
     = Dynamic.measurementCache st !! name) /\
  Dynamic.scrollTop st' = Dynamic.scrollTop st /\
  Dynamic.listHeight st' = Dynamic.listHeight st.
Proof.
  intros Hnodup st'.
  assert (Hmain :
    (forall i, i ∈ indices ->
       Dynamic.measurementCache st'
         !! toPropertyKey (Dynamic.getItemKey props i)
       = Some (layoutHeight i)) /\
    (forall name,
       name ∉ (fun i => toPropertyKey (Dynamic.getItemKey props i))
                <$> indices ->
       Dynamic.measurementCache st' !! name
       = Dynamic.measurementCache st !! name) /\
    Dynamic.scrollTop st' = Dynamic.scrollTop st /\
    Dynamic.listHeight st' = Dynamic.listHeight st).
  { subst st'. revert st Hnodup.
    induction indices as [|i indices IH]; intros st Hnodup.
    - split; [intros i Hi; inversion Hi | done].
    - rewrite fmap_cons in Hnodup. apply NoDup_cons in Hnodup as [Hfresh Hnodup].
      rewrite measureRows_cons.
      destruct (IH (fst (Dynamic.measureElement props
                           (Some (Simple.rowElement layoutHeight i)) st))
                  Hnodup) as (IHin & IHout & IHtop & IHheight).
      rewrite (measureElement_valid _ _ _ _ (rowElement_index layoutHeight i))
        in *.
      cbn [fst Dynamic.measurementCache Dynamic.scrollTop Dynamic.listHeight
           Simple.rowElement Dynamic.rectHeight] in *.
      split; [| split; [| split; assumption]].
      + intros j Hj. apply elem_of_cons in Hj as [-> | Hj].
        * rewrite IHout by exact Hfresh. apply lookup_insert_eq.
        * now apply IHin.
      + intros name Hname. rewrite fmap_cons in Hname.
        apply not_elem_of_cons in Hname as [Hne Hname].
        rewrite IHout by exact Hname. now apply lookup_insert_ne. }
  destruct Hmain as (Hin & Hout & Htop & Hheight).
  split; [exact Hin |]. split; [| split; [exact Hout | split; assumption]].
  intros Hdynamic i Hi. unfold Dynamic.getItemHeight.
  now rewrite Hdynamic, (Hin i Hi).
Qed.

Lemma measured_rows_are_cached_witness :
  Dynamic.getItemHeight shortListProps
    (Dynamic.measurementCache
       (Simple.measureRows shortListProps
          (fun i => if i =? 1 then 80%Q else 35%Q) [0; 1; 2]
          (dynamicState 0 600 ∅))) 1
  = Ok 80%Q.
Proof.
  destruct (measured_rows_are_cached shortListProps
              (fun i => if i =? 1 then 80%Q else 35%Q) [0; 1; 2]
              (dynamicState 0 600 ∅)) as (_ & Hheight & _).
  - vm_compute. repeat constructor; rewrite ?elem_of_cons;
      try (intros [H | H]; [discriminate |]; revert H);
      try (intros [H | H]; [discriminate |]; revert H);
      try (intros H; inversion H).
  - apply (Hheight eq_refl 1). right. left.
Defined.

Lemma sumHeights_ext (f g : Z -> Q) (n : nat) :
  (forall i, 0 <= i < Z.of_nat n -> f i = g i) ->
  sumHeights f n = sumHeights g n.
Proof.
  induction n as [|n IH]; intros Hfg; [reflexivity |].
  simpl. rewrite IH by (intros i Hi; apply Hfg; lia).
  now rewrite Hfg by lia.
Qed.

Lemma getItemKey_reverse (listItems : list Simple.Item) (i : Z) :
  0 <= i < Z.of_nat (length listItems) ->
  Simple.getItemKey (Simple.reverseItems listItems) i
  = Simple.getItemKey listItems (Z.of_nat (length listItems) - 1 - i).
Proof.
  intros Hi. unfold Simple.getItemKey, Simple.reverseItems.
  replace (0 <=? i) with true by (symmetry; apply Z.leb_le; lia).
  replace (0 <=? Z.of_nat (length listItems) - 1 - i) with true
    by (symmetry; apply Z.leb_le; lia).
  rewrite reverse_lookup by lia.
  replace (length listItems - S (Z.to_nat i))%nat
    with (Z.to_nat (Z.of_nat (length listItems) - 1 - i)) by lia.
  reflexivity.
Qed.

Lemma getItemKey_in_range (listItems : list Simple.Item) (i : Z) :
  0 <= i < Z.of_nat (length listItems) ->
  exists k, Simple.getItemKey listItems i = Ok k.
Proof.
  intros Hi. unfold Simple.getItemKey.
  replace (0 <=? i) with true by (symmetry; apply Z.leb_le; lia).
  destruct (lookup_lt_is_Some_2 listItems (Z.to_nat i) ltac:(lia))
    as [item Hitem].
  rewrite Hitem. eauto.
Qed.

(** Reversing the list moves every item, with its key and its measured or
    estimated height, from index [n - 1 - i] to index [i]. *)
Theorem reverse_keeps_heights (listItems : list Simple.Item)
  (getKey getKey' : Z -> Key) (el el' : option HTMLElement)
  (st : Dynamic.State) :
  Simple.keyFunction listItems getKey ->
  Simple.keyFunction (Simple.reverseItems listItems) getKey' ->
  Z.of_nat (length listItems) < 2 ^ 32 ->
  let n := Z.of_nat (length listItems) in
  exists out out',
    Dynamic.useFixedSizeList (Simple.props listItems getKey el) st = Ok out /\
    Dynamic.useFixedSizeList
      (Simple.props (Simple.reverseItems listItems) getKey' el') st
      = Ok out' /\
    forall i, 0 <= i < n ->
      exists row row',
        Dynamic.allItems out !! Z.to_nat (n - 1 - i) = Some (Some row) /\
        Dynamic.allItems out' !! Z.to_nat i = Some (Some row') /\
        Dynamic.key row' = Dynamic.key row /\
        Dynamic.height row' = Dynamic.height row.
Proof.
  intros Hkey Hkey' Hlen n.
  set (cache := Dynamic.measurementCache st).
  set (heightOf := cacheOrEstimate cache getKey (fun _ => 40%Q)).
  set (heightOf' := cacheOrEstimate cache getKey' (fun _ => 40%Q)).
  assert (Hkeys : forall i, 0 <= i < n -> getKey' i = getKey (n - 1 - i)).
  { intros i Hi.
    destruct (getItemKey_in_range listItems (n - 1 - i) ltac:(lia))
      as [k Hk].
    rewrite (Hkey _ _ Hk). apply Hkey'.
    now rewrite getItemKey_reverse by exact Hi. }
  assert (Hheights : forall i, 0 <= i < n -> heightOf' i = heightOf (n - 1 - i)).
  { intros i Hi. subst heightOf heightOf'. unfold cacheOrEstimate.
    now rewrite Hkeys by exact Hi. }
  destruct (computeWindow_spec (Simple.props listItems getKey el) st heightOf)
    as (out & Hout & _ & _ & Hrows & _).
  { cbn [Simple.props Dynamic.itemsCount]. lia. }
  { intros i. now apply getItemHeight_dynamic. }
  destruct (computeWindow_spec
              (Simple.props (Simple.reverseItems listItems) getKey' el') st
              heightOf')
    as (out' & Hout' & _ & _ & Hrows' & _).
  { cbn [Simple.props Dynamic.itemsCount]. unfold Simple.reverseItems.
    rewrite length_reverse. lia. }
  { intros i. now apply getItemHeight_dynamic. }
  cbn [Simple.props Dynamic.itemsCount Dynamic.getItemKey] in *.
  unfold Simple.reverseItems in *. rewrite length_reverse in *.
  rewrite Nat2Z.id in *.
  exists out, out'. split; [exact Hout |]. split; [exact Hout' |].
  intros i Hi. do 2 eexists.
  split; [apply Hrows; lia |]. split; [apply Hrows'; lia |].
  cbn [rowAt Dynamic.key Dynamic.height].
  rewrite !Z2Nat.id by lia. split; [now apply Hkeys | now apply Hheights].
Qed.

Lemma threeKeys_keyFunction : Simple.keyFunction threeItems threeKeys.
Proof.
  intros index k. unfold Simple.getItemKey.
  destruct (0 <=? index) eqn:Hsign; [| discriminate].
  apply Z.leb_le in Hsign.
  destruct (Z.to_nat index) as [|[|[|m]]] eqn:Hindex; simpl;
    try discriminate; intros [= <-].
  - now replace index with 0 by lia.
  - now replace index with 1 by lia.
  - now replace index with 2 by lia.
Qed.

Lemma threeKeysReversed_keyFunction :
  Simple.keyFunction (Simple.reverseItems threeItems) threeKeysReversed.
Proof.
  intros index k. unfold Simple.getItemKey.
  destruct (0 <=? index) eqn:Hsign; [| discriminate].
  apply Z.leb_le in Hsign.
  destruct (Z.to_nat index) as [|[|[|m]]] eqn:Hindex; simpl;
    try discriminate; intros [= <-].
  - now replace index with 0 by lia.
  - now replace index with 1 by lia.
  - now replace index with 2 by lia.
Qed.

Lemma reverse_keeps_heights_witness :
  exists out out',
    Dynamic.useFixedSizeList (Simple.props threeItems threeKeys None)
      (dynamicState 0 600 {[ "a" := 80%Q ]}) = Ok out /\
    Dynamic.useFixedSizeList
      (Simple.props (Simple.reverseItems threeItems) threeKeysReversed None)
      (dynamicState 0 600 {[ "a" := 80%Q ]}) = Ok out' /\
    exists row row',
      Dynamic.allItems out !! 2%nat = Some (Some row) /\
      Dynamic.allItems out' !! 0%nat = Some (Some row') /\
      Dynamic.key row' = Dynamic.key row /\
      Dynamic.height row' = Dynamic.height row.
Proof.
  destruct (reverse_keeps_heights threeItems threeKeys threeKeysReversed
              None None (dynamicState 0 600 {[ "a" := 80%Q ]})
              threeKeys_keyFunction threeKeysReversed_keyFunction)
    as (out & out' & Hout & Hout' & Hrows).
  - reflexivity.
  - exists out, out'. split; [exact Hout |]. split; [exact Hout' |].
    apply (Hrows 0). split; [discriminate | reflexivity].
Defined.

(** ** The [isScrolling] effect *)

Lemma debounce_single_pending (st : Debounce.State) (id : nat) (due : Z) :
  (forall id' due', Debounce.pending st !! id' = Some due' ->
     Debounce.timeoutId st = Some id') ->
  Debounce.pending st !! id = Some due ->
  Debounce.pending st = {[ id := due ]}.
Proof.
  intros Hone Hid. apply map_eq. intros id'.
  destruct (decide (id' = id)) as [-> | Hne].
  - now rewrite lookup_singleton_eq.
  - rewrite lookup_singleton_ne by congruence.
    destruct (Debounce.pending st !! id') as [due'|] eqn:Hid'; [| reflexivity].
    apply Hone in Hid, Hid'. congruence.
Qed.

Lemma debounce_delete_held (st : Debounce.State) :
  (forall id due, Debounce.pending st !! id = Some due ->
     Debounce.timeoutId st = Some id) ->
  match Debounce.timeoutId st with
  | Some id => delete id (Debounce.pending st)
  | None => Debounce.pending st
  end = ∅.
Proof.
  intros Hone. apply map_eq. intros id'. rewrite lookup_empty.
  destruct (Debounce.timeoutId st) as [id|] eqn:Hheld.
  - destruct (decide (id = id')) as [-> | Hne];
      [apply lookup_delete_eq |].
    rewrite lookup_delete_ne by exact Hne.
    destruct (Debounce.pending st !! id') as [due|] eqn:Hid'; [| reflexivity].
    apply Hone in Hid'. congruence.
  - destruct (Debounce.pending st !! id') as [due|] eqn:Hid'; [| reflexivity].
    apply Hone in Hid'. discriminate.
Qed.

Lemma handleScroll_single (delay : Z) (st : Debounce.State) :
  (forall id due, Debounce.pending st !! id = Some due ->
     Debounce.timeoutId st = Some id) ->
  Debounce.pending (Debounce.handleScroll delay st)
  = {[ Debounce.nextId st := Debounce.now st + Z.max 0 delay ]} /\
  Debounce.timeoutId (Debounce.handleScroll delay st)
  = Some (Debounce.nextId st) /\
  Debounce.isScrolling (Debounce.handleScroll delay st) = true /\
  Debounce.listening (Debounce.handleScroll delay st) = Debounce.listening st
  /\ Debounce.now (Debounce.handleScroll delay st) = Debounce.now st.
Proof.
  intros Hone. pose proof (debounce_delete_held st Hone) as Hempty.
  unfold Debounce.handleScroll, Debounce.setIsScrolling.
  cbn [Debounce.timeoutId].
  destruct (Debounce.timeoutId st) as [id|];
    cbn [Debounce.clearTimeout Debounce.setTimeout Debounce.setTimeoutId
         Debounce.pending Debounce.timeoutId Debounce.isScrolling
         Debounce.listening Debounce.now Debounce.nextId];
    rewrite Hempty; repeat split; reflexivity.
Qed.

Lemma handleScroll_pending (delay : Z) (st : Debounce.State) :
  debounceInvariant st ->
  Debounce.pending (Debounce.handleScroll delay st)
  = {[ Debounce.nextId st := Debounce.now st + Z.max 0 delay ]} /\
  Debounce.timeoutId (Debounce.handleScroll delay st)
  = Some (Debounce.nextId st) /\
  Debounce.isScrolling (Debounce.handleScroll delay st) = true /\
  Debounce.listening (Debounce.handleScroll delay st) = Debounce.listening st
  /\ Debounce.now (Debounce.handleScroll delay st) = Debounce.now st.
Proof.
  intros (Hone & _). now apply handleScroll_single.
Qed.

Lemma debounce_step_invariant (delay : Z) (ev : Debounce.Event)
  (st : Debounce.State) :
  debounceInvariant st -> debounceInvariant (Debounce.step delay ev st).
Proof.
  intros Hinv. pose proof Hinv as (Hone & Hflag & Hoff).
  destruct ev as [| dt | id |]; cbn [Debounce.step].
  - destruct (Debounce.listening st) eqn:Hlistening; [| exact Hinv].
    destruct (handleScroll_pending delay st Hinv)
      as (Hpending & Hheld & Hscrolling & Hlisten & _).
    unfold debounceInvariant. rewrite Hpending, Hheld, Hscrolling, Hlisten.
    split; [| split].
    + intros id due Hid. apply lookup_singleton_Some in Hid as [<- _].
      reflexivity.
    + intros _. split; [intros _ | reflexivity].
      apply insert_non_empty.
    + rewrite Hlistening. discriminate.
  - exact Hinv.
  - destruct (Debounce.pending st !! id) as [due|] eqn:Hid; [| exact Hinv].
    destruct (due <=? Debounce.now st); [| exact Hinv].
    assert (Hgone : delete id (Debounce.pending st) = ∅).
    { rewrite (debounce_single_pending st id due Hone Hid).
      apply delete_singleton_eq. }
    unfold debounceInvariant.
    cbn [Debounce.setIsScrolling Debounce.clearTimeout Debounce.pending
         Debounce.timeoutId Debounce.isScrolling Debounce.listening].
    rewrite Hgone. split; [| split].
    + intros id' due' Hid'. rewrite lookup_empty in Hid'. discriminate.
    + intros _. split; [discriminate | intros Hne; now contradiction Hne].
    + reflexivity.
  - pose proof (debounce_delete_held st Hone) as Hempty.
    unfold debounceInvariant, Debounce.cleanup. cbn [Debounce.timeoutId].
    destruct (Debounce.timeoutId st) as [id|];
      cbn [Debounce.clearTimeout Debounce.pending Debounce.timeoutId
           Debounce.isScrolling Debounce.listening];
      rewrite Hempty; (split; [| split]);
      try discriminate; try reflexivity;
      intros id' due' Hid'; rewrite lookup_empty in Hid'; discriminate.
Qed.

Lemma debounce_mount_invariant (el : option HTMLElement) (firstId : nat)
  (start : Z) :
  debounceInvariant (Debounce.mount el firstId start).
Proof.
  unfold debounceInvariant, Debounce.mount, Debounce.effect, Debounce.initial.
  cbn [Debounce.pending Debounce.isScrolling Debounce.listening
       Debounce.timeoutId].
  split; [| split].
  - intros id due Hid. rewrite lookup_empty in Hid. discriminate.
  - intros _. split; [discriminate | intros Hne; now contradiction Hne].
  - reflexivity.
Qed.

Lemma debounce_run_invariant (delay : Z) (evs : list Debounce.Event)
  (st : Debounce.State) :
  debounceInvariant st -> debounceInvariant (Debounce.run delay evs st).
Proof.
  unfold Debounce.run. revert st.
  induction evs as [|ev evs IH]; intros st Hinv; [exact Hinv |].
  cbn [foldl]. apply IH, debounce_step_invariant, Hinv.
Qed.

Lemma debounceHeld_single (st : Debounce.State) :
  debounceHeld st ->
  forall id due, Debounce.pending st !! id = Some due ->
    Debounce.timeoutId st = Some id.
Proof.
  intros Hheld id due Hid. now destruct (Hheld id due Hid).
Qed.

Lemma debounceHeld_none (st : Debounce.State) :
  Debounce.pending st = ∅ -> debounceHeld st.
Proof.
  intros Hnone id due Hid. rewrite Hnone, lookup_empty in Hid. discriminate.
Qed.

Lemma debounce_step_held (delay : Z) (ev : Debounce.Event)
  (st : Debounce.State) :
  debounceHeld st -> debounceHeld (Debounce.step delay ev st).
Proof.
  intros Hheld. pose proof (debounceHeld_single st Hheld) as Hone.
  destruct ev as [| dt | id |]; cbn [Debounce.step].
  - destruct (Debounce.listening st) eqn:Hlistening; [| exact Hheld].
    destruct (handleScroll_single delay st Hone)
      as (Hpending & Htimer & Hscrolling & Hlisten & _).
    unfold debounceHeld. rewrite Hpending, Htimer, Hscrolling, Hlisten.
    intros id due Hid. apply lookup_singleton_Some in Hid as [<- _].
    now repeat split.
  - exact Hheld.
  - destruct (Debounce.pending st !! id) as [due|] eqn:Hid; [| exact Hheld].
    destruct (due <=? Debounce.now st); [| exact Hheld].
    apply debounceHeld_none.
    cbn [Debounce.setIsScrolling Debounce.clearTimeout Debounce.pending].
    rewrite (debounce_single_pending st id due Hone Hid).
    apply delete_singleton_eq.
  - apply debounceHeld_none.
    pose proof (debounce_delete_held st Hone) as Hempty.
    unfold Debounce.cleanup. cbn [Debounce.timeoutId].
    destruct (Debounce.timeoutId st) as [id|];
      cbn [Debounce.clearTimeout Debounce.pending]; exact Hempty.
Qed.

Lemma debounce_run_held (delay : Z) (evs : list Debounce.Event)
  (st : Debounce.State) :
  debounceHeld st -> debounceHeld (Debounce.run delay evs st).
Proof.
  unfold Debounce.run. revert st.
  induction evs as [|ev evs IH]; intros st Hheld; [exact Hheld |].
  cbn [foldl]. apply IH, debounce_step_held, Hheld.
Qed.

Lemma debounce_rerun_pending (el : option HTMLElement) (st : Debounce.State) :
  debounceHeld st -> Debounce.pending (Debounce.rerun el st) = ∅.
Proof.
  intros Hheld.
  pose proof (debounce_delete_held st (debounceHeld_single st Hheld))
    as Hempty.
  unfold Debounce.rerun, Debounce.effect, Debounce.cleanup.
  cbn [Debounce.timeoutId Debounce.pending].
  destruct (Debounce.timeoutId st) as [id|];
    cbn [Debounce.clearTimeout Debounce.pending]; exact Hempty.
Qed.

Lemma debounce_runs_held
  (lifetimes : list (option HTMLElement * Z * list Debounce.Event))
  (st : Debounce.State) :
  debounceHeld st -> debounceHeld (Debounce.runs lifetimes st).
Proof.
  revert st.
  induction lifetimes as [|[[el delay] evs] rest IH]; intros st Hheld;
    [exact Hheld |].
  cbn [Debounce.runs]. apply IH, debounce_run_held, debounceHeld_none.
  now apply debounce_rerun_pending.
Qed.

Lemma debounce_initial_held (firstId : nat) (start : Z) :
  debounceHeld (Debounce.initial firstId start).
Proof.
  now apply debounceHeld_none.
Qed.

(** Over all the runs of the effect (it runs again, after its cleanup,
    whenever [getScrollElement] or [scrollingDelay] changes), and however
    scroll events, the passing of time, timer expiries and cleanups
    interleave in each run: at most one timer of the effect is pending, it
    is the one held in [timeoutId] of the current run (no stale timer
    survives a newer scroll event or a re-run), and while it is pending
    [isScrolling] is [true] and the listener is registered; without the
    listener nothing is pending. *)
Theorem debounce_single_timer
  (lifetimes : list (option HTMLElement * Z * list Debounce.Event))
  (firstId : nat) (start : Z) :
  let st := Debounce.runs lifetimes (Debounce.initial firstId start) in
  (forall id due, Debounce.pending st !! id = Some due ->
     Debounce.timeoutId st = Some id /\
     Debounce.pending st = {[ id := due ]} /\
     Debounce.isScrolling st = true /\
     Debounce.listening st = true) /\
  (Debounce.listening st = false -> Debounce.pending st = ∅).
Proof.
  intros st.
  assert (Hheld : debounceHeld st).
  { apply debounce_runs_held, debounce_initial_held. }
  split.
  - intros id due Hid. destruct (Hheld id due Hid) as (Htimer & Hflag & Hon).
    split; [exact Htimer |]. split; [| now split].
    apply debounce_single_pending; [| exact Hid].
    now apply debounceHeld_single.
  - intros Hoff. apply map_empty. intros id.
    destruct (Debounce.pending st !! id) as [due|] eqn:Hid; [| reflexivity].
    destruct (Hheld id due Hid) as (_ & _ & Hon). congruence.
Qed.

Lemma debounce_single_timer_witness :
  Debounce.pending
    (Debounce.runs
       [(Some {| el_scrollTop := 0 |}, 100,
         [Debounce.Scroll; Debounce.Tick 30]);
        (Some {| el_scrollTop := 0 |}, 200,
         [Debounce.Scroll; Debounce.Tick 30; Debounce.Scroll])]
       (Debounce.initial 1 0))
  = {[ 3%nat := 260 ]}.
Proof.
  destruct (debounce_single_timer
              [(Some {| el_scrollTop := 0 |}, 100,
                [Debounce.Scroll; Debounce.Tick 30]);
               (Some {| el_scrollTop := 0 |}, 200,
                [Debounce.Scroll; Debounce.Tick 30; Debounce.Scroll])]
              1 0)
    as (Hone & _).
  destruct (Hone 3%nat 260) as (_ & Hpending & _);
    [vm_compute; reflexivity | exact Hpending].
Defined.

Lemma debounce_step_armed (delay since limit : Z) (ev : Debounce.Event)
  (st : Debounce.State) :
  limit <= since + Z.max 0 delay ->
  debounceInvariant st -> debounceArmed since limit st ->
  debounceArmed since limit (Debounce.step delay ev st).
Proof.
  intros Hlimit Hinv (Hclock & Hdue & Hreset).
  destruct ev as [| dt | id |]; cbn [Debounce.step].
  - destruct (Debounce.listening st); [| now repeat split].
    destruct (handleScroll_pending delay st Hinv)
      as (Hpending & _ & Hscrolling & _ & Hnow).
    unfold debounceArmed. rewrite Hpending, Hscrolling, Hnow.
    split; [exact Hclock |]. split; [| discriminate].
    intros id due Hid. apply lookup_singleton_Some in Hid as [_ <-]. lia.
  - unfold debounceArmed.
    cbn [Debounce.now Debounce.pending Debounce.isScrolling].
    split; [lia |]. split; [exact Hdue |].
    intros Hfalse. specialize (Hreset Hfalse). lia.
  - destruct (Debounce.pending st !! id) as [due|] eqn:Hid;
      [| now repeat split].
    destruct (due <=? Debounce.now st) eqn:Hfire; [| now repeat split].
    apply Z.leb_le in Hfire. pose proof (Hdue id due Hid) as Hlate.
    unfold debounceArmed.
    cbn [Debounce.setIsScrolling Debounce.clearTimeout Debounce.now
         Debounce.pending Debounce.isScrolling].
    split; [exact Hclock |]. split; [| intros _; lia].
    intros id' due' Hid'. apply lookup_delete_Some in Hid' as [_ Hid'].
    now apply (Hdue id').
  - unfold debounceArmed, Debounce.cleanup. cbn [Debounce.timeoutId].
    destruct (Debounce.timeoutId st) as [id|];
      cbn [Debounce.clearTimeout Debounce.now Debounce.pending
           Debounce.isScrolling];
      (split; [exact Hclock |]; split; [| exact Hreset]); [| exact Hdue].
    intros id' due' Hid'. apply lookup_delete_Some in Hid' as [_ Hid'].
    now apply (Hdue id').
Qed.

Lemma debounce_run_armed (delay since limit : Z) (evs : list Debounce.Event)
  (st : Debounce.State) :
  limit <= since + Z.max 0 delay ->
  debounceInvariant st -> debounceArmed since limit st ->
  debounceArmed since limit (Debounce.run delay evs st).
Proof.
  intros Hlimit. unfold Debounce.run. revert st.
  induction evs as [|ev evs IH]; intros st Hinv Harmed; [exact Harmed |].
  cbn [foldl]. apply IH.
  - now apply debounce_step_invariant.
  - now apply debounce_step_armed.
Qed.

(** The flag is not cleared early: after a scroll event that reached the
    listener, whatever happens next, [isScrolling] is still [true] as long
    as less than [scrollingDelay] milliseconds have passed since that
    event. *)
Theorem debounce_not_reset_early (el : option HTMLElement) (delay : Z)
  (firstId : nat) (start : Z) (before after : list Debounce.Event) :
  let st0 := Debounce.run delay before (Debounce.mount el firstId start) in
  let st1 := Debounce.step delay Debounce.Scroll st0 in
  let st2 := Debounce.run delay after st1 in
  Debounce.listening st0 = true ->
  Debounce.now st2 < Debounce.now st1 + delay ->
  Debounce.isScrolling st2 = true.
Proof.
  intros st0 st1 st2 Hlistening Hearly.
  assert (Hinv0 : debounceInvariant st0).
  { apply debounce_run_invariant, debounce_mount_invariant. }
  assert (Hinv1 : debounceInvariant st1).
  { now apply debounce_step_invariant. }
  assert (Harmed1 :
            debounceArmed (Debounce.now st1)
              (Debounce.now st1 + Z.max 0 delay) st1).
  { subst st1. cbn [Debounce.step]. rewrite Hlistening.
    destruct (handleScroll_pending delay st0 Hinv0)
      as (Hpending & _ & Hscrolling & _ & Hnow).
    unfold debounceArmed. rewrite Hpending, Hscrolling, Hnow.
    split; [lia |]. split; [| discriminate].
    intros id due Hid. apply lookup_singleton_Some in Hid as [_ <-]. lia. }
  destruct (debounce_run_armed delay (Debounce.now st1)
              (Debounce.now st1 + Z.max 0 delay) after st1
              (Z.le_refl _) Hinv1 Harmed1)
    as (_ & _ & Hreset).
  fold st2 in Hreset.
  destruct (Debounce.isScrolling st2); [reflexivity |].
  specialize (Hreset eq_refl). lia.
Qed.

Lemma debounce_not_reset_early_witness :
  Debounce.isScrolling
    (Debounce.run 100
       [Debounce.Tick 60; Debounce.Fire 1; Debounce.Tick 39; Debounce.Fire 2]
       (Debounce.step 100 Debounce.Scroll
          (Debounce.run 100 [Debounce.Scroll; Debounce.Tick 50]
             (Debounce.mount (Some {| el_scrollTop := 0 |}) 1 0))))
  = true.
Proof.
  apply (debounce_not_reset_early (Some {| el_scrollTop := 0 |}) 100 1 0
           [Debounce.Scroll; Debounce.Tick 50]
           [Debounce.Tick 60; Debounce.Fire 1; Debounce.Tick 39;
            Debounce.Fire 2]);
    reflexivity.
Defined.

(** Over all the runs of the effect, a pending timer is the only one, and
    once its due time has come its expiry clears the flag and leaves no
    timer behind. *)
Theorem debounce_reset_by_timer
  (lifetimes : list (option HTMLElement * Z * list Debounce.Event))
  (firstId : nat) (start : Z) (id : nat) (due : Z) :
  let st := Debounce.runs lifetimes (Debounce.initial firstId start) in
  Debounce.pending st !! id = Some due ->
  Debounce.isScrolling st = true /\
  Debounce.pending st = {[ id := due ]} /\
  forall delay dt, due <= Debounce.now st + Z.max 0 dt ->
    let st' := Debounce.run delay [Debounce.Tick dt; Debounce.Fire id] st in
    Debounce.isScrolling st' = false /\ Debounce.pending st' = ∅.
Proof.
  intros st Hid.
  assert (Hheld : debounceHeld st).
  { apply debounce_runs_held, debounce_initial_held. }
  destruct (Hheld id due Hid) as (_ & Hflag & _).
  pose proof (debounce_single_pending st id due
                (debounceHeld_single st Hheld) Hid) as Hpending.
  split; [exact Hflag |]. split; [exact Hpending |].
  intros delay dt Hdue st'. subst st'.
  unfold Debounce.run. cbn [foldl Debounce.step Debounce.pending Debounce.now].
  rewrite Hid. replace (due <=? _) with true by (symmetry; apply Z.leb_le; lia).
  cbn [Debounce.setIsScrolling Debounce.clearTimeout Debounce.isScrolling
       Debounce.pending].
  split; [reflexivity |]. rewrite Hpending. apply delete_singleton_eq.
Qed.

Lemma debounce_reset_by_timer_witness :
  Debounce.isScrolling
    (Debounce.run 200 [Debounce.Tick 250; Debounce.Fire 3]
       (Debounce.runs
          [(Some {| el_scrollTop := 0 |}, 100,
            [Debounce.Scroll; Debounce.Tick 30]);
           (Some {| el_scrollTop := 0 |}, 200,
            [Debounce.Scroll; Debounce.Tick 30; Debounce.Scroll])]
          (Debounce.initial 1 0)))
  = false.
Proof.
  destruct (debounce_reset_by_timer
              [(Some {| el_scrollTop := 0 |}, 100,
                [Debounce.Scroll; Debounce.Tick 30]);
               (Some {| el_scrollTop := 0 |}, 200,
                [Debounce.Scroll; Debounce.Tick 30; Debounce.Scroll])]
              1 0 3%nat 260)
    as (_ & _ & Hreset).
  - vm_compute. reflexivity.
  - destruct (Hreset 200 250) as [Hflag _]; [discriminate | exact Hflag].
Defined.

Lemma debounce_quiet_step (delay : Z) (ev : Debounce.Event)
  (st : Debounce.State) :
  ev <> Debounce.Scroll -> Debounce.pending st = ∅ ->
  Debounce.pending (Debounce.step delay ev st) = ∅ /\
  Debounce.isScrolling (Debounce.step delay ev st) = Debounce.isScrolling st.
Proof.
  intros Hev Hpending.
  destruct ev as [| dt | id |]; cbn [Debounce.step].
  - now contradiction Hev.
  - now split.
  - rewrite Hpending, lookup_empty. now split.
  - unfold Debounce.cleanup. cbn [Debounce.timeoutId].
    destruct (Debounce.timeoutId st) as [id|];
      cbn [Debounce.clearTimeout Debounce.pending Debounce.isScrolling];
      rewrite Hpending, ?delete_empty; now split.
Qed.

(** The effect running again does not touch [isScrolling], and its cleanup
    cancels the pending timer: when a dependency of the effect changes
    while [isScrolling] is [true], the flag stays [true], with no timer
    pending, until the next scroll event; the passing of time, timer
    expiries and the cleanup do not change it. *)
Theorem debounce_rerun_keeps_flag
  (lifetimes : list (option HTMLElement * Z * list Debounce.Event))
  (firstId : nat) (start : Z) (el : option HTMLElement) (delay : Z)
  (evs : list Debounce.Event) :
  let st := Debounce.runs lifetimes (Debounce.initial firstId start) in
  let st' := Debounce.run delay evs (Debounce.rerun el st) in
  Forall (fun ev => ev <> Debounce.Scroll) evs ->
  Debounce.isScrolling st' = Debounce.isScrolling st /\
  Debounce.pending st' = ∅.
Proof.
  intros st st' Hquiet.
  assert (Hheld : debounceHeld st).
  { apply debounce_runs_held, debounce_initial_held. }
  pose proof (debounce_rerun_pending el st Hheld) as Hnone.
  assert (Hflag : Debounce.isScrolling (Debounce.rerun el st)
                  = Debounce.isScrolling st).
  { unfold Debounce.rerun, Debounce.effect, Debounce.cleanup.
    cbn [Debounce.timeoutId Debounce.isScrolling].
    now destruct (Debounce.timeoutId st). }
  subst st'. rewrite <- Hflag. clear Hflag.
  generalize dependent (Debounce.rerun el st). unfold Debounce.run.
  induction Hquiet as [|ev evs Hev _ IH]; intros s Hnone; [now split |].
  cbn [foldl].
  destruct (debounce_quiet_step delay ev s Hev Hnone) as [Hnone' Hsame].
  destruct (IH _ Hnone') as [IHflag IHnone].
  split; [now rewrite IHflag | exact IHnone].
Qed.

Lemma debounce_rerun_keeps_flag_witness :
  Debounce.isScrolling
    (Debounce.run 200 [Debounce.Tick 1000; Debounce.Fire 1]
       (Debounce.rerun (Some {| el_scrollTop := 0 |})
          (Debounce.runs
             [(Some {| el_scrollTop := 0 |}, 100, [Debounce.Scroll])]
             (Debounce.initial 1 0))))
  = true.
Proof.
  destruct (debounce_rerun_keeps_flag
              [(Some {| el_scrollTop := 0 |}, 100, [Debounce.Scroll])]
              1 0 (Some {| el_scrollTop := 0 |}) 200
              [Debounce.Tick 1000; Debounce.Fire 1])
    as [Hflag _].
  - repeat (constructor; [discriminate |]). constructor.
  - rewrite Hflag. reflexivity.
Defined.

Lemma debounce_idle_step (delay : Z) (ev : Debounce.Event)
  (st : Debounce.State) :
  Debounce.listening st = false -> Debounce.pending st = ∅ ->
  Debounce.listening (Debounce.step delay ev st) = false /\
  Debounce.pending (Debounce.step delay ev st) = ∅ /\
  Debounce.isScrolling (Debounce.step delay ev st) = Debounce.isScrolling st.
Proof.
  intros Hlistening Hpending.
  destruct ev as [| dt | id |]; cbn [Debounce.step].
  - rewrite Hlistening. now repeat split.
  - now repeat split.
  - rewrite Hpending, lookup_empty. now repeat split.
  - unfold Debounce.cleanup. cbn [Debounce.timeoutId].
    destruct (Debounce.timeoutId st) as [id|];
      cbn [Debounce.clearTimeout Debounce.listening Debounce.pending
           Debounce.isScrolling];
      rewrite Hpending, ?delete_empty; now repeat split.
Qed.

(** After the cleanup of the effect nothing of it is left in the host: no
    timer is pending, and no later event (a scroll event, a timer expiry)
    changes [isScrolling]; without a scroll element the same holds from
    the start, with [isScrolling = false]. *)
Theorem debounce_cleanup_cancels (el : option HTMLElement) (delay : Z)
  (firstId : nat) (start : Z) (before after : list Debounce.Event) :
  let st := Debounce.run delay before (Debounce.mount el firstId start) in
  let st' := Debounce.run delay after (Debounce.cleanup st) in
  Debounce.pending (Debounce.cleanup st) = ∅ /\
  Debounce.pending st' = ∅ /\
  Debounce.isScrolling st' = Debounce.isScrolling st /\
  (el = None -> Debounce.isScrolling st = false /\ Debounce.pending st = ∅).
Proof.
  intros st st'.
  assert (Hinv : debounceInvariant st).
  { apply debounce_run_invariant, debounce_mount_invariant. }
  assert (Hidle : forall evs s,
            Debounce.listening s = false -> Debounce.pending s = ∅ ->
            Debounce.pending (Debounce.run delay evs s) = ∅ /\
            Debounce.isScrolling (Debounce.run delay evs s)
            = Debounce.isScrolling s).
  { unfold Debounce.run. induction evs as [|ev evs IH]; intros s Hoff Hnone;
      [now split |].
    cbn [foldl].
    destruct (debounce_idle_step delay ev s Hoff Hnone)
      as (Hoff' & Hnone' & Hsame).
    destruct (IH _ Hoff' Hnone') as [IHnone IHsame].
    split; [exact IHnone | now rewrite IHsame]. }
  pose proof (debounce_step_invariant delay Debounce.Cleanup st Hinv)
    as (_ & _ & Hoff).
  cbn [Debounce.step] in Hoff.
  assert (Hlistening : Debounce.listening (Debounce.cleanup st) = false).
  { unfold Debounce.cleanup. cbn [Debounce.timeoutId].
    now destruct (Debounce.timeoutId st). }
  specialize (Hoff Hlistening).
  destruct (Hidle after _ Hlistening Hoff) as [Hnone Hsame].
  split; [exact Hoff |]. split; [exact Hnone |]. split.
  - subst st'. rewrite Hsame. unfold Debounce.cleanup.
    cbn [Debounce.timeoutId]. now destruct (Debounce.timeoutId st).
  - intros ->. subst st.
    destruct (Hidle before (Debounce.mount None firstId start) eq_refl eq_refl)
      as [Hnone0 Hsame0].
    split; [exact Hsame0 | exact Hnone0].
Qed.

Lemma debounce_cleanup_cancels_witness :
  Debounce.isScrolling
    (Debounce.run 100 [Debounce.Tick 10; Debounce.Scroll; Debounce.Fire 1]
       (Debounce.mount None 1 0))
  = false.
Proof.
  destruct (debounce_cleanup_cancels None 100 1 0
              [Debounce.Tick 10; Debounce.Scroll; Debounce.Fire 1] [])
    as (_ & _ & _ & Hnone).
  now destruct (Hnone eq_refl).
Defined.
